(** * Kinematics and workspace sampling of the planar arms

    A shallow embedding of the kinematics engine of the repository:

    - [PartB]: [assignment1/partb/robot_arm.py], class [RoboticArm]
      (all joints revolute), and the area estimate of
      [assignment1/partb/workspace_visualization.py];
    - [PartC]: [assignment1/partc/robotic_arm_4dof.py], classes [Joint]
      and [RoboticArm4DOF] (revolute and prismatic joints).

    Conventions of the embedding.

    - Python floats are read as real numbers ([R]); rounding, infinities
      and NaN are not modelled.
    - A Python exception is a value [Raise e] of [result]; a method that
      mutates [self] returns the new object next to its value.
    - [scipy.optimize.minimize] is outside the repository.  It is modelled
      as a strategy tree ([scipy.Optimizer]): the optimizer either returns
      an [OptimizeResult] or calls one of the two callbacks it was given
      and continues according to the answer.  The trees are well founded,
      which is the iteration cap of the optimizer.  Both arms are
      parametrised by such a strategy.
    - The wall clock read by [time.time()] is a parameter ([elapsed]).
    - [print] calls and the unused matrix [T = np.eye(3)] are left out. *)

From Stdlib Require Import String.
From Stdlib Require Import Reals Lra Lia List Bool Arith.
From Stdlib Require Import Rgeom.
Import ListNotations.
Open Scope R_scope.

(** ** Python values *)

Inductive exn : Type :=
| IndexError
| ValueError
| ZeroDivisionError.

Inductive result (A : Type) : Type :=
| Ok (a : A)
| Raise (e : exn).

Arguments Ok {A} a.
Arguments Raise {A} e.

Definition bind {A B : Type} (m : result A) (k : A -> result B) : result B :=
  match m with
  | Ok a => k a
  | Raise e => Raise e
  end.

Notation "x <- m ;; k" := (bind m (fun x => k))
  (at level 61, m at next level, right associativity).
Notation "' p <- m ;; k" := (bind m (fun p => k))
  (at level 61, p pattern, m at next level, right associativity).

Definition is_ok {A : Type} (m : result A) : bool :=
  match m with
  | Ok _ => true
  | Raise _ => false
  end.

Module py.

(** [a <= b] and [a < b] on floats. *)
Definition le (a b : R) : bool := if Rle_dec a b then true else false.
Definition lt (a b : R) : bool := if Rlt_dec a b then true else false.

(** [l[i]] for [0 <= i]; out of range raises [IndexError]. *)
Definition getitem {A : Type} (l : list A) (i : nat) : result A :=
  match nth_error l i with
  | Some a => Ok a
  | None => Raise IndexError
  end.

(** [l[i] = v] on an array; out of range raises [IndexError]. *)
Fixpoint setitem {A : Type} (l : list A) (i : nat) (v : A) : result (list A) :=
  match l, i with
  | [], _ => Raise IndexError
  | _ :: t, O => Ok (v :: t)
  | a :: t, S i' => t' <- setitem t i' v ;; Ok (a :: t')
  end.

(** [enumerate(l)]. *)
Definition enumerate {A : Type} (l : list A) : list (nat * A) :=
  combine (seq 0 (length l)) l.

(** [zip(a, b)] stops at the shorter argument. *)
Definition zip {A B : Type} (a : list A) (b : list B) : list (A * B) :=
  combine a b.

(** The builtin [max] of a list of floats; [ValueError] on the empty list. *)
Definition max (l : list R) : result R :=
  match l with
  | [] => Raise ValueError
  | a :: t => Ok (fold_left Rmax t a)
  end.

(** A [for] loop whose body may raise. *)
Fixpoint for_ {A S : Type} (l : list A) (body : S -> A -> result S) (s : S)
  : result S :=
  match l with
  | [] => Ok s
  | a :: t => s' <- body s a ;; for_ t body s'
  end.

End py.

Module np.

Definition sum (l : list R) : R := fold_right Rplus 0 l.

Fixpoint cumsum_from (acc : R) (l : list R) : list R :=
  match l with
  | [] => []
  | a :: t => (acc + a) :: cumsum_from (acc + a) t
  end.

Definition cumsum (l : list R) : list R := cumsum_from 0 l.

Definition zeros (n : nat) : list R := repeat 0 n.

(** [np.zeros((n, 2))]. *)
Definition zeros2 (n : nat) : list (R * R) := repeat (0, 0) n.

(** [np.linspace(start, stop, num)] with the default [endpoint=True]: the
    samples [start + i * step], [step = (stop - start) / (num - 1)], and the
    last one overwritten by [stop] when there are at least two. *)
Definition linspace (start stop : R) (num : nat) : list R :=
  let div := (num - 1)%nat in
  let delta := stop - start in
  let y :=
    if (0 <? div)%nat
    then map (fun i => start + INR i * (delta / INR div)) (seq 0 num)
    else map (fun i => start + INR i * delta) (seq 0 num) in
  if (1 <? num)%nat then removelast y ++ [stop] else y.

(** [np.linalg.norm] of a 2-vector. *)
Definition norm (v : R * R) : R := sqrt (fst v * fst v + snd v * snd v).

(** [a[-1]] on an array; [IndexError] when it is empty. *)
Definition last {A : Type} (l : list A) : result A :=
  match l with
  | [] => Raise IndexError
  | a :: t => Ok (List.last t a)
  end.

End np.

Module scipy.

(** The fields of [OptimizeResult] the arms read ([fun] is [fun_] here). *)
Record OptimizeResult : Type := {
  success : bool;
  x : list R;
  fun_ : R
}.

(** [options={'maxiter': ..., 'ftol': ...}]. *)
Record Options : Type := {
  maxiter : nat;
  ftol : R
}.

(** What the optimizer does, as a tree of callback calls. *)
Inductive Optimizer : Type :=
| Return (r : OptimizeResult)
| CallObjective (v : list R) (k : R -> Optimizer)
| CallConstraint (v : list R) (k : list R -> Optimizer).

(** [minimize(fun, x0, method='SLSQP', constraints=..., options=...)]:
    the strategy is fixed by [x0] and the options. *)
Definition Minimize : Type := list R -> option Options -> Optimizer.

(** Running a strategy against the callbacks; [S] is the state the
    objective may change.  An exception in a callback leaves [minimize]. *)
Fixpoint run {S : Type}
  (objective : list R -> S -> result (R * S))
  (constraint : list R -> result (list R))
  (o : Optimizer) (s : S) : result (OptimizeResult * S) :=
  match o with
  | Return r => Ok (r, s)
  | CallObjective v k =>
      match objective v s with
      | Ok (f, s') => run objective constraint (k f) s'
      | Raise e => Raise e
      end
  | CallConstraint v k =>
      match constraint v with
      | Ok c => run objective constraint (k c) s
      | Raise e => Raise e
      end
  end.

End scipy.

(** ** [assignment1/partb/robot_arm.py] *)

Module PartB.

Record RoboticArm : Type := {
  link_lengths : list R;
  num_joints : nat;
  joint_angles : list R;
  joint_limits : list (R * R)
}.

(** [RoboticArm.__init__]: no argument is checked. *)
Definition __init__ (link_lengths : list R)
  (joint_limits : option (list (R * R))) : result RoboticArm :=
  let n := length link_lengths in
  Ok {| link_lengths := link_lengths;
        num_joints := n;
        joint_angles := np.zeros n;
        joint_limits :=
          match joint_limits with
          | None => repeat (- PI, PI) n
          | Some l => l
          end |}.

(** One turn of the loop of [forward_kinematics]. *)
Definition fk_body (self : RoboticArm) (cumulative_angles : list R)
  (joint_positions : list (R * R)) (i : nat) : result (list (R * R)) :=
  p <- py.getitem joint_positions i ;;
  l <- py.getitem (link_lengths self) i ;;
  c <- py.getitem cumulative_angles i ;;
  py.setitem joint_positions (i + 1) (fst p + l * cos c, snd p + l * sin c).

Definition forward_kinematics (self : RoboticArm)
  (joint_angles_arg : option (list R)) : result ((R * R) * list (R * R)) :=
  let joint_angles :=
    match joint_angles_arg with
    | None => joint_angles self
    | Some a => a
    end in
  let cumulative_angles := np.cumsum joint_angles in
  let joint_positions := np.zeros2 (num_joints self + 1) in
  joint_positions <-
    py.for_ (seq 0 (num_joints self)) (fk_body self cumulative_angles)
      joint_positions ;;
  end_effector_pos <- np.last joint_positions ;;
  Ok (end_effector_pos, joint_positions).

(** The inner function [objective] of [inverse_kinematics]. *)
Definition objective (self : RoboticArm) (target_x target_y : R)
  (angles : list R) : result R :=
  '(pos, _) <- forward_kinematics self (Some angles) ;;
  Ok ((fst pos - target_x) ^ 2 + (snd pos - target_y) ^ 2).

(** The inner function [constraint] of [inverse_kinematics]. *)
Definition constraint (self : RoboticArm) (angles : list R)
  : result (list R) :=
  py.for_ (py.enumerate (joint_limits self))
    (fun constraints '(i, (min_angle, max_angle)) =>
       a <- py.getitem angles i ;;
       Ok (constraints ++ [a - min_angle; max_angle - a]))
    [].

Definition is_reachable (self : RoboticArm) (x y : R) : result bool :=
  let distance := sqrt (x ^ 2 + y ^ 2) in
  let max_reach := np.sum (link_lengths self) in
  l <- np.last (link_lengths self) ;;
  let min_reach := Rabs (np.sum (removelast (link_lengths self)) - l) in
  Ok (py.le min_reach distance && py.le distance max_reach).

Definition set_joint_angles (self : RoboticArm) (angles : list R)
  : RoboticArm :=
  {| link_lengths := link_lengths self;
     num_joints := num_joints self;
     joint_angles := angles;
     joint_limits := joint_limits self |}.

Definition get_joint_positions (self : RoboticArm) : result (list (R * R)) :=
  '(_, joint_positions) <- forward_kinematics self None ;;
  Ok joint_positions.

Section Solver.

Variable minimize : scipy.Minimize.

(** [inverse_kinematics]: [Ok None] is the Python [None].  The arm is the
    state handed to the callbacks; [forward_kinematics] only reads it. *)
Definition inverse_kinematics_run (self : RoboticArm) (target_x target_y : R)
  (initial_guess_arg : option (list R))
  : result (option (list R) * RoboticArm) :=
  let initial_guess :=
    match initial_guess_arg with
    | None => joint_angles self
    | Some g => g
    end in
  '(res, self') <-
    scipy.run
      (fun angles s => f <- objective s target_x target_y angles ;; Ok (f, s))
      (constraint self)
      (minimize initial_guess None) self ;;
  if scipy.success res then Ok (Some (scipy.x res), self')
  else Ok (None, self').

Definition inverse_kinematics (self : RoboticArm) (target_x target_y : R)
  (initial_guess_arg : option (list R)) : result (option (list R)) :=
  '(r, _) <- inverse_kinematics_run self target_x target_y initial_guess_arg ;;
  Ok r.

(** The body of the two nested loops of [get_workspace], for one point.
    The third component is not in the source: it records the targets on
    which [inverse_kinematics] was entered. *)
Definition workspace_body
  (self : RoboticArm)
  (st : list (R * R) * list (R * R) * list (R * R)) (p : R * R)
  : result (list (R * R) * list (R * R) * list (R * R)) :=
  let '(reachable_points, all_points, ik_calls) := st in
  let all_points := all_points ++ [p] in
  ok <- is_reachable self (fst p) (snd p) ;;
  if ok then
    angles <- inverse_kinematics self (fst p) (snd p) None ;;
    match angles with
    | Some _ => Ok (reachable_points ++ [p], all_points, ik_calls ++ [p])
    | None => Ok (reachable_points, all_points, ik_calls ++ [p])
    end
  else Ok (reachable_points, all_points, ik_calls).

(** The points of the grid in the order of the loops: [x] outer, [y] inner. *)
Definition grid (x_range y_range : list R) : list (R * R) :=
  flat_map (fun x => map (fun y => (x, y)) y_range) x_range.

Definition get_workspace_traced (self : RoboticArm) (resolution : nat)
  : result (list (R * R) * list (R * R) * list (R * R)) :=
  let max_reach := np.sum (link_lengths self) in
  let x_range := np.linspace (- max_reach) max_reach resolution in
  let y_range := np.linspace (- max_reach) max_reach resolution in
  py.for_ (grid x_range y_range) (workspace_body self) ([], [], []).

(** [get_workspace]: the pair [(reachable_points, all_points)]. *)
Definition get_workspace (self : RoboticArm) (resolution : nat)
  : result (list (R * R) * list (R * R)) :=
  '(reachable_points, all_points, _) <- get_workspace_traced self resolution ;;
  Ok (reachable_points, all_points).

(** [WorkspaceVisualizer.analyze_workspace_metrics], from the two arrays
    [calculate_workspace] stored: the area it prints.  Before that line it
    reads [link_lengths[-1]] (for the minimum reach) and prints the ratio
    [len(reachable_points) / len(all_points)], so it raises on an arm
    without links and on an empty sample. *)
Definition workspace_area (self : RoboticArm)
  (reachable_points all_points : list (R * R)) : result R :=
  let max_reach_theoretical := np.sum (link_lengths self) in
  last_link <- np.last (link_lengths self) ;;
  let workspace_area :=
    if (0 <? length reachable_points)%nat
    then INR (length reachable_points)
         * (2 * max_reach_theoretical / sqrt (INR (length all_points))) ^ 2
    else 0 in
  if (length all_points =? 0)%nat then Raise ZeroDivisionError
  else Ok workspace_area.

End Solver.

End PartB.

(** ** [assignment1/partc/robotic_arm_4dof.py] *)

Module PartC.

Record Joint : Type := {
  joint_type : string;
  limits : R * R;
  value : R;
  min_limit : R;
  max_limit : R
}.

(** [Joint.__init__], with the default [initial_value = 0.0]. *)
Definition Joint__init__ (joint_type : string) (limits : R * R) : Joint :=
  {| joint_type := joint_type;
     limits := limits;
     value := 0;
     min_limit := fst limits;
     max_limit := snd limits |}.

(** [Joint.set_value]: the joint after the call and the returned flag. *)
Definition set_value (self : Joint) (v : R) : Joint * bool :=
  if py.le (min_limit self) v && py.le v (max_limit self)
  then ({| joint_type := joint_type self;
           limits := limits self;
           value := v;
           min_limit := min_limit self;
           max_limit := max_limit self |}, true)
  else (self, false).

Record RoboticArm4DOF : Type := {
  base_links : list R;
  num_joints : nat;
  joints : list Joint;
  joint_values : list R;
  base_position : R * R;
  fk_calculations : nat;
  ik_calculations : nat;
  calculation_times : list R
}.

(** [RoboticArm4DOF.__init__]: the loop reads the first four entries of
    [joint_types] and [joint_limits]; [base_links] is stored as it is. *)
Definition __init__ (base_links : list R) (joint_types : list string)
  (joint_limits : list (R * R)) : result RoboticArm4DOF :=
  let num_joints := 4%nat in
  joints <-
    py.for_ (seq 0 num_joints)
      (fun joints i =>
         t <- py.getitem joint_types i ;;
         l <- py.getitem joint_limits i ;;
         Ok (joints ++ [Joint__init__ t l]))
      [] ;;
  Ok {| base_links := base_links;
        num_joints := num_joints;
        joints := joints;
        joint_values := map value joints;
        base_position := (0, 0);
        fk_calculations := 0;
        ik_calculations := 0;
        calculation_times := [] |}.

(** The state of the loop of [forward_kinematics]. *)
Record fk_state : Type := {
  current_pos : R * R;
  current_angle : R;
  joint_positions : list (R * R)
}.

(** One turn of the loop of [forward_kinematics]. *)
Definition fk_body (self : RoboticArm4DOF) (st : fk_state)
  (item : nat * (Joint * R)) : fk_state :=
  let '(i, (joint, value)) := item in
  let st :=
    if String.eqb (joint_type joint) "revolute" then
      let current_angle := current_angle st + value in
      let link_length :=
        if (i <? length (base_links self))%nat
        then nth i (base_links self) 0
        else 1 in
      {| current_pos :=
           (fst (current_pos st) + link_length * cos current_angle,
            snd (current_pos st) + link_length * sin current_angle);
         current_angle := current_angle;
         joint_positions := joint_positions st |}
    else if String.eqb (joint_type joint) "prismatic" then
      let extension := value in
      {| current_pos :=
           (fst (current_pos st) + extension * cos (current_angle st),
            snd (current_pos st) + extension * sin (current_angle st));
         current_angle := current_angle st;
         joint_positions := joint_positions st |}
    else st in
  {| current_pos := current_pos st;
     current_angle := current_angle st;
     joint_positions := joint_positions st ++ [current_pos st] |}.

(** The geometry computed by [forward_kinematics]: the pair it returns. *)
Definition fk_positions (self : RoboticArm4DOF) (joint_values : list R)
  : (R * R) * list (R * R) :=
  let st :=
    fold_left (fk_body self)
      (combine (seq 0 (length (py.zip (joints self) joint_values)))
         (py.zip (joints self) joint_values))
      {| current_pos := base_position self;
         current_angle := 0;
         joint_positions := [base_position self] |} in
  (current_pos st, joint_positions st).

Section Solver.

Variable minimize : scipy.Minimize.

(** [elapsed k] is the duration [time.time() - start_time] measured when
    [k] durations have been recorded so far. *)
Variable elapsed : nat -> R.

(** The object after the performance metrics have been updated by a
    forward-kinematics call. *)
Definition count_fk (self : RoboticArm4DOF) : RoboticArm4DOF :=
  {| base_links := base_links self;
     num_joints := num_joints self;
     joints := joints self;
     joint_values := joint_values self;
     base_position := base_position self;
     fk_calculations := fk_calculations self + 1;
     ik_calculations := ik_calculations self;
     calculation_times :=
       calculation_times self ++ [elapsed (length (calculation_times self))] |}.

Definition count_ik (self : RoboticArm4DOF) : RoboticArm4DOF :=
  {| base_links := base_links self;
     num_joints := num_joints self;
     joints := joints self;
     joint_values := joint_values self;
     base_position := base_position self;
     fk_calculations := fk_calculations self;
     ik_calculations := ik_calculations self + 1;
     calculation_times :=
       calculation_times self ++ [elapsed (length (calculation_times self))] |}.

Definition forward_kinematics (self : RoboticArm4DOF)
  (joint_values_arg : option (list R))
  : ((R * R) * list (R * R)) * RoboticArm4DOF :=
  let joint_values :=
    match joint_values_arg with
    | None => joint_values self
    | Some v => v
    end in
  (fk_positions self joint_values, count_fk self).

(** The inner function [objective_function] of [inverse_kinematics]. *)
Definition objective_function (target_pos : R * R) (joint_vals : list R)
  (self : RoboticArm4DOF) : result (R * RoboticArm4DOF) :=
  let '((end_pos, _), self) := forward_kinematics self (Some joint_vals) in
  Ok (np.norm (fst end_pos - fst target_pos, snd end_pos - snd target_pos),
      self).

(** The inner function [constraint_function] of [inverse_kinematics]. *)
Definition constraint_function (self : RoboticArm4DOF) (joint_vals : list R)
  : result (list R) :=
  Ok (flat_map
        (fun '(joint, val) => [val - min_limit joint; max_limit joint - val])
        (py.zip (joints self) joint_vals)).

Definition inverse_kinematics (self : RoboticArm4DOF) (target_pos : R * R)
  (initial_guess_arg : option (list R))
  : result ((bool * list R) * RoboticArm4DOF) :=
  let initial_guess :=
    match initial_guess_arg with
    | None => joint_values self
    | Some g => g
    end in
  '(res, self) <-
    scipy.run (objective_function target_pos) (constraint_function self)
      (minimize initial_guess
         (Some {| scipy.maxiter := 100; scipy.ftol := 1 / 1000000 |}))
      self ;;
  let self := count_ik self in
  let success := scipy.success res && py.lt (scipy.fun_ res) (1 / 100) in
  Ok ((success, if success then scipy.x res else initial_guess), self).

(** The loop of [set_joint_configuration]: every joint of the zip is
    offered its value; [valid] records whether all accepted. *)
Fixpoint set_values (joints : list Joint) (joint_values : list R)
  : list Joint * bool :=
  match joints, joint_values with
  | joint :: joints', v :: values' =>
      let '(joint', ok) := set_value joint v in
      let '(rest, valid) := set_values joints' values' in
      (joint' :: rest, ok && valid)
  | _, _ => (joints, true)
  end.

Definition set_joint_configuration (self : RoboticArm4DOF)
  (joint_values_arg : list R) : bool * RoboticArm4DOF :=
  let '(joints', valid) := set_values (joints self) joint_values_arg in
  (valid,
   {| base_links := base_links self;
      num_joints := num_joints self;
      joints := joints';
      joint_values := if valid then joint_values_arg else joint_values self;
      base_position := base_position self;
      fk_calculations := fk_calculations self;
      ik_calculations := ik_calculations self;
      calculation_times := calculation_times self |}).

(** The dictionary returned by [get_workspace_analysis]. *)
Record WorkspaceData : Type := {
  reachable_points : list (R * R);
  reachability_ratio : R;
  total_points_tested : nat;
  workspace_area : R;
  max_reach : R
}.

(** [max_reach] as [get_workspace_analysis] computes it. *)
Definition grid_max_reach (self : RoboticArm4DOF) : result R :=
  m <- py.max
         (map max_limit
            (filter (fun joint => String.eqb (joint_type joint) "prismatic")
               (joints self))) ;;
  Ok (np.sum (base_links self) + m).

(** The body of the inner loop of [get_workspace_analysis] at the grid
    indices [i], [j]. *)
Definition workspace_body (resolution total_points : nat)
  (st : list (R * R) * RoboticArm4DOF) (item : (nat * R) * (nat * R))
  : result (list (R * R) * RoboticArm4DOF) :=
  let '(reachable_points, self) := st in
  let '((i, x), (j, y)) := item in
  let target := (x, y) in
  '((success, _), self) <- inverse_kinematics self target None ;;
  let reachable_points :=
    if success then reachable_points ++ [(x, y)] else reachable_points in
  if (total_points / 10 =? 0)%nat then Raise ZeroDivisionError
  else Ok (reachable_points, self).

(** The pairs of enumerated coordinates in the order of the two loops. *)
Definition enumerated_grid (x_range y_range : list R)
  : list ((nat * R) * (nat * R)) :=
  flat_map (fun ix => map (fun jy => (ix, jy)) (py.enumerate y_range))
    (py.enumerate x_range).

Definition get_workspace_analysis (self : RoboticArm4DOF) (resolution : nat)
  : result (WorkspaceData * RoboticArm4DOF) :=
  max_reach <- grid_max_reach self ;;
  let x_range := np.linspace (- max_reach) max_reach resolution in
  let y_range := np.linspace (- max_reach) max_reach resolution in
  let total_points := (resolution * resolution)%nat in
  '(reachable_points, self) <-
    py.for_ (enumerated_grid x_range y_range)
      (workspace_body resolution total_points) ([], self) ;;
  if (total_points =? 0)%nat then Raise ZeroDivisionError
  else
    let reachability_ratio :=
      INR (length reachable_points) / INR total_points in
    Ok ({| reachable_points := reachable_points;
           reachability_ratio := reachability_ratio;
           total_points_tested := total_points;
           workspace_area :=
             INR (length reachable_points)
             * (2 * max_reach / INR resolution) ^ 2;
           max_reach := max_reach |}, self).

End Solver.

(** [create_4dof_arm_configuration]. *)
Definition create_4dof_arm_configuration : result RoboticArm4DOF :=
  let base_links := [2; 3 / 2; 0; 1] in
  let joint_types :=
    ["revolute"; "revolute"; "prismatic"; "revolute"]%string in
  let joint_limits :=
    [(- PI, PI); (- PI / 2, PI / 2); (0, 2); (- PI, PI)] in
  __init__ base_links joint_types joint_limits.

End PartC.

(** ** [assignment1/partb/pick_and_place.py] *)

(** One-dimensional numpy arrays under [+], [-] and scalar [*]. *)
Module ndarray.

Fixpoint map2 (f : R -> R -> R) (a b : list R) : list R :=
  match a, b with
  | x :: a', y :: b' => f x y :: map2 f a' b'
  | _, _ => []
  end.

(** An elementwise operation on two arrays of shapes [(n,)] and [(m,)]:
    the shapes must be equal unless one of them is [(1,)], which is then
    broadcast; otherwise numpy raises [ValueError]. *)
Definition elementwise (f : R -> R -> R) (a b : list R) : result (list R) :=
  if (length a =? length b)%nat then Ok (map2 f a b)
  else
    match a, b with
    | [x], _ => Ok (map (f x) b)
    | _, [y] => Ok (map (fun x => f x y) a)
    | _, _ => Raise ValueError
    end.

Definition add (a b : list R) : result (list R) := elementwise Rplus a b.
Definition sub (a b : list R) : result (list R) := elementwise Rminus a b.

(** [t * a] for a float [t]. *)
Definition scale (t : R) (a : list R) : list R := map (Rmult t) a.

End ndarray.

Module PickAndPlace.

(** The state of [PickAndPlaceSimulation] the planner works on; the
    matplotlib figure and its artists are left out. *)
Record PickAndPlaceSimulation : Type := {
  robot : PartB.RoboticArm;
  objects : list (R * R);
  target_locations : list (R * R);
  animation_data : list (list R)
}.

Definition add_object (self : PickAndPlaceSimulation) (x y : R)
  : PickAndPlaceSimulation :=
  {| robot := robot self;
     objects := objects self ++ [(x, y)];
     target_locations := target_locations self;
     animation_data := animation_data self |}.

Definition add_target (self : PickAndPlaceSimulation) (x y : R)
  : PickAndPlaceSimulation :=
  {| robot := robot self;
     objects := objects self;
     target_locations := target_locations self ++ [(x, y)];
     animation_data := animation_data self |}.

(** [interpolate_path]: [i / (steps - 1)] divides two integers, so it
    raises [ZeroDivisionError] when [steps] is 1. *)
Definition interpolate_path (start_angles end_angles : list R) (steps : nat)
  : result (list (list R)) :=
  py.for_ (seq 0 steps)
    (fun path i =>
       t <- (if (steps - 1 =? 0)%nat then Raise ZeroDivisionError
             else Ok (INR i / INR (steps - 1))) ;;
       difference <- ndarray.sub end_angles start_angles ;;
       interpolated <- ndarray.add start_angles (ndarray.scale t difference) ;;
       Ok (path ++ [interpolated]))
    [].

Section Solver.

Variable minimize : scipy.Minimize.

(** The state of the loop of [plan_pick_and_place]: the sequence, the
    current angles and the objects visited so far, after their move. *)
Definition plan_body (self : PickAndPlaceSimulation)
  (st : list (list R) * list R * list (R * R)) (item : nat * (R * R))
  : result (list (list R) * list R * list (R * R)) :=
  let '(sequence, current_angles, visited) := st in
  let '(i, obj) := item in
  if (i <? length (target_locations self))%nat then
    target <- py.getitem (target_locations self) i ;;
    pick_angles <-
      PartB.inverse_kinematics minimize (robot self) (fst obj) (snd obj)
        None ;;
    match pick_angles with
    | Some pick_angles =>
        path <- interpolate_path current_angles pick_angles 50 ;;
        let sequence := sequence ++ path in
        let current_angles := pick_angles in
        let sequence := sequence ++ repeat current_angles 10 in
        place_angles <-
          PartB.inverse_kinematics minimize (robot self) (fst target)
            (snd target) None ;;
        match place_angles with
        | Some place_angles =>
            path <- interpolate_path current_angles place_angles 50 ;;
            let sequence := sequence ++ path in
            let current_angles := place_angles in
            let sequence := sequence ++ repeat current_angles 10 in
            Ok (sequence, current_angles, visited ++ [target])
        | None => Ok (sequence, current_angles, visited ++ [obj])
        end
    | None => Ok (sequence, current_angles, visited ++ [obj])
    end
  else Ok (sequence, current_angles, visited ++ [obj]).

(** [plan_pick_and_place]: the returned sequence, and the simulation with
    the objects the plan has moved. *)
Definition plan_pick_and_place (self : PickAndPlaceSimulation)
  : result (list (list R) * PickAndPlaceSimulation) :=
  let sequence := [] in
  let current_angles := PartB.joint_angles (robot self) in
  let home_angles := np.zeros (PartB.num_joints (robot self)) in
  path <- interpolate_path current_angles home_angles 50 ;;
  let sequence := sequence ++ path in
  let current_angles := home_angles in
  '(sequence, current_angles, visited) <-
    py.for_ (py.enumerate (objects self)) (plan_body self)
      (sequence, current_angles, []) ;;
  path <- interpolate_path current_angles home_angles 50 ;;
  let sequence := sequence ++ path in
  Ok (sequence,
      {| robot := robot self;
         objects := visited;
         target_locations := target_locations self;
         animation_data := animation_data self |}).

End Solver.

End PickAndPlace.

(** ** [assignment1/partc/conveyor_sorting_system.py]

    The objects on the belt are shared between the belt and the sorting
    system and are changed in place, so they live in a memory and are named
    by reference.  Every call of [random.random], [random.uniform] or
    [random.choice] takes the next draw of a source that is a parameter.
    The wall clock read by [ConveyorBelt.update] is an argument.  The
    drawing code, the [print] calls, the two dictionaries of
    [ObjectDetector] that are never read and the local [detection_rate] of
    [get_performance_metrics] that is never returned are left out. *)

Module Conveyor.

(** The exceptions of this file: [KeyError] from a dictionary, and the
    ones of the arm and of the arrays. *)
Inductive error : Type :=
| KeyError
| Builtin (e : exn).

Inductive outcome (A : Type) : Type :=
| Done (a : A)
| Fail (e : error).

Arguments Done {A} a.
Arguments Fail {A} e.

(** [a == b] on floats. *)
Definition float_eq (a b : R) : bool :=
  if Req_dec_T a b then true else false.

Module ConveyorObject.

Record t : Type := {
  x : R;
  y : R;
  size : string;
  color : string;
  width : R;
  height : R;
  speed : R;
  picked : bool;
  sorted : bool
}.

(** The [__eq__] of the dataclass: the fields are compared in order. *)
Definition eqb (a b : t) : bool :=
  float_eq (x a) (x b) && float_eq (y a) (y b)
  && String.eqb (size a) (size b) && String.eqb (color a) (color b)
  && float_eq (width a) (width b) && float_eq (height a) (height b)
  && float_eq (speed a) (speed b)
  && Bool.eqb (picked a) (picked b) && Bool.eqb (sorted a) (sorted b).

Definition set_x (o : t) (v : R) : t :=
  {| x := v; y := y o; size := size o; color := color o; width := width o;
     height := height o; speed := speed o; picked := picked o;
     sorted := sorted o |}.

Definition set_picked (o : t) (v : bool) : t :=
  {| x := x o; y := y o; size := size o; color := color o; width := width o;
     height := height o; speed := speed o; picked := v;
     sorted := sorted o |}.

Definition set_sorted (o : t) (v : bool) : t :=
  {| x := x o; y := y o; size := size o; color := color o; width := width o;
     height := height o; speed := speed o; picked := picked o;
     sorted := v |}.

End ConveyorObject.

(** The source of [random]: the float in [[0, 1)] and the index that the
    [k]-th call draws. *)
Record Random : Type := {
  unit_draw : nat -> R;
  index_draw : nat -> nat
}.

(** The objects created so far, by reference, and the number of draws
    taken from [random]. *)
Record Memory : Type := {
  heap : nat -> ConveyorObject.t;
  allocated : nat;
  drawn : nat
}.

(** Code that reads and changes the memory and may raise. *)
Definition M (A : Type) : Type := Memory -> outcome (A * Memory).

Definition ret {A : Type} (a : A) : M A := fun m => Done (a, m).

Definition raise {A : Type} (e : error) : M A := fun _ => Fail e.

Definition and_then {A B : Type} (c : M A) (k : A -> M B) : M B :=
  fun m =>
    match c m with
    | Done (a, m') => k a m'
    | Fail e => Fail e
    end.

Notation "x <~ c ;; k" := (and_then c (fun x => k))
  (at level 61, c at next level, right associativity).

Definition lift {A : Type} (r : result A) : M A :=
  fun m =>
    match r with
    | Ok a => Done (a, m)
    | Raise e => Fail (Builtin e)
    end.

Fixpoint for_each {A S : Type} (l : list A) (body : S -> A -> M S) (s : S)
  : M S :=
  match l with
  | [] => ret s
  | a :: l' => s' <~ body s a ;; for_each l' body s'
  end.

(** Reading an object, changing it in place and creating one. *)
Definition read (r : nat) : M ConveyorObject.t :=
  fun m => Done (heap m r, m).

Definition write (r : nat) (o : ConveyorObject.t) : M unit :=
  fun m =>
    Done (tt, {| heap := fun k => if (k =? r)%nat then o else heap m k;
                 allocated := allocated m;
                 drawn := drawn m |}).

Definition new (o : ConveyorObject.t) : M nat :=
  fun m =>
    Done (allocated m,
          {| heap := fun k => if (k =? allocated m)%nat then o else heap m k;
             allocated := S (allocated m);
             drawn := drawn m |}).

(** [random.random()], [random.uniform(a, b)] and [random.choice(l)]. *)
Definition random_random (rng : Random) : M R :=
  fun m =>
    Done (unit_draw rng (drawn m),
          {| heap := heap m; allocated := allocated m;
             drawn := S (drawn m) |}).

Definition random_uniform (rng : Random) (a b : R) : M R :=
  u <~ random_random rng ;; ret (a + (b - a) * u).

Definition random_choice {A : Type} (rng : Random) (l : list A) : M A :=
  fun m =>
    match nth_error l (index_draw rng (drawn m) mod length l) with
    | Some a =>
        Done (a, {| heap := heap m; allocated := allocated m;
                    drawn := S (drawn m) |})
    | None => Fail (Builtin IndexError)
    end.

(** [d[k]] and [k in d] on a dictionary. *)
Fixpoint lookup {K V : Type} (eqb : K -> K -> bool) (d : list (K * V)) (k : K)
  : option V :=
  match d with
  | [] => None
  | (k', v) :: d' => if eqb k' k then Some v else lookup eqb d' k
  end.

Definition getitem {K V : Type} (eqb : K -> K -> bool) (d : list (K * V))
  (k : K) : M V :=
  match lookup eqb d k with
  | Some v => ret v
  | None => raise KeyError
  end.

(** [l.remove(v)]: the first element equal to [v] is taken out;
    [ValueError] when there is none. *)
Fixpoint remove {A : Type} (eqb : A -> bool) (l : list A) : result (list A) :=
  match l with
  | [] => Raise ValueError
  | a :: l' => if eqb a then Ok l' else l'' <- remove eqb l' ;; Ok (a :: l'')
  end.

Module ConveyorBelt.

Record t : Type := {
  length : R;
  width : R;
  speed : R;
  objects : list nat;
  belt_x : R;
  belt_y : R;
  object_spawn_rate : R;
  last_spawn_time : R;
  size_definitions : list (string * (R * R));
  color_definitions : list (string * (R * R * R))
}.

Definition __init__ (length width speed : R) : t :=
  {| length := length;
     width := width;
     speed := speed;
     objects := [];
     belt_x := 0;
     belt_y := - 3;
     object_spawn_rate := 2;
     last_spawn_time := 0;
     size_definitions :=
       [("small"%string, (2 / 10, 2 / 10));
        ("medium"%string, (4 / 10, 4 / 10));
        ("large"%string, (6 / 10, 6 / 10))];
     color_definitions :=
       [("red"%string, (1, 2 / 10, 2 / 10));
        ("green"%string, (2 / 10, 1, 2 / 10));
        ("blue"%string, (2 / 10, 2 / 10, 1))] |}.

Definition set_objects (self : t) (v : list nat) : t :=
  {| length := length self; width := width self; speed := speed self;
     objects := v; belt_x := belt_x self; belt_y := belt_y self;
     object_spawn_rate := object_spawn_rate self;
     last_spawn_time := last_spawn_time self;
     size_definitions := size_definitions self;
     color_definitions := color_definitions self |}.

Definition set_last_spawn_time (self : t) (v : R) : t :=
  {| length := length self; width := width self; speed := speed self;
     objects := objects self; belt_x := belt_x self; belt_y := belt_y self;
     object_spawn_rate := object_spawn_rate self;
     last_spawn_time := v;
     size_definitions := size_definitions self;
     color_definitions := color_definitions self |}.

Section Source.

Variable rng : Random.

Definition spawn_object (self : t) : M t :=
  size <~ random_choice rng ["small"; "medium"; "large"]%string ;;
  color <~ random_choice rng ["red"; "green"; "blue"]%string ;;
  dimensions <~ getitem String.eqb (size_definitions self) size ;;
  let x := belt_x self - length self / 2 - 5 / 10 in
  u <~ random_uniform rng (- width self / 4) (width self / 4) ;;
  let y := belt_y self + u in
  obj <~ new {| ConveyorObject.x := x;
                ConveyorObject.y := y;
                ConveyorObject.size := size;
                ConveyorObject.color := color;
                ConveyorObject.width := fst dimensions;
                ConveyorObject.height := snd dimensions;
                ConveyorObject.speed := speed self;
                ConveyorObject.picked := false;
                ConveyorObject.sorted := false |} ;;
  ret (set_objects self (objects self ++ [obj])).

(** One turn of the loop of [update], for the reference [obj] of the
    copy of the list. *)
Definition update_body (dt : R) (self : t) (obj : nat) : M t :=
  o <~ read obj ;;
  if negb (ConveyorObject.picked o) then
    let o := ConveyorObject.set_x o (ConveyorObject.x o + speed self * dt) in
    _ <~ write obj o ;;
    if py.lt (belt_x self + length self / 2 + 1) (ConveyorObject.x o) then
      fun m =>
        lift
          (l <- remove
                  (fun r => (r =? obj)%nat
                            || ConveyorObject.eqb (heap m r) (heap m obj))
                  (objects self) ;;
           Ok (set_objects self l))
          m
    else ret self
  else ret self.

(** [update]; [current_time] is what [time.time()] returns. *)
Definition update (self : t) (dt current_time : R) : M t :=
  self <~
    (if float_eq (object_spawn_rate self) 0
     then raise (Builtin ZeroDivisionError)
     else if py.lt (1 / object_spawn_rate self)
               (current_time - last_spawn_time self)
     then self <~ spawn_object self ;;
          ret (set_last_spawn_time self current_time)
     else ret self) ;;
  for_each (objects self) (update_body dt) self.

End Source.

(** One turn of the loop of [get_objects_in_pickup_zone]. *)
Definition pickup_body (pickup_x pickup_width : R) (pickup_objects : list nat)
  (obj : nat) : M (list nat) :=
  o <~ read obj ;;
  if negb (ConveyorObject.picked o) && negb (ConveyorObject.sorted o)
     && (py.le (pickup_x - pickup_width / 2) (ConveyorObject.x o)
         && py.le (ConveyorObject.x o) (pickup_x + pickup_width / 2))
  then ret (pickup_objects ++ [obj])
  else ret pickup_objects.

Definition get_objects_in_pickup_zone (self : t) (pickup_x pickup_width : R)
  : M (list nat) :=
  for_each (objects self) (pickup_body pickup_x pickup_width) [].

End ConveyorBelt.

Module ObjectDetector.

(** The dictionary [detection_info]. *)
Record Detection : Type := {
  object : nat;
  position : R * R;
  size : string;
  color : string;
  confidence : R;
  actual_size : string;
  actual_color : string
}.

Definition classify_size (width height : R) : string :=
  let area := width * height in
  if py.le area (1 / 10) then "small"
  else if py.le area (25 / 100) then "medium"
  else "large".

Section Source.

Variable rng : Random.

Definition classify_color (actual_color : string) : M string :=
  r <~ random_random rng ;;
  if py.lt r (95 / 100) then ret actual_color
  else
    colors <~ lift (remove (fun c => String.eqb c actual_color)
                      ["red"; "green"; "blue"]%string) ;;
    random_choice rng colors.

(** One turn of the loop of [detect_objects]. *)
Definition detect_body (detection_zone : R * R * R)
  (detected : list Detection) (obj : nat) : M (list Detection) :=
  let '(center_x, width, y_pos) := detection_zone in
  o <~ read obj ;;
  if negb (ConveyorObject.picked o) && negb (ConveyorObject.sorted o)
     && (py.le (center_x - width / 2) (ConveyorObject.x o)
         && py.le (ConveyorObject.x o) (center_x + width / 2))
     && py.le (Rabs (ConveyorObject.y o - y_pos)) 1
  then
    let detected_size :=
      classify_size (ConveyorObject.width o) (ConveyorObject.height o) in
    detected_color <~ classify_color (ConveyorObject.color o) ;;
    confidence <~ random_uniform rng (8 / 10) (98 / 100) ;;
    ret (detected
           ++ [{| object := obj;
                  position := (ConveyorObject.x o, ConveyorObject.y o);
                  size := detected_size;
                  color := detected_color;
                  confidence := confidence;
                  actual_size := ConveyorObject.size o;
                  actual_color := ConveyorObject.color o |}])
  else ret detected.

Definition detect_objects (conveyor_objects : list nat)
  (detection_zone : R * R * R) : M (list Detection) :=
  for_each conveyor_objects (detect_body detection_zone) [].

End Source.

End ObjectDetector.

Module SortingSystem.

(** [start_time] is the attribute [create_sorting_animation] sets from
    outside; [__init__] does not create it. *)
Record t : Type := {
  arm : PartC.RoboticArm4DOF;
  conveyor : ConveyorBelt.t;
  sorting_zones : list ((string * string) * (R * R));
  detection_zone : R * R * R;
  objects_sorted : nat;
  correct_sorts : nat;
  detection_attempts : nat;
  pick_attempts : nat;
  successful_picks : nat;
  current_target : option (list R);
  picking_object : option nat;
  arm_state : string;
  start_time : option R
}.

Definition set_arm (self : t) (v : PartC.RoboticArm4DOF) : t :=
  {| arm := v;
     conveyor := conveyor self;
     sorting_zones := sorting_zones self;
     detection_zone := detection_zone self;
     objects_sorted := objects_sorted self;
     correct_sorts := correct_sorts self;
     detection_attempts := detection_attempts self;
     pick_attempts := pick_attempts self;
     successful_picks := successful_picks self;
     current_target := current_target self;
     picking_object := picking_object self;
     arm_state := arm_state self;
     start_time := start_time self |}.

Definition set_conveyor (self : t) (v : ConveyorBelt.t) : t :=
  {| arm := arm self;
     conveyor := v;
     sorting_zones := sorting_zones self;
     detection_zone := detection_zone self;
     objects_sorted := objects_sorted self;
     correct_sorts := correct_sorts self;
     detection_attempts := detection_attempts self;
     pick_attempts := pick_attempts self;
     successful_picks := successful_picks self;
     current_target := current_target self;
     picking_object := picking_object self;
     arm_state := arm_state self;
     start_time := start_time self |}.

Definition set_objects_sorted (self : t) (v : nat) : t :=
  {| arm := arm self;
     conveyor := conveyor self;
     sorting_zones := sorting_zones self;
     detection_zone := detection_zone self;
     objects_sorted := v;
     correct_sorts := correct_sorts self;
     detection_attempts := detection_attempts self;
     pick_attempts := pick_attempts self;
     successful_picks := successful_picks self;
     current_target := current_target self;
     picking_object := picking_object self;
     arm_state := arm_state self;
     start_time := start_time self |}.

Definition set_correct_sorts (self : t) (v : nat) : t :=
  {| arm := arm self;
     conveyor := conveyor self;
     sorting_zones := sorting_zones self;
     detection_zone := detection_zone self;
     objects_sorted := objects_sorted self;
     correct_sorts := v;
     detection_attempts := detection_attempts self;
     pick_attempts := pick_attempts self;
     successful_picks := successful_picks self;
     current_target := current_target self;
     picking_object := picking_object self;
     arm_state := arm_state self;
     start_time := start_time self |}.

Definition set_detection_attempts (self : t) (v : nat) : t :=
  {| arm := arm self;
     conveyor := conveyor self;
     sorting_zones := sorting_zones self;
     detection_zone := detection_zone self;
     objects_sorted := objects_sorted self;
     correct_sorts := correct_sorts self;
     detection_attempts := v;
     pick_attempts := pick_attempts self;
     successful_picks := successful_picks self;
     current_target := current_target self;
     picking_object := picking_object self;
     arm_state := arm_state self;
     start_time := start_time self |}.

Definition set_pick_attempts (self : t) (v : nat) : t :=
  {| arm := arm self;
     conveyor := conveyor self;
     sorting_zones := sorting_zones self;
     detection_zone := detection_zone self;
     objects_sorted := objects_sorted self;
     correct_sorts := correct_sorts self;
     detection_attempts := detection_attempts self;
     pick_attempts := v;
     successful_picks := successful_picks self;
     current_target := current_target self;
     picking_object := picking_object self;
     arm_state := arm_state self;
     start_time := start_time self |}.

Definition set_successful_picks (self : t) (v : nat) : t :=
  {| arm := arm self;
     conveyor := conveyor self;
     sorting_zones := sorting_zones self;
     detection_zone := detection_zone self;
     objects_sorted := objects_sorted self;
     correct_sorts := correct_sorts self;
     detection_attempts := detection_attempts self;
     pick_attempts := pick_attempts self;
     successful_picks := v;
     current_target := current_target self;
     picking_object := picking_object self;
     arm_state := arm_state self;
     start_time := start_time self |}.

Definition set_current_target (self : t) (v : option (list R)) : t :=
  {| arm := arm self;
     conveyor := conveyor self;
     sorting_zones := sorting_zones self;
     detection_zone := detection_zone self;
     objects_sorted := objects_sorted self;
     correct_sorts := correct_sorts self;
     detection_attempts := detection_attempts self;
     pick_attempts := pick_attempts self;
     successful_picks := successful_picks self;
     current_target := v;
     picking_object := picking_object self;
     arm_state := arm_state self;
     start_time := start_time self |}.

Definition set_picking_object (self : t) (v : option nat) : t :=
  {| arm := arm self;
     conveyor := conveyor self;
     sorting_zones := sorting_zones self;
     detection_zone := detection_zone self;
     objects_sorted := objects_sorted self;
     correct_sorts := correct_sorts self;
     detection_attempts := detection_attempts self;
     pick_attempts := pick_attempts self;
     successful_picks := successful_picks self;
     current_target := current_target self;
     picking_object := v;
     arm_state := arm_state self;
     start_time := start_time self |}.

Definition set_arm_state (self : t) (v : string) : t :=
  {| arm := arm self;
     conveyor := conveyor self;
     sorting_zones := sorting_zones self;
     detection_zone := detection_zone self;
     objects_sorted := objects_sorted self;
     correct_sorts := correct_sorts self;
     detection_attempts := detection_attempts self;
     pick_attempts := pick_attempts self;
     successful_picks := successful_picks self;
     current_target := current_target self;
     picking_object := picking_object self;
     arm_state := v;
     start_time := start_time self |}.

Definition set_start_time (self : t) (v : option R) : t :=
  {| arm := arm self;
     conveyor := conveyor self;
     sorting_zones := sorting_zones self;
     detection_zone := detection_zone self;
     objects_sorted := objects_sorted self;
     correct_sorts := correct_sorts self;
     detection_attempts := detection_attempts self;
     pick_attempts := pick_attempts self;
     successful_picks := successful_picks self;
     current_target := current_target self;
     picking_object := picking_object self;
     arm_state := arm_state self;
     start_time := v |}.

(** [SortingSystem.__init__]. *)
Definition __init__ : result t :=
  arm <- PartC.create_4dof_arm_configuration ;;
  let conveyor := ConveyorBelt.__init__ 8 (15 / 10) (5 / 10) in
  Ok {| arm := arm;
        conveyor := conveyor;
        sorting_zones :=
          [(("small", "red"), (3, 1));
           (("small", "green"), (35 / 10, 1));
           (("small", "blue"), (4, 1));
           (("medium", "red"), (3, 15 / 10));
           (("medium", "green"), (35 / 10, 15 / 10));
           (("medium", "blue"), (4, 15 / 10));
           (("large", "red"), (3, 2));
           (("large", "green"), (35 / 10, 2));
           (("large", "blue"), (4, 2))]%string;
        detection_zone := (0, 2, ConveyorBelt.belt_y conveyor);
        objects_sorted := 0;
        correct_sorts := 0;
        detection_attempts := 0;
        pick_attempts := 0;
        successful_picks := 0;
        current_target := None;
        picking_object := None;
        arm_state := "scanning";
        start_time := None |}.

(** [==] on the keys of [sorting_zones]. *)
Definition key_eqb (a b : string * string) : bool :=
  String.eqb (fst a) (fst b) && String.eqb (snd a) (snd b).

(** [np.linalg.norm] of a one-dimensional array. *)
Definition norm (v : list R) : R :=
  sqrt (np.sum (map (fun a => a * a) v)).

(** [max(detected_objects, key=lambda x: x['confidence'])] on a list
    with the first element [d]: the first detection of the largest
    confidence. *)
Definition best (d : ObjectDetector.Detection)
  (l : list ObjectDetector.Detection) : ObjectDetector.Detection :=
  fold_left
    (fun b c =>
       if py.lt (ObjectDetector.confidence b) (ObjectDetector.confidence c)
       then c else b)
    l d.

(** The dictionary returned by [get_performance_metrics]. *)
Record Metrics : Type := {
  metrics_objects_processed : nat;
  metrics_objects_sorted : nat;
  metrics_detection_attempts : nat;
  metrics_successful_picks : nat;
  pick_success_rate : R;
  sort_accuracy : R;
  system_throughput : R
}.

(** [get_performance_metrics]; [now] and [now'] are the two readings of
    [time.time()], the second one being the default of [getattr]. *)
Definition get_performance_metrics (self : t) (now now' : R) : Metrics :=
  let rates :=
    if (0 <? detection_attempts self)%nat then
      (if (0 <? pick_attempts self)%nat
       then INR (successful_picks self) / INR (pick_attempts self)
       else 0,
       if (0 <? objects_sorted self)%nat
       then INR (correct_sorts self) / INR (objects_sorted self)
       else 0)
    else (0, 0) in
  let running :=
    now - match start_time self with
          | Some s => s
          | None => now'
          end in
  {| metrics_objects_processed :=
       List.length (ConveyorBelt.objects (conveyor self));
     metrics_objects_sorted := objects_sorted self;
     metrics_detection_attempts := detection_attempts self;
     metrics_successful_picks := successful_picks self;
     pick_success_rate := fst rates;
     sort_accuracy := snd rates;
     system_throughput :=
       INR (objects_sorted self) / (if py.lt 1 running then running else 1) |}.

Section Solver.

Variable minimize : scipy.Minimize.
Variable elapsed : nat -> R.
Variable rng : Random.

Definition start_pick_sequence (self : t)
  (detection : ObjectDetector.Detection) : M t :=
  let self := set_detection_attempts self (detection_attempts self + 1) in
  let self :=
    set_picking_object self (Some (ObjectDetector.object detection)) in
  let pick_pos :=
    (fst (ObjectDetector.position detection),
     snd (ObjectDetector.position detection) + 3 / 10) in
  r <~ lift (PartC.inverse_kinematics minimize elapsed (arm self) pick_pos
               None) ;;
  let '((success, solution), arm') := r in
  let self := set_arm self arm' in
  if success then
    let self := set_current_target self (Some solution) in
    let self := set_arm_state self "moving_to_pick" in
    ret (set_pick_attempts self (pick_attempts self + 1))
  else ret (set_arm_state self "scanning").

Definition execute_pick (self : t) : M t :=
  match picking_object self with
  | Some obj =>
      o <~ read obj ;;
      if negb (ConveyorObject.picked o) then
        _ <~ write obj (ConveyorObject.set_picked o true) ;;
        let self := set_successful_picks self (successful_picks self + 1) in
        let obj_key := (ConveyorObject.size o, ConveyorObject.color o) in
        match lookup key_eqb (sorting_zones self) obj_key with
        | Some sort_pos =>
            r <~ lift (PartC.inverse_kinematics minimize elapsed (arm self)
                         sort_pos None) ;;
            let '((success, solution), arm') := r in
            let self := set_arm self arm' in
            if success then
              let self := set_current_target self (Some solution) in
              ret (set_arm_state self "moving_to_sort")
            else ret (set_arm_state self "scanning")
        | None => ret (set_arm_state self "scanning")
        end
      else ret self
  | None => ret self
  end.

Definition execute_sort (self : t) : M t :=
  match picking_object self with
  | Some obj =>
      o <~ read obj ;;
      _ <~ write obj (ConveyorObject.set_sorted o true) ;;
      let self := set_objects_sorted self (objects_sorted self + 1) in
      let self :=
        if String.eqb (ConveyorObject.size o) (ConveyorObject.size o)
           && String.eqb (ConveyorObject.color o) (ConveyorObject.color o)
        then set_correct_sorts self (correct_sorts self + 1)
        else self in
      let self := set_picking_object self None in
      let self := set_current_target self None in
      ret (set_arm_state self "scanning")
  | None => ret self
  end.

(** The common body of [execute_pick_movement] and
    [execute_sort_movement]; [arrive] is [execute_pick] or
    [execute_sort]. *)
Definition execute_movement (arrive : t -> M t) (self : t) (dt : R) : M t :=
  match current_target self with
  | Some target =>
      let current_config := PartC.joint_values (arm self) in
      diff <~ lift (ndarray.sub target current_config) ;;
      let step_size := 2 * dt in
      if py.lt (norm diff) (1 / 10) then
        let self :=
          set_arm self (snd (PartC.set_joint_configuration (arm self) target))
        in
        arrive self
      else
        new_config <~
          lift (ndarray.add current_config
                  (map (fun a => a / norm diff)
                     (ndarray.scale step_size diff))) ;;
        ret (set_arm self
               (snd (PartC.set_joint_configuration (arm self) new_config)))
  | None => ret self
  end.

Definition execute_pick_movement (self : t) (dt : R) : M t :=
  execute_movement execute_pick self dt.

Definition execute_sort_movement (self : t) (dt : R) : M t :=
  execute_movement execute_sort self dt.

(** [update]; [current_time] is what [time.time()] returns in
    [ConveyorBelt.update]. *)
Definition update (self : t) (dt current_time : R) : M t :=
  belt <~ ConveyorBelt.update rng (conveyor self) dt current_time ;;
  let self := set_conveyor self belt in
  detected_objects <~
    ObjectDetector.detect_objects rng (ConveyorBelt.objects (conveyor self))
      (detection_zone self) ;;
  match String.eqb (arm_state self) "scanning", detected_objects with
  | true, d :: l => start_pick_sequence self (best d l)
  | _, _ =>
      if String.eqb (arm_state self) "moving_to_pick"
      then execute_pick_movement self dt
      else if String.eqb (arm_state self) "moving_to_sort"
      then execute_sort_movement self dt
      else ret self
  end.

End Solver.

End SortingSystem.

End Conveyor.

(** ** The chain of the specification

    These definitions follow the words of the specification (sections 3
    and 4); the theorems below compare the code with them. *)

Module Spec.

Inductive Kind : Type :=
| Rotational
| Translational.

Record Joint : Type := {
  kind : Kind;
  link_length : R;
  range : R * R
}.

Definition KinematicChain : Type := list Joint.

(** Section 4.1, item 2: the orientation and the position after one joint. *)
Definition advance (j : Joint) (v : R) (pos : R * R) (theta : R)
  : (R * R) * R :=
  match kind j with
  | Rotational =>
      let theta' := theta + v in
      ((fst pos + link_length j * cos theta',
        snd pos + link_length j * sin theta'), theta')
  | Translational =>
      ((fst pos + v * cos theta, snd pos + v * sin theta), theta)
  end.

Fixpoint positions_from (chain : KinematicChain) (values : list R)
  (pos : R * R) (theta : R) : list (R * R) :=
  match chain, values with
  | j :: chain', v :: values' =>
      let '(pos', theta') := advance j v pos theta in
      pos' :: positions_from chain' values' pos' theta'
  | _, _ => []
  end.

(** Section 4.1, item 3: the end effector and the sequence of positions,
    base first. *)
Definition forward_kinematics (chain : KinematicChain) (values : list R)
  : (R * R) * list (R * R) :=
  let positions := (0, 0) :: positions_from chain values (0, 0) 0 in
  (List.last positions (0, 0), positions).

Definition rotational_links (chain : KinematicChain) : list R :=
  map link_length
    (filter (fun j => match kind j with Rotational => true | _ => false end)
       chain).

Definition translational_extents (chain : KinematicChain) : list R :=
  map (fun j => snd (range j))
    (filter (fun j => match kind j with Translational => true | _ => false end)
       chain).

(** Section 3: the sum of the rotational link lengths plus the sum of the
    maximum extents of the translational joints. *)
Definition max_reach (chain : KinematicChain) : R :=
  np.sum (rotational_links chain) + np.sum (translational_extents chain).

Definition largest (l : list R) : R := fold_right Rmax 0 l.

(** Section 3: the longest rotational link against the sum of the others. *)
Definition min_reach (chain : KinematicChain) : R :=
  let links := rotational_links chain in
  Rabs (largest links - (np.sum links - largest links)).


End Spec.

(** ** The chains the two arms stand for, and the notions of the theorems *)

(** The chain of the 3-link arm: every joint is rotational. *)
Definition rotational_chain (links : list R) : Spec.KinematicChain :=
  map (fun l =>
         {| Spec.kind := Spec.Rotational;
            Spec.link_length := l;
            Spec.range := (- PI, PI) |})
    links.

(** The link length [forward_kinematics] of the 4-DOF arm uses for the
    joint of index [i]. *)
Definition link_at (base_links : list R) (i : nat) : R :=
  if (i <? length base_links)%nat then nth i base_links 0 else 1.

Definition known_type (j : PartC.Joint) : bool :=
  String.eqb (PartC.joint_type j) "revolute"
  || String.eqb (PartC.joint_type j) "prismatic".

Definition spec_joint (base_links : list R) (i : nat) (j : PartC.Joint)
  : Spec.Joint :=
  if String.eqb (PartC.joint_type j) "revolute"
  then {| Spec.kind := Spec.Rotational;
          Spec.link_length := link_at base_links i;
          Spec.range := (PartC.min_limit j, PartC.max_limit j) |}
  else {| Spec.kind := Spec.Translational;
          Spec.link_length := 0;
          Spec.range := (PartC.min_limit j, PartC.max_limit j) |}.

Fixpoint chain_from (base_links : list R) (i : nat) (js : list PartC.Joint)
  : Spec.KinematicChain :=
  match js with
  | [] => []
  | j :: js' => spec_joint base_links i j :: chain_from base_links (S i) js'
  end.

Definition chain_of (self : PartC.RoboticArm4DOF) : Spec.KinematicChain :=
  chain_from (PartC.base_links self) 0 (PartC.joints self).

(** The positions of a chain of revolute joints from the cumulative angles,
    as the loop of the 3-link arm computes them. *)
Fixpoint chain_positions (links cums : list R) (pos : R * R)
  : list (R * R) :=
  match links, cums with
  | l :: links', c :: cums' =>
      let pos' := (fst pos + l * cos c, snd pos + l * sin c) in
      pos' :: chain_positions links' cums' pos'
  | _, _ => []
  end.

Definition arm_3link : PartB.RoboticArm :=
  {| PartB.link_lengths := [3; 5 / 2; 3 / 2];
     PartB.num_joints := 3;
     PartB.joint_angles := [0; 0; 0];
     PartB.joint_limits := [(- PI, PI); (- PI, PI); (- PI, PI)] |}.

Definition arm_4dof : PartC.RoboticArm4DOF :=
  {| PartC.base_links := [2; 3 / 2; 0; 1];
     PartC.num_joints := 4;
     PartC.joints :=
       [PartC.Joint__init__ "revolute" (- PI, PI);
        PartC.Joint__init__ "revolute" (- PI / 2, PI / 2);
        PartC.Joint__init__ "prismatic" (0, 2);
        PartC.Joint__init__ "revolute" (- PI, PI)];
     PartC.joint_values := [0; 0; 0; 0];
     PartC.base_position := (0, 0);
     PartC.fk_calculations := 0;
     PartC.ik_calculations := 0;
     PartC.calculation_times := [] |}.

(** The parts of a 4-DOF arm that describe the chain, as opposed to the
    performance counters. *)
Definition same_chain (a b : PartC.RoboticArm4DOF) : Prop :=
  PartC.base_links a = PartC.base_links b
  /\ PartC.num_joints a = PartC.num_joints b
  /\ PartC.joints a = PartC.joints b
  /\ PartC.joint_values a = PartC.joint_values b
  /\ PartC.base_position a = PartC.base_position b.

(** An optimizer that only handles vectors of [n] components. *)
Inductive shaped (n : nat) : scipy.Optimizer -> Prop :=
| shaped_return (r : scipy.OptimizeResult) : shaped n (scipy.Return r)
| shaped_objective (v : list R) (k : R -> scipy.Optimizer) :
    length v = n -> (forall f, shaped n (k f)) ->
    shaped n (scipy.CallObjective v k)
| shaped_constraint (v : list R) (k : list R -> scipy.Optimizer) :
    length v = n -> (forall c, shaped n (k c)) ->
    shaped n (scipy.CallConstraint v k).

(** [minimize] works on vectors of the shape of [x0]. *)
Definition keeps_shape (minimize : scipy.Minimize) : Prop :=
  forall (x0 : list R) (options : option scipy.Options),
    shaped (length x0) (minimize x0 options).

(** The distance of the end effector from the target at the joint vector
    [v]: the objective of the 4-DOF solver. *)
Definition residual (self : PartC.RoboticArm4DOF) (target : R * R)
  (v : list R) : R :=
  let end_pos := fst (PartC.fk_positions self v) in
  np.norm (fst end_pos - fst target, snd end_pos - snd target).

(** The options the 4-DOF solver passes to [minimize]. *)
Definition options_4dof : option scipy.Options :=
  Some {| scipy.maxiter := 100; scipy.ftol := 1 / 1000000 |}.

(** The initial guess of a solver call. *)
Definition guess_of (default : list R) (arg : option (list R)) : list R :=
  match arg with
  | None => default
  | Some g => g
  end.

(** Two optimizers for concrete runs: one evaluates the objective at the
    initial guess and reports that point as a solution, the other reports
    a failure at a point one unit away from the guess in every joint. *)
Definition stay : scipy.Minimize :=
  fun x0 _ =>
    scipy.CallObjective x0
      (fun f =>
         scipy.Return {| scipy.success := true;
                         scipy.x := x0;
                         scipy.fun_ := f |}).

Definition abandon : scipy.Minimize :=
  fun x0 _ =>
    scipy.Return {| scipy.success := false;
                    scipy.x := map (fun a => a + 1) x0;
                    scipy.fun_ := 0 |}.

(** An optimizer that reports, as [fun], the value the objective returned
    at the point it reports as [x], as [scipy.optimize.minimize] does;
    [known] are the points evaluated so far with the values returned. *)
Inductive reports (known : list (list R * R)) : scipy.Optimizer -> Prop :=
| reports_return (r : scipy.OptimizeResult) :
    In (scipy.x r, scipy.fun_ r) known -> reports known (scipy.Return r)
| reports_objective (v : list R) (k : R -> scipy.Optimizer) :
    (forall f, reports ((v, f) :: known) (k f)) ->
    reports known (scipy.CallObjective v k)
| reports_constraint (v : list R) (k : list R -> scipy.Optimizer) :
    (forall c, reports known (k c)) ->
    reports known (scipy.CallConstraint v k).

Definition reports_its_objective (minimize : scipy.Minimize) : Prop :=
  forall (x0 : list R) (options : option scipy.Options),
    reports [] (minimize x0 options).

(** Two more optimizers for concrete runs: one evaluates the constraints
    and then the objective at the initial guess and reports that point as a
    solution; the other evaluates the objective at the fully extended
    vector of the sample 4-DOF arm and reports that point. *)
Definition probe : scipy.Minimize :=
  fun x0 _ =>
    scipy.CallConstraint x0
      (fun _ =>
         scipy.CallObjective x0
           (fun f =>
              scipy.Return {| scipy.success := true;
                              scipy.x := x0;
                              scipy.fun_ := f |})).

Definition reach_out : scipy.Minimize :=
  fun _ _ =>
    scipy.CallObjective [0; 0; 2; 0]
      (fun f =>
         scipy.Return {| scipy.success := true;
                         scipy.x := [0; 0; 2; 0];
                         scipy.fun_ := f |}).

Definition no_clock : nat -> R := fun _ => 0.

(** [n] evenly spaced values from [a] to [b], in the words of the
    specification (section 4.4): the step is [(b - a) / (n - 1)]. *)
Definition evenly_spaced (a b : R) (n : nat) : list R :=
  map (fun i => a + INR i * ((b - a) / INR (n - 1))) (seq 0 n).

(** The point of an item of the enumerated grid. *)
Definition point_of (item : (nat * R) * (nat * R)) : R * R :=
  (snd (fst item), snd (snd item)).

(** The answers of the reachability test and of the solver at a point, with
    a raised exception counted as a refusal. *)
Definition oracle_accepts (self : PartB.RoboticArm) (p : R * R) : bool :=
  match PartB.is_reachable self (fst p) (snd p) with
  | Ok true => true
  | _ => false
  end.

Definition solver_finds (minimize : scipy.Minimize) (self : PartB.RoboticArm)
  (p : R * R) : bool :=
  match PartB.inverse_kinematics minimize self (fst p) (snd p) None with
  | Ok (Some _) => true
  | _ => false
  end.

(** A 3-link arm as its constructor builds it from at least one link and
    from limits that are not more than the links. *)
Definition well_formed (self : PartB.RoboticArm) : Prop :=
  PartB.link_lengths self <> []
  /\ PartB.num_joints self = length (PartB.link_lengths self)
  /\ (length (PartB.joint_limits self)
      <= length (PartB.link_lengths self))%nat
  /\ length (PartB.joint_angles self) = length (PartB.link_lengths self).

(** The flag of the 4-DOF solver at a target, from the stored joint
    values. *)
Definition solver_succeeds (minimize : scipy.Minimize) (elapsed : nat -> R)
  (self : PartC.RoboticArm4DOF) (p : R * R) : bool :=
  match PartC.inverse_kinematics minimize elapsed self p None with
  | Ok ((success, _), _) => success
  | Raise _ => false
  end.






(** ** Lists and loops *)

Lemma for_app {A S : Type} (l1 l2 : list A) (body : S -> A -> result S)
  (s : S) :
  py.for_ (l1 ++ l2) body s = (s' <- py.for_ l1 body s ;; py.for_ l2 body s').
Proof.
  revert s; induction l1 as [|a l1 IH]; intros s; simpl; [reflexivity|].
  destruct (body s a) as [s'|e]; simpl; [apply IH | reflexivity].
Qed.

Lemma getitem_app_here {A : Type} (pre : list A) (p : A) (post : list A) :
  py.getitem (pre ++ p :: post) (length pre) = Ok p.
Proof.
  unfold py.getitem.
  rewrite nth_error_app2 by lia.
  rewrite Nat.sub_diag; reflexivity.
Qed.

Lemma setitem_app_next {A : Type} (pre : list A) (p q v : A) (post : list A) :
  py.setitem (pre ++ p :: q :: post) (length pre + 1) v
  = Ok (pre ++ p :: v :: post).
Proof.
  induction pre as [|a pre IH]; simpl; [reflexivity|].
  rewrite IH; reflexivity.
Qed.

Lemma skipn_cons_getitem {A : Type} (l : list A) (a : nat) (h : A)
  (t : list A) :
  skipn a l = h :: t -> py.getitem l a = Ok h /\ skipn (S a) l = t.
Proof.
  revert a; induction l as [|b l IH]; intros a H.
  - destruct a; discriminate H.
  - destruct a as [|a].
    + simpl in H; injection H as -> ->; split; reflexivity.
    + simpl in H. destruct (IH a H) as [H1 H2]. split; assumption.
Qed.

Lemma last_cons_default {A : Type} (l : list A) (a d : A) :
  List.last (a :: l) d = List.last l a.
Proof.
  revert a d; induction l as [|b l IH]; intros a d; [reflexivity|].
  change (List.last (b :: l) d = List.last (b :: l) a).
  rewrite (IH b d), (IH b a). reflexivity.
Qed.

(** ** Forward kinematics *)

Lemma positions_from_rotational (links angles : list R) (pos : R * R)
  (theta : R) :
  Spec.positions_from (rotational_chain links) angles pos theta
  = chain_positions links (np.cumsum_from theta angles) pos.
Proof.
  revert angles pos theta.
  induction links as [|l links IH]; intros angles pos theta; simpl.
  - reflexivity.
  - destruct angles as [|a angles]; simpl; [reflexivity|].
    unfold Spec.advance; simpl. rewrite IH. reflexivity.
Qed.

Lemma length_cumsum_from (acc : R) (l : list R) :
  length (np.cumsum_from acc l) = length l.
Proof.
  revert acc; induction l as [|a l IH]; intros acc; simpl; [reflexivity|].
  rewrite IH; reflexivity.
Qed.

(** The loop of the 3-link arm, started at index [a] with the positions up
    to [a] already written. *)
Lemma partb_loop (self : PartB.RoboticArm) (cum : list R) :
  forall (m a : nat) (pre : list (R * R)) (p : R * R) (ls cs : list R),
    length pre = a ->
    skipn a (PartB.link_lengths self) = ls ->
    skipn a cum = cs ->
    length ls = m ->
    length cs = m ->
    py.for_ (seq a m) (PartB.fk_body self cum)
      (pre ++ p :: repeat (0, 0) m)
    = Ok (pre ++ p :: chain_positions ls cs p).
Proof.
  induction m as [|m IH]; intros a pre p ls cs Hpre Hls Hcs Hlen Hlen'.
  - destruct ls; [|discriminate Hlen]. reflexivity.
  - destruct ls as [|l ls]; [discriminate Hlen|].
    destruct cs as [|c cs]; [discriminate Hlen'|].
    destruct (skipn_cons_getitem _ _ _ _ Hls) as [Hl Hls'].
    destruct (skipn_cons_getitem _ _ _ _ Hcs) as [Hc Hcs'].
    cbn [seq py.for_ repeat]. unfold PartB.fk_body at 1.
    rewrite <- Hpre at 1. rewrite getitem_app_here. cbn [bind].
    rewrite Hl, Hc. cbn [bind].
    rewrite <- Hpre at 1. rewrite setitem_app_next. cbn [bind].
    change (pre ++ p :: ?v :: ?r) with (pre ++ [p] ++ v :: r).
    rewrite app_assoc.
    rewrite (IH (S a) (pre ++ [p]) _ ls cs).
    + rewrite <- app_assoc. reflexivity.
    + rewrite length_app; simpl; lia.
    + exact Hls'.
    + exact Hcs'.
    + simpl in Hlen; lia.
    + simpl in Hlen'; lia.
Qed.

Lemma partb_forward_kinematics_chain (self : PartB.RoboticArm)
  (angles : list R) :
  PartB.num_joints self = length (PartB.link_lengths self) ->
  length angles = length (PartB.link_lengths self) ->
  PartB.forward_kinematics self (Some angles)
  = Ok (Spec.forward_kinematics (rotational_chain (PartB.link_lengths self))
          angles).
Proof.
  intros Hn Hlen.
  unfold PartB.forward_kinematics. rewrite Hn.
  unfold np.zeros2. rewrite Nat.add_1_r. cbn [repeat].
  assert (Hloop := partb_loop self (np.cumsum angles)
             (length (PartB.link_lengths self)) 0 [] (0, 0)
             (PartB.link_lengths self) (np.cumsum angles)
             eq_refl eq_refl eq_refl eq_refl).
  cbn [app] in Hloop. rewrite Hloop.
  - cbn [bind np.last]. unfold Spec.forward_kinematics.
    rewrite positions_from_rotational, last_cons_default. reflexivity.
  - unfold np.cumsum. rewrite length_cumsum_from. exact Hlen.
Qed.

Lemma partb_forward_kinematics_spec (links : list R)
  (limits : option (list (R * R))) (self : PartB.RoboticArm)
  (angles : list R) :
  PartB.__init__ links limits = Ok self ->
  length angles = length links ->
  PartB.forward_kinematics self (Some angles)
  = Ok (Spec.forward_kinematics (rotational_chain links) angles).
Proof.
  intros Hinit Hlen. injection Hinit as <-.
  apply partb_forward_kinematics_chain; [reflexivity | exact Hlen].
Qed.

(** The loop of the 4-DOF arm, started at index [a]. *)
Lemma partc_loop (self : PartC.RoboticArm4DOF) :
  forall (js : list PartC.Joint) (vs : list R) (a : nat)
         (st : PartC.fk_state),
    forallb known_type js = true ->
    let st' :=
      fold_left (PartC.fk_body self)
        (combine (seq a (length (py.zip js vs))) (py.zip js vs)) st in
    let ps :=
      Spec.positions_from (chain_from (PartC.base_links self) a js) vs
        (PartC.current_pos st) (PartC.current_angle st) in
    PartC.joint_positions st' = PartC.joint_positions st ++ ps
    /\ PartC.current_pos st' = List.last ps (PartC.current_pos st).
Proof.
  induction js as [|j js IH]; intros vs a st Hk; cbn zeta.
  - simpl. rewrite app_nil_r. split; reflexivity.
  - destruct vs as [|v vs].
    + simpl. rewrite app_nil_r. split; reflexivity.
    + simpl in Hk. apply andb_true_iff in Hk as [Hj Hk].
      cbn [py.zip combine length seq fold_left chain_from Spec.positions_from].
      specialize (IH vs (S a)). unfold py.zip in IH.
      unfold known_type in Hj.
      unfold PartC.fk_body at 2 4. unfold spec_joint, Spec.advance, link_at.
      destruct (String.eqb (PartC.joint_type j) "revolute") eqn:Hr.
      * cbn [Spec.kind Spec.link_length].
        match goal with
        | |- context [fold_left _ _ ?s] => destruct (IH s Hk) as [H1 H2]
        end.
        cbn zeta in H1, H2. cbn [PartC.current_pos PartC.current_angle
          PartC.joint_positions] in H1, H2 |- *.
        rewrite H1, H2. rewrite <- app_assoc. split; [reflexivity|].
        rewrite last_cons_default. reflexivity.
      * simpl in Hj. rewrite Hj.
        cbn [Spec.kind Spec.link_length].
        match goal with
        | |- context [fold_left _ _ ?s] => destruct (IH s Hk) as [H1 H2]
        end.
        cbn zeta in H1, H2. cbn [PartC.current_pos PartC.current_angle
          PartC.joint_positions] in H1, H2 |- *.
        rewrite H1, H2. rewrite <- app_assoc. split; [reflexivity|].
        rewrite last_cons_default. reflexivity.
Qed.

(** What a successful [RoboticArm4DOF.__init__] has built. *)
Lemma partc_init_ok (bl : list R) (jt : list string) (jl : list (R * R))
  (self : PartC.RoboticArm4DOF) :
  PartC.__init__ bl jt jl = Ok self ->
  exists t0 t1 t2 t3 jt' l0 l1 l2 l3 jl',
    jt = t0 :: t1 :: t2 :: t3 :: jt' /\
    jl = l0 :: l1 :: l2 :: l3 :: jl' /\
    self =
    {| PartC.base_links := bl;
       PartC.num_joints := 4;
       PartC.joints :=
         [PartC.Joint__init__ t0 l0; PartC.Joint__init__ t1 l1;
          PartC.Joint__init__ t2 l2; PartC.Joint__init__ t3 l3];
       PartC.joint_values := [0; 0; 0; 0];
       PartC.base_position := (0, 0);
       PartC.fk_calculations := 0;
       PartC.ik_calculations := 0;
       PartC.calculation_times := [] |}.
Proof.
  intros H.
  destruct jt as [|t0 [|t1 [|t2 [|t3 jt']]]];
    destruct jl as [|l0 [|l1 [|l2 [|l3 jl']]]];
    try discriminate H.
  injection H as <-.
  exists t0, t1, t2, t3, jt', l0, l1, l2, l3, jl'.
  repeat split; reflexivity.
Qed.

Lemma length_positions_from (chain : Spec.KinematicChain) (values : list R)
  (pos : R * R) (theta : R) :
  length chain = length values ->
  length (Spec.positions_from chain values pos theta) = length chain.
Proof.
  revert values pos theta.
  induction chain as [|j chain IH]; intros values pos theta H; simpl.
  - reflexivity.
  - destruct values as [|v values]; [discriminate H|].
    destruct (Spec.advance j v pos theta) as [pos' theta'].
    simpl. rewrite IH; [reflexivity | simpl in H; lia].
Qed.

Lemma length_chain_from (bl : list R) (i : nat) (js : list PartC.Joint) :
  length (chain_from bl i js) = length js.
Proof.
  revert i; induction js as [|j js IH]; intros i; simpl; [reflexivity|].
  rewrite IH; reflexivity.
Qed.

Lemma partc_fk_positions_spec (self : PartC.RoboticArm4DOF)
  (values : list R) :
  PartC.base_position self = (0, 0) ->
  forallb known_type (PartC.joints self) = true ->
  PartC.fk_positions self values
  = Spec.forward_kinematics (chain_of self) values.
Proof.
  intros Hbase Hk. unfold PartC.fk_positions, Spec.forward_kinematics.
  destruct (partc_loop self (PartC.joints self) values 0
              {| PartC.current_pos := PartC.base_position self;
                 PartC.current_angle := 0;
                 PartC.joint_positions := [PartC.base_position self] |} Hk)
    as [H1 H2].
  cbn zeta in H1, H2.
  cbn [PartC.current_pos PartC.current_angle PartC.joint_positions] in H1, H2.
  rewrite H1, H2, Hbase. unfold chain_of.
  rewrite last_cons_default. reflexivity.
Qed.

(** C1. Forward kinematics of both arms is the chain computation of the
    specification: from the base [(0, 0)] and orientation [0], a rotational
    joint adds its value to the orientation and then moves by its link
    length along the new orientation, a translational joint moves by its
    value along the current orientation; the result is the last position
    together with the [N + 1] positions, the base first.  For the 3-link arm
    every joint is rotational and [N] is the number of links; for the 4-DOF
    arm [N = 4]. *)
Theorem C1_forward_kinematics_follows_the_chain
  (elapsed : nat -> R)
  (links : list R) (limits : option (list (R * R))) (armB : PartB.RoboticArm)
  (angles : list R)
  (bl : list R) (jt : list string) (jl : list (R * R))
  (armC : PartC.RoboticArm4DOF) (values : list R)
  (HinitB : PartB.__init__ links limits = Ok armB)
  (Hangles : length angles = length links)
  (HinitC : PartC.__init__ bl jt jl = Ok armC)
  (Hkinds : forallb known_type (PartC.joints armC) = true)
  (Hvalues : length values = 4%nat) :
  (exists end_pos positions,
      PartB.forward_kinematics armB (Some angles) = Ok (end_pos, positions)
      /\ (end_pos, positions)
         = Spec.forward_kinematics (rotational_chain links) angles
      /\ length positions = (length links + 1)%nat
      /\ hd_error positions = Some (0, 0)
      /\ end_pos = List.last positions (0, 0))
  /\
  (exists end_pos positions,
      fst (PartC.forward_kinematics elapsed armC (Some values))
      = (end_pos, positions)
      /\ (end_pos, positions) = Spec.forward_kinematics (chain_of armC) values
      /\ length (chain_of armC) = 4%nat
      /\ length positions = (4 + 1)%nat
      /\ hd_error positions = Some (0, 0)
      /\ end_pos = List.last positions (0, 0)).
Proof.
  split.
  - exists (fst (Spec.forward_kinematics (rotational_chain links) angles)),
           (snd (Spec.forward_kinematics (rotational_chain links) angles)).
    split; [|split; [|split; [|split]]].
    + rewrite (partb_forward_kinematics_spec links limits armB angles HinitB
                 Hangles).
      reflexivity.
    + reflexivity.
    + unfold Spec.forward_kinematics; cbn [snd length].
      rewrite length_positions_from.
      * unfold rotational_chain. rewrite length_map. lia.
      * unfold rotational_chain. rewrite length_map. lia.
    + reflexivity.
    + reflexivity.
  - destruct (partc_init_ok bl jt jl armC HinitC)
      as (t0 & t1 & t2 & t3 & jt' & l0 & l1 & l2 & l3 & jl' & _ & _ & Harm).
    assert (Hbase : PartC.base_position armC = (0, 0))
      by (rewrite Harm; reflexivity).
    assert (Hlen : length (PartC.joints armC) = 4%nat)
      by (rewrite Harm; reflexivity).
    exists (fst (Spec.forward_kinematics (chain_of armC) values)),
           (snd (Spec.forward_kinematics (chain_of armC) values)).
    split; [|split; [|split; [|split; [|split]]]].
    + unfold PartC.forward_kinematics; cbn [fst].
      rewrite (partc_fk_positions_spec armC values Hbase Hkinds).
      reflexivity.
    + reflexivity.
    + unfold chain_of. rewrite length_chain_from. exact Hlen.
    + unfold Spec.forward_kinematics; cbn [snd length].
      rewrite length_positions_from; unfold chain_of;
        rewrite length_chain_from; lia.
    + reflexivity.
    + reflexivity.
Qed.

(** ** Comparisons *)

Lemma le_true_iff (a b : R) : py.le a b = true <-> a <= b.
Proof.
  unfold py.le. destruct (Rle_dec a b); split; intros H;
    try reflexivity; try assumption; try discriminate; contradiction.
Qed.

Lemma le_false_iff (a b : R) : py.le a b = false <-> b < a.
Proof.
  unfold py.le. destruct (Rle_dec a b); split; intros H;
    try reflexivity; try discriminate; lra.
Qed.

Lemma lt_true_iff (a b : R) : py.lt a b = true <-> a < b.
Proof.
  unfold py.lt. destruct (Rlt_dec a b); split; intros H;
    try reflexivity; try assumption; try discriminate; contradiction.
Qed.

Lemma lt_false_iff (a b : R) : py.lt a b = false <-> b <= a.
Proof.
  unfold py.lt. destruct (Rlt_dec a b); split; intros H;
    try reflexivity; try discriminate; lra.
Qed.

(** ** The reachability test of the 3-link arm *)

Lemma arm_3link_init : PartB.__init__ [3; 5 / 2; 3 / 2] None = Ok arm_3link.
Proof. reflexivity. Qed.

Lemma sqrt_2_0 : sqrt (2 ^ 2 + 0 ^ 2) = 2.
Proof.
  replace (2 ^ 2 + 0 ^ 2) with (2 * 2) by ring.
  apply sqrt_square; lra.
Qed.

(** C2, as stated, fails on the chain with links 3, 2.5, 1.5 at the target
    (2, 0): the distance 2 lies between the longest-against-the-rest bound
    |3 - 4| = 1 and the maximum reach 7, and [is_reachable] answers false,
    because its lower bound is |(3 + 2.5) - 1.5| = 4. *)
Lemma C2_counterexample_largest_link :
  PartB.__init__ [3; 5 / 2; 3 / 2] None = Ok arm_3link
  /\ PartB.is_reachable arm_3link 2 0 = Ok false
  /\ Spec.min_reach (rotational_chain [3; 5 / 2; 3 / 2]) = 1
  /\ Spec.max_reach (rotational_chain [3; 5 / 2; 3 / 2]) = 7
  /\ Spec.min_reach (rotational_chain [3; 5 / 2; 3 / 2])
     <= sqrt (2 ^ 2 + 0 ^ 2)
     <= Spec.max_reach (rotational_chain [3; 5 / 2; 3 / 2]).
Proof.
  assert (Hmin : Spec.min_reach (rotational_chain [3; 5 / 2; 3 / 2]) = 1).
  { unfold Spec.min_reach, Spec.rotational_links, Spec.largest, np.sum.
    simpl.
    rewrite (Rmax_left (3 / 2) 0) by lra.
    rewrite (Rmax_left (5 / 2) (3 / 2)) by lra.
    rewrite (Rmax_left 3 (5 / 2)) by lra.
    unfold Rabs. destruct (Rcase_abs _); lra. }
  assert (Hmax : Spec.max_reach (rotational_chain [3; 5 / 2; 3 / 2]) = 7).
  { unfold Spec.max_reach, Spec.rotational_links, Spec.translational_extents,
      np.sum. simpl. lra. }
  split; [reflexivity|]. split; [|split; [exact Hmin|split; [exact Hmax|]]].
  - unfold PartB.is_reachable, arm_3link.
    cbn [PartB.link_lengths np.last bind List.last removelast].
    rewrite sqrt_2_0.
    replace (py.le _ 2) with false; [reflexivity|].
    symmetry. apply le_false_iff.
    unfold np.sum; simpl.
    unfold Rabs. destruct (Rcase_abs _); lra.
  - rewrite Hmin, Hmax, sqrt_2_0. lra.
Qed.

(** C2, amended. On a chain with at least one link, [is_reachable] answers
    true exactly when the distance of the target from the base lies between
    |sum of all links but the last - last link| and the sum of all links;
    on the chain without links it raises [IndexError]. *)
Theorem C2_is_reachable_last_link
  (links : list R) (limits : option (list (R * R)))
  (arm : PartB.RoboticArm) (x y : R)
  (Hinit : PartB.__init__ links limits = Ok arm) :
  match links with
  | [] => PartB.is_reachable arm x y = Raise IndexError
  | _ :: _ =>
      exists b : bool,
        PartB.is_reachable arm x y = Ok b
        /\ (b = true <->
            Rabs (np.sum (removelast links) - List.last links 0)
            <= sqrt (x ^ 2 + y ^ 2)
            <= np.sum links)
  end.
Proof.
  injection Hinit as <-.
  destruct links as [|l links].
  - reflexivity.
  - unfold PartB.is_reachable. cbn [PartB.link_lengths np.last bind].
    eexists. split; [reflexivity|].
    rewrite andb_true_iff, !le_true_iff.
    rewrite (last_cons_default links l 0). tauto.
Qed.

(** The scenario of the specification (section 8): links 3, 2.5, 1.5 and
    the target (4, 2). *)
Lemma C2_is_reachable_witness :
  PartB.__init__ [3; 5 / 2; 3 / 2] None = Ok arm_3link
  /\ exists b : bool,
       PartB.is_reachable arm_3link 4 2 = Ok b
       /\ (b = true <->
           Rabs (np.sum (removelast [3; 5 / 2; 3 / 2])
                 - List.last [3; 5 / 2; 3 / 2] 0)
           <= sqrt (4 ^ 2 + 2 ^ 2)
           <= np.sum [3; 5 / 2; 3 / 2]).
Proof.
  split; [reflexivity|].
  exact (C2_is_reachable_last_link [3; 5 / 2; 3 / 2] None arm_3link 4 2
           arm_3link_init).
Defined.

(** ** The sample 4-DOF arm *)

Lemma arm_4dof_init :
  PartC.__init__ [2; 3 / 2; 0; 1]
    ["revolute"; "revolute"; "prismatic"; "revolute"]%string
    [(- PI, PI); (- PI / 2, PI / 2); (0, 2); (- PI, PI)]
  = Ok arm_4dof.
Proof. reflexivity. Qed.

Lemma arm_4dof_created : PartC.create_4dof_arm_configuration = Ok arm_4dof.
Proof. reflexivity. Qed.

(** The positions of the sample arm for a joint vector of length four. *)
Lemma arm_4dof_fk (a b d c : R) :
  PartC.fk_positions arm_4dof [a; b; d; c]
  = let p1 := (0 + 2 * cos (0 + a), 0 + 2 * sin (0 + a)) in
    let p2 := (fst p1 + 3 / 2 * cos (0 + a + b),
               snd p1 + 3 / 2 * sin (0 + a + b)) in
    let p3 := (fst p2 + d * cos (0 + a + b), snd p2 + d * sin (0 + a + b)) in
    let p4 := (fst p3 + 1 * cos (0 + a + b + c),
               snd p3 + 1 * sin (0 + a + b + c)) in
    (p4, [(0, 0); p1; p2; p3; p4]).
Proof. reflexivity. Qed.

(** The scenario of the specification (section 8): all joints at zero, the
    end effector is at (4.5, 0). *)
Lemma arm_4dof_fk_zero :
  fst (PartC.fk_positions arm_4dof [0; 0; 0; 0]) = (9 / 2, 0).
Proof.
  rewrite arm_4dof_fk. cbn [fst snd].
  rewrite !Rplus_0_r, cos_0, sin_0. f_equal; lra.
Qed.

Lemma C1_forward_kinematics_witness :
  (PartB.__init__ [3; 5 / 2; 3 / 2] None = Ok arm_3link
   /\ length [0; 0; 0] = length [3; 5 / 2; 3 / 2]
   /\ PartC.__init__ [2; 3 / 2; 0; 1]
        ["revolute"; "revolute"; "prismatic"; "revolute"]%string
        [(- PI, PI); (- PI / 2, PI / 2); (0, 2); (- PI, PI)]
      = Ok arm_4dof
   /\ forallb known_type (PartC.joints arm_4dof) = true
   /\ length [0; 0; 0; 0] = 4%nat)
  /\
  ((exists end_pos positions,
       PartB.forward_kinematics arm_3link (Some [0; 0; 0])
       = Ok (end_pos, positions)
       /\ (end_pos, positions)
          = Spec.forward_kinematics (rotational_chain [3; 5 / 2; 3 / 2])
              [0; 0; 0]
       /\ length positions = (length [3; 5 / 2; 3 / 2] + 1)%nat
       /\ hd_error positions = Some (0, 0)
       /\ end_pos = List.last positions (0, 0))
   /\
   (exists end_pos positions,
       fst (PartC.forward_kinematics (fun _ => 0) arm_4dof
              (Some [0; 0; 0; 0]))
       = (end_pos, positions)
       /\ (end_pos, positions)
          = Spec.forward_kinematics (chain_of arm_4dof) [0; 0; 0; 0]
       /\ length (chain_of arm_4dof) = 4%nat
       /\ length positions = (4 + 1)%nat
       /\ hd_error positions = Some (0, 0)
       /\ end_pos = List.last positions (0, 0))).
Proof.
  split.
  - repeat split; reflexivity.
  - exact (C1_forward_kinematics_follows_the_chain (fun _ => 0)
             [3; 5 / 2; 3 / 2] None arm_3link [0; 0; 0]
             [2; 3 / 2; 0; 1]
             ["revolute"; "revolute"; "prismatic"; "revolute"]%string
             [(- PI, PI); (- PI / 2, PI / 2); (0, 2); (- PI, PI)]
             arm_4dof [0; 0; 0; 0]
             arm_3link_init eq_refl arm_4dof_init eq_refl eq_refl).
Defined.

(** ** The optimizer against the two arms *)

Lemma same_chain_refl (a : PartC.RoboticArm4DOF) : same_chain a a.
Proof. repeat split. Qed.

Lemma same_chain_trans (a b c : PartC.RoboticArm4DOF) :
  same_chain a b -> same_chain b c -> same_chain a c.
Proof.
  unfold same_chain.
  intros (H1 & H2 & H3 & H4 & H5) (K1 & K2 & K3 & K4 & K5).
  repeat split; congruence.
Qed.

Lemma same_chain_sym (a b : PartC.RoboticArm4DOF) :
  same_chain a b -> same_chain b a.
Proof.
  unfold same_chain. intros (H1 & H2 & H3 & H4 & H5).
  repeat split; congruence.
Qed.

Lemma same_chain_count_fk (elapsed : nat -> R) (a : PartC.RoboticArm4DOF) :
  same_chain a (PartC.count_fk elapsed a).
Proof. repeat split. Qed.

Lemma same_chain_count_ik (elapsed : nat -> R) (a : PartC.RoboticArm4DOF) :
  same_chain a (PartC.count_ik elapsed a).
Proof. repeat split. Qed.

Lemma fk_body_same_links (a b : PartC.RoboticArm4DOF) (st : PartC.fk_state)
  (item : nat * (PartC.Joint * R)) :
  PartC.base_links a = PartC.base_links b ->
  PartC.fk_body a st item = PartC.fk_body b st item.
Proof.
  intros H. unfold PartC.fk_body. rewrite H. reflexivity.
Qed.

Lemma fk_positions_same_chain (a b : PartC.RoboticArm4DOF) (v : list R) :
  same_chain a b -> PartC.fk_positions a v = PartC.fk_positions b v.
Proof.
  intros (H1 & _ & H3 & _ & H5). unfold PartC.fk_positions.
  rewrite H3, H5.
  generalize (combine (seq 0 (length (py.zip (PartC.joints b) v)))
                (py.zip (PartC.joints b) v)).
  generalize ({| PartC.current_pos := PartC.base_position b;
                 PartC.current_angle := 0;
                 PartC.joint_positions := [PartC.base_position b] |}).
  intros st items; revert st.
  induction items as [|it items IH]; intros st; simpl; [reflexivity|].
  rewrite (fk_body_same_links a b st it H1), IH. reflexivity.
Qed.

Lemma objective_function_value (elapsed : nat -> R) (target : R * R)
  (v : list R) (self : PartC.RoboticArm4DOF) :
  PartC.objective_function elapsed target v self
  = Ok (residual self target v, PartC.count_fk elapsed self).
Proof.
  unfold PartC.objective_function, PartC.forward_kinematics, residual.
  destruct (PartC.fk_positions self v) as [end_pos ps]. reflexivity.
Qed.

(** The 4-DOF callbacks never raise, so [minimize] returns; the chain is
    the one it started from, and so is the count of solver calls. *)
Lemma partc_run_total (elapsed : nat -> R) (target : R * R)
  (self0 : PartC.RoboticArm4DOF) (o : scipy.Optimizer) :
  forall self : PartC.RoboticArm4DOF,
  exists (res : scipy.OptimizeResult) (self' : PartC.RoboticArm4DOF),
    scipy.run (PartC.objective_function elapsed target)
      (PartC.constraint_function self0) o self = Ok (res, self')
    /\ same_chain self self'
    /\ PartC.ik_calculations self' = PartC.ik_calculations self.
Proof.
  induction o as [r | v k IH | v k IH]; intros self.
  - exists r, self. split; [reflexivity|]. split;
      [apply same_chain_refl | reflexivity].
  - cbn [scipy.run]. rewrite objective_function_value.
    destruct (IH (residual self target v) (PartC.count_fk elapsed self))
      as (res & self' & Hrun & Hsame & Hik).
    exists res, self'. split; [exact Hrun|]. split.
    + eapply same_chain_trans; [apply (same_chain_count_fk elapsed)|].
      exact Hsame.
    + rewrite Hik. reflexivity.
  - cbn [scipy.run]. unfold PartC.constraint_function at 1.
    destruct (IH (flat_map
                    (fun '(joint, val) =>
                       [val - PartC.min_limit joint;
                        PartC.max_limit joint - val])
                    (py.zip (PartC.joints self0) v)) self)
      as (res & self' & Hrun & Hsame & Hik).
    exists res, self'. split; [exact Hrun|]. split; assumption.
Qed.

(** The result of the optimizer does not depend on the counters. *)
Lemma partc_run_same_result (elapsed : nat -> R) (target : R * R)
  (self0 : PartC.RoboticArm4DOF) (o : scipy.Optimizer) :
  forall (a b : PartC.RoboticArm4DOF) (res : scipy.OptimizeResult)
         (a' : PartC.RoboticArm4DOF),
    same_chain a b ->
    scipy.run (PartC.objective_function elapsed target)
      (PartC.constraint_function self0) o a = Ok (res, a') ->
    exists b' : PartC.RoboticArm4DOF,
      scipy.run (PartC.objective_function elapsed target)
        (PartC.constraint_function self0) o b = Ok (res, b').
Proof.
  induction o as [r | v k IH | v k IH]; intros a b res a' Hab Hrun.
  - cbn [scipy.run] in *. injection Hrun as -> _. exists b. reflexivity.
  - cbn [scipy.run] in *. rewrite objective_function_value in *.
    unfold residual in *.
    rewrite <- (fk_positions_same_chain a b v Hab).
    eapply IH; [|exact Hrun].
    eapply same_chain_trans;
      [apply same_chain_sym, (same_chain_count_fk elapsed)|].
    eapply same_chain_trans; [exact Hab|].
    apply (same_chain_count_fk elapsed).
  - cbn [scipy.run] in *. unfold PartC.constraint_function at 1 in Hrun.
    unfold PartC.constraint_function at 1.
    eapply IH; [exact Hab | exact Hrun].
Qed.

(** The 3-link callbacks only read the arm. *)
Lemma partb_run_state (tx ty : R) (self0 : PartB.RoboticArm)
  (o : scipy.Optimizer) :
  forall (self : PartB.RoboticArm) (res : scipy.OptimizeResult)
         (self' : PartB.RoboticArm),
    scipy.run
      (fun angles s => f <- PartB.objective s tx ty angles ;; Ok (f, s))
      (PartB.constraint self0) o self = Ok (res, self') ->
    self' = self.
Proof.
  induction o as [r | v k IH | v k IH]; intros self res self' Hrun.
  - cbn [scipy.run] in Hrun. injection Hrun as _ <-. reflexivity.
  - cbn [scipy.run] in Hrun.
    destruct (PartB.objective self tx ty v) as [f|e]; cbn [bind] in Hrun;
      [|discriminate Hrun].
    exact (IH f self res self' Hrun).
  - cbn [scipy.run] in Hrun.
    destruct (PartB.constraint self0 v) as [c|e]; [|discriminate Hrun].
    exact (IH c self res self' Hrun).
Qed.

Lemma partb_constraint_loop (angles : list R) :
  forall (ls : list (R * R)) (a : nat) (acc : list R),
    (a + length ls <= length angles)%nat ->
    exists c : list R,
      py.for_ (combine (seq a (length ls)) ls)
        (fun constraints '(i, (min_angle, max_angle)) =>
           x <- py.getitem angles i ;;
           Ok (constraints ++ [x - min_angle; max_angle - x]))
        acc = Ok c.
Proof.
  induction ls as [|[mn mx] ls IH]; intros a acc H.
  - exists acc. reflexivity.
  - cbn [length seq combine py.for_].
    unfold py.getitem at 1.
    destruct (nth_error angles a) as [x|] eqn:Hx.
    + cbn [bind]. apply IH. simpl in H. lia.
    + apply nth_error_None in Hx. simpl in H. lia.
Qed.

Lemma partb_constraint_ok (self : PartB.RoboticArm) (angles : list R) :
  (length (PartB.joint_limits self) <= length angles)%nat ->
  exists c : list R, PartB.constraint self angles = Ok c.
Proof.
  intros H. unfold PartB.constraint, py.enumerate.
  apply partb_constraint_loop. simpl. exact H.
Qed.

(** On an arm whose limits are not more than its links, a shape-keeping
    optimizer returns. *)
Lemma partb_run_total (tx ty : R) (self : PartB.RoboticArm)
  (o : scipy.Optimizer) :
  PartB.num_joints self = length (PartB.link_lengths self) ->
  (length (PartB.joint_limits self) <= length (PartB.link_lengths self))%nat ->
  shaped (length (PartB.link_lengths self)) o ->
  exists res : scipy.OptimizeResult,
    scipy.run
      (fun angles s => f <- PartB.objective s tx ty angles ;; Ok (f, s))
      (PartB.constraint self) o self = Ok (res, self).
Proof.
  intros Hn Hlim Hshape.
  induction Hshape as [r | v k Hv Hk IH | v k Hv Hk IH].
  - exists r. reflexivity.
  - cbn [scipy.run]. unfold PartB.objective.
    rewrite (partb_forward_kinematics_chain self v Hn Hv).
    cbn [bind].
    destruct (Spec.forward_kinematics _ v) as [pos ps]. cbn [bind].
    apply IH.
  - cbn [scipy.run].
    destruct (partb_constraint_ok self v) as [c Hc]; [lia|].
    rewrite Hc. apply IH.
Qed.

(** ** Inverse kinematics *)

Lemma partc_inverse_kinematics_run (minimize : scipy.Minimize)
  (elapsed : nat -> R) (self : PartC.RoboticArm4DOF) (target : R * R)
  (guess_arg : option (list R)) :
  exists (res : scipy.OptimizeResult) (self' : PartC.RoboticArm4DOF),
    scipy.run (PartC.objective_function elapsed target)
      (PartC.constraint_function self)
      (minimize (guess_of (PartC.joint_values self) guess_arg) options_4dof)
      self = Ok (res, self')
    /\ same_chain self self'
    /\ PartC.ik_calculations self' = PartC.ik_calculations self
    /\ PartC.inverse_kinematics minimize elapsed self target guess_arg
       = Ok ((scipy.success res && py.lt (scipy.fun_ res) (1 / 100),
              if scipy.success res && py.lt (scipy.fun_ res) (1 / 100)
              then scipy.x res
              else guess_of (PartC.joint_values self) guess_arg),
             PartC.count_ik elapsed self').
Proof.
  destruct (partc_run_total elapsed target self
              (minimize (guess_of (PartC.joint_values self) guess_arg)
                 options_4dof) self)
    as (res & self' & Hrun & Hsame & Hik).
  exists res, self'. repeat split; try assumption; try apply Hsame.
  unfold PartC.inverse_kinematics.
  change (match guess_arg with
          | Some g => g
          | None => PartC.joint_values self
          end) with (guess_of (PartC.joint_values self) guess_arg).
  change (Some {| scipy.maxiter := 100; scipy.ftol := 1 / 1000000 |})
    with options_4dof.
  rewrite Hrun. reflexivity.
Qed.

(** The value an optimizer reports is the residual at the point it
    reports, when it reports what the objective returned. *)
Lemma partc_run_reports (elapsed : nat -> R) (target : R * R)
  (self0 : PartC.RoboticArm4DOF) (o : scipy.Optimizer)
  (known : list (list R * R)) :
  reports known o ->
  (forall v f, In (v, f) known -> f = residual self0 target v) ->
  forall (self : PartC.RoboticArm4DOF) (res : scipy.OptimizeResult)
         (self' : PartC.RoboticArm4DOF),
    same_chain self0 self ->
    scipy.run (PartC.objective_function elapsed target)
      (PartC.constraint_function self0) o self = Ok (res, self') ->
    scipy.fun_ res = residual self0 target (scipy.x res).
Proof.
  induction 1 as [known r Hr | known v k Hk IH | known v k Hk IH];
    intros Hknown self res self' Hsame Hrun.
  - cbn [scipy.run] in Hrun. injection Hrun as <- _.
    apply Hknown. exact Hr.
  - cbn [scipy.run] in Hrun. rewrite objective_function_value in Hrun.
    apply (IH (residual self target v)) in Hrun; [exact Hrun | |].
    + intros v' f' [E|Hin]; [|apply Hknown; exact Hin].
      injection E as <- <-. unfold residual.
      rewrite (fk_positions_same_chain self0 self v Hsame). reflexivity.
    + eapply same_chain_trans; [exact Hsame|].
      apply (same_chain_count_fk elapsed).
  - cbn [scipy.run] in Hrun. unfold PartC.constraint_function at 1 in Hrun.
    eapply IH; [exact Hknown | exact Hsame | exact Hrun].
Qed.

Lemma reports_stay : reports_its_objective stay.
Proof.
  intros x0 options. unfold stay. apply reports_objective. intros f.
  apply reports_return. left. reflexivity.
Qed.

Lemma keeps_shape_stay : keeps_shape stay.
Proof.
  intros x0 options. apply shaped_objective; [reflexivity|].
  intros f. apply shaped_return.
Qed.

Lemma keeps_shape_abandon : keeps_shape abandon.
Proof. intros x0 options. apply shaped_return. Qed.

Lemma keeps_shape_probe : keeps_shape probe.
Proof.
  intros x0 options. apply shaped_constraint; [reflexivity|]. intros c.
  apply shaped_objective; [reflexivity|]. intros f. apply shaped_return.
Qed.

(** C4, as stated, fails for the 3-link solver, which can raise.  Started
    on the sample arm of three links from a guess of two angles, the
    objective reads a third cumulative angle and the call raises
    [IndexError]; on the arm built from two links and three limit pairs the
    constraint function reads a third angle and the call raises
    [IndexError] as well.  Both optimizers only handle vectors of the
    length of their initial guess. *)
Lemma C4_counterexample_solver_raises :
  keeps_shape stay
  /\ PartB.inverse_kinematics stay arm_3link 1 1 (Some [0; 0])
     = Raise IndexError
  /\ keeps_shape probe
  /\ (exists arm : PartB.RoboticArm,
        PartB.__init__ [1; 2] (Some [(- 1, 1); (- 1, 1); (- 1, 1)]) = Ok arm
        /\ PartB.inverse_kinematics probe arm 1 1 None = Raise IndexError).
Proof.
  split; [exact keeps_shape_stay|]. split; [reflexivity|].
  split; [exact keeps_shape_probe|].
  eexists. split; reflexivity.
Qed.

(** C4, amended. The 4-DOF solver returns (it raises nothing), whatever
    the optimizer does; its flag is true exactly when the optimizer
    reported success and an objective value below 0.01, the returned
    vector is the one of the optimizer when the flag is true and the
    initial guess when it is false; and when the optimizer reports as
    objective value what the objective function returned at the vector it
    reports, that value is the distance from the end effector at that
    vector to the target, so the flag is true exactly when the optimizer
    reported success and that residual is below 0.01.  The 3-link solver
    has no residual test.  On an arm whose number of joints is the number
    of its links and whose limit list is not longer than its link list,
    with a guess of one angle for each link and an optimizer that only
    evaluates vectors of the length of its initial guess, it returns too:
    the joint vector of the optimizer when it reported success and [None]
    otherwise. *)
Theorem C4_inverse_kinematics_success_policy
  (minimize : scipy.Minimize) (elapsed : nat -> R)
  (armC : PartC.RoboticArm4DOF) (target : R * R) (guess : option (list R))
  (armB : PartB.RoboticArm) (tx ty : R) (guessB : option (list R)) :
  (exists (res : scipy.OptimizeResult) (armC' : PartC.RoboticArm4DOF)
          (b : bool) (js : list R),
      scipy.run (PartC.objective_function elapsed target)
        (PartC.constraint_function armC)
        (minimize (guess_of (PartC.joint_values armC) guess) options_4dof)
        armC = Ok (res, armC')
      /\ PartC.inverse_kinematics minimize elapsed armC target guess
         = Ok ((b, js), PartC.count_ik elapsed armC')
      /\ (b = true <->
          scipy.success res = true /\ scipy.fun_ res < 1 / 100)
      /\ (b = true -> js = scipy.x res)
      /\ (b = false ->
          js = guess_of (PartC.joint_values armC) guess)
      /\ (reports_its_objective minimize ->
          scipy.fun_ res
          = np.norm
              (fst (fst (PartC.fk_positions armC (scipy.x res))) - fst target,
               snd (fst (PartC.fk_positions armC (scipy.x res))) - snd target)
          /\ (b = true <->
              scipy.success res = true
              /\ residual armC target (scipy.x res) < 1 / 100)))
  /\
  (keeps_shape minimize ->
   PartB.num_joints armB = length (PartB.link_lengths armB) ->
   (length (PartB.joint_limits armB)
    <= length (PartB.link_lengths armB))%nat ->
   length (guess_of (PartB.joint_angles armB) guessB)
   = length (PartB.link_lengths armB) ->
   exists res : scipy.OptimizeResult,
     scipy.run
       (fun angles s => f <- PartB.objective s tx ty angles ;; Ok (f, s))
       (PartB.constraint armB)
       (minimize (guess_of (PartB.joint_angles armB) guessB) None)
       armB = Ok (res, armB)
     /\ PartB.inverse_kinematics minimize armB tx ty guessB
        = Ok (if scipy.success res then Some (scipy.x res) else None)).
Proof.
  split.
  - destruct (partc_inverse_kinematics_run minimize elapsed armC target guess)
      as (res & armC' & Hrun & _ & _ & Hik).
    exists res, armC',
      (scipy.success res && py.lt (scipy.fun_ res) (1 / 100)),
      (if scipy.success res && py.lt (scipy.fun_ res) (1 / 100)
       then scipy.x res
       else guess_of (PartC.joint_values armC) guess).
    split; [exact Hrun|]. split; [exact Hik|].
    split; [|split; [|split]].
    + rewrite andb_true_iff, lt_true_iff. tauto.
    + intros ->. reflexivity.
    + intros ->. reflexivity.
    + intros Hreports.
      assert (Hfun : scipy.fun_ res = residual armC target (scipy.x res)).
      { apply (partc_run_reports elapsed target armC _ []
                 (Hreports _ _) (fun v f (H : In (v, f) []) =>
                                   match H with end)
                 armC res armC' (same_chain_refl armC) Hrun). }
      split; [exact Hfun|].
      rewrite andb_true_iff, lt_true_iff, Hfun. tauto.
  - intros Hshape Hjoints Hlimits Hguess.
    destruct (partb_run_total tx ty armB
                (minimize (guess_of (PartB.joint_angles armB) guessB) None)
                Hjoints Hlimits)
      as (res & Hrun).
    { rewrite <- Hguess. apply Hshape. }
    exists res. split; [exact Hrun|].
    unfold PartB.inverse_kinematics, PartB.inverse_kinematics_run.
    change (match guessB with
            | Some g => g
            | None => PartB.joint_angles armB
            end) with (guess_of (PartB.joint_angles armB) guessB).
    rewrite Hrun. cbn [bind].
    destruct (scipy.success res); reflexivity.
Qed.

Lemma C4_inverse_kinematics_witness :
  (reports_its_objective stay
   /\ keeps_shape stay
   /\ PartB.num_joints arm_3link = length (PartB.link_lengths arm_3link)
   /\ (length (PartB.joint_limits arm_3link)
       <= length (PartB.link_lengths arm_3link))%nat
   /\ length (guess_of (PartB.joint_angles arm_3link) None)
      = length (PartB.link_lengths arm_3link))
  /\
  ((exists (res : scipy.OptimizeResult) (armC' : PartC.RoboticArm4DOF)
           (b : bool) (js : list R),
       PartC.inverse_kinematics stay no_clock arm_4dof (9 / 2, 0) None
       = Ok ((b, js), PartC.count_ik no_clock armC')
       /\ scipy.fun_ res
          = np.norm
              (fst (fst (PartC.fk_positions arm_4dof (scipy.x res)))
               - fst (9 / 2, 0),
               snd (fst (PartC.fk_positions arm_4dof (scipy.x res)))
               - snd (9 / 2, 0))
       /\ (b = true <->
           scipy.success res = true
           /\ residual arm_4dof (9 / 2, 0) (scipy.x res) < 1 / 100))
   /\
   (exists res : scipy.OptimizeResult,
       PartB.inverse_kinematics stay arm_3link 7 0 None
       = Ok (if scipy.success res then Some (scipy.x res) else None))).
Proof.
  split.
  - split; [exact reports_stay|]. split; [exact keeps_shape_stay|].
    split; [reflexivity|]. split; [apply le_n | reflexivity].
  - destruct (C4_inverse_kinematics_success_policy stay no_clock arm_4dof
                (9 / 2, 0) None arm_3link 7 0 None) as [HC HB].
    split.
    + destruct HC as (res & armC' & b & js & _ & Hik & _ & _ & _ & Hres).
      destruct (Hres reports_stay) as [Hfun Hiff].
      exists res, armC', b, js. split; [exact Hik|]. split; assumption.
    + destruct (HB keeps_shape_stay eq_refl (le_n 3) eq_refl)
        as (res & _ & Hik).
      exists res. exact Hik.
Defined.

(** C8. A call of [inverse_kinematics] leaves the stored joint values of
    the chain as they were: on the 4-DOF arm the call returns an arm with
    the same joints (so the same value in every joint) and the same
    joint-value vector, whatever the target, the guess and the outcome,
    only the performance counters having moved; on the 3-link arm the
    callbacks hand back the arm they were given.  [forward_kinematics]
    leaves them too. *)
Theorem C8_inverse_kinematics_leaves_the_chain
  (minimize : scipy.Minimize) (elapsed : nat -> R)
  (armC : PartC.RoboticArm4DOF) (target : R * R) (guess : option (list R))
  (armB : PartB.RoboticArm) (tx ty : R) (guessB : option (list R)) :
  (exists (r : bool * list R) (armC' : PartC.RoboticArm4DOF),
      PartC.inverse_kinematics minimize elapsed armC target guess
      = Ok (r, armC')
      /\ PartC.joint_values armC' = PartC.joint_values armC
      /\ PartC.joints armC' = PartC.joints armC
      /\ map PartC.value (PartC.joints armC')
         = map PartC.value (PartC.joints armC)
      /\ PartC.base_links armC' = PartC.base_links armC
      /\ PartC.ik_calculations armC' = (PartC.ik_calculations armC + 1)%nat)
  /\ match PartB.inverse_kinematics_run minimize armB tx ty guessB with
     | Ok (_, armB') => armB' = armB
     | Raise _ => True
     end
  /\ same_chain armC (snd (PartC.forward_kinematics elapsed armC guess)).
Proof.
  split; [|split].
  - destruct (partc_inverse_kinematics_run minimize elapsed armC target guess)
      as (res & armC' & _ & (H1 & H2 & H3 & H4 & H5) & Hcount & Hik).
    eexists. eexists. split; [exact Hik|].
    cbn [PartC.count_ik PartC.joint_values PartC.joints PartC.base_links
         PartC.ik_calculations].
    rewrite <- H4, <- H3, <- H1, Hcount. repeat split.
  - unfold PartB.inverse_kinematics_run.
    destruct (scipy.run _ _ _ armB) as [[res armB']|e] eqn:Hrun;
      cbn [bind]; [|exact I].
    apply partb_run_state in Hrun.
    destruct (scipy.success res); exact Hrun.
  - unfold PartC.forward_kinematics. cbn [snd].
    apply same_chain_count_fk.
Qed.

Lemma set_joint_configuration_values (self : PartC.RoboticArm4DOF)
  (v : list R) :
  PartC.joint_values (snd (PartC.set_joint_configuration self v))
  = if fst (PartC.set_joint_configuration self v)
    then v
    else PartC.joint_values self.
Proof.
  unfold PartC.set_joint_configuration.
  destruct (PartC.set_values (PartC.joints self) v) as [joints' valid].
  reflexivity.
Qed.


(** ** Construction *)

(** C9, as stated, fails: both constructors accept lists of different
    lengths.  The 3-link arm is built from two links and one limit, the
    4-DOF arm from one link length, four kinds and four limits. *)
Lemma C9_counterexample_mismatched_lengths :
  length [1; 2] <> length [(- 1, 1)]
  /\ PartB.__init__ [1; 2] (Some [(- 1, 1)])
     = Ok {| PartB.link_lengths := [1; 2];
             PartB.num_joints := 2;
             PartB.joint_angles := [0; 0];
             PartB.joint_limits := [(- 1, 1)] |}
  /\ length [2] <> length [(- PI, PI); (- PI / 2, PI / 2); (0, 2); (- PI, PI)]
  /\ is_ok
       (PartC.__init__ [2]
          ["revolute"; "revolute"; "prismatic"; "revolute"]%string
          [(- PI, PI); (- PI / 2, PI / 2); (0, 2); (- PI, PI)])
     = true.
Proof.
  split; [simpl; lia|]. split; [reflexivity|].
  split; [simpl; lia | reflexivity].
Qed.

(** C9, amended. The constructor of the 3-link arm checks no length and
    always succeeds.  The constructor of the 4-DOF arm succeeds exactly
    when the list of joint kinds and the list of joint limits have at least
    four entries each, and raises [IndexError] otherwise; the list of link
    lengths may have any length. *)
Theorem C9_construction_checks
  (links : list R) (limits : option (list (R * R)))
  (bl : list R) (jt : list string) (jl : list (R * R)) :
  is_ok (PartB.__init__ links limits) = true
  /\ (is_ok (PartC.__init__ bl jt jl) = true
      <-> (4 <= length jt)%nat /\ (4 <= length jl)%nat)
  /\ (is_ok (PartC.__init__ bl jt jl) = false
      <-> PartC.__init__ bl jt jl = Raise IndexError).
Proof.
  split; [reflexivity|].
  destruct jt as [|t0 [|t1 [|t2 [|t3 jt']]]];
    destruct jl as [|l0 [|l1 [|l2 [|l3 jl']]]];
    cbn; (split; split);
    try (intros H; discriminate H);
    try (intros [H1 H2]; lia);
    try (intros _; reflexivity);
    try (intros _; split; lia).
Qed.

(** ** The setters *)

Lemma PI_lt_5 : PI < 5.
Proof. pose proof PI_4. lra. Qed.

Lemma set_values_valid (js : list PartC.Joint) (vs : list R) :
  snd (PartC.set_values js vs)
  = forallb
      (fun '(j, v) =>
         py.le (PartC.min_limit j) v && py.le v (PartC.max_limit j))
      (py.zip js vs).
Proof.
  revert vs; induction js as [|j js IH]; intros vs; [reflexivity|].
  destruct vs as [|v vs]; [reflexivity|].
  cbn [PartC.set_values py.zip combine forallb].
  specialize (IH vs). unfold py.zip in IH.
  unfold PartC.set_value.
  destruct (py.le (PartC.min_limit j) v && py.le v (PartC.max_limit j));
    destruct (PartC.set_values js vs) as [rest valid];
    cbn [snd] in *; rewrite IH; reflexivity.
Qed.

Lemma set_values_stored (js : list PartC.Joint) (vs : list R) :
  length vs = length js ->
  snd (PartC.set_values js vs) = true ->
  map PartC.value (fst (PartC.set_values js vs)) = vs.
Proof.
  revert vs; induction js as [|j js IH]; intros vs Hlen Hvalid.
  - destruct vs; [reflexivity | discriminate Hlen].
  - destruct vs as [|v vs]; [discriminate Hlen|].
    cbn [PartC.set_values] in *.
    specialize (IH vs). unfold PartC.set_value in *.
    destruct (py.le (PartC.min_limit j) v && py.le v (PartC.max_limit j));
      destruct (PartC.set_values js vs) as [rest valid];
      cbn [fst snd andb map] in *; [|discriminate Hvalid].
    cbn [PartC.value]. f_equal. apply IH; [|exact Hvalid].
    simpl in Hlen. lia.
Qed.

(** C5, as stated, fails.  The setter of the 3-link arm stores a value
    outside the limit of its joint (5 on a joint limited to [-pi, pi]).  The
    setter of the 4-DOF arm answers with one boolean: it is the same for a
    vector rejected by the first joint and for one rejected by the third. *)
Lemma C5_counterexample_setters :
  PartB.joint_limits arm_3link = [(- PI, PI); (- PI, PI); (- PI, PI)]
  /\ PI < 5
  /\ PartB.joint_angles arm_3link = [0; 0; 0]
  /\ PartB.joint_angles (PartB.set_joint_angles arm_3link [5; 0; 0])
     = [5; 0; 0]
  /\ fst (PartC.set_joint_configuration arm_4dof [10; 0; 0; 0]) = false
  /\ fst (PartC.set_joint_configuration arm_4dof [0; 0; 10; 0]) = false.
Proof.
  pose proof PI_lt_5 as H5. pose proof PI_RGT_0 as H0.
  split; [reflexivity|]. split; [exact H5|].
  split; [reflexivity|]. split; [reflexivity|].
  assert (Hfst : forall v,
             fst (PartC.set_joint_configuration arm_4dof v)
             = snd (PartC.set_values (PartC.joints arm_4dof) v)).
  { intros v. unfold PartC.set_joint_configuration.
    destruct (PartC.set_values (PartC.joints arm_4dof) v); reflexivity. }
  split.
  - rewrite Hfst, set_values_valid.
    cbn [arm_4dof PartC.joints py.zip combine forallb PartC.Joint__init__
         PartC.min_limit PartC.max_limit fst snd].
    replace (py.le 10 PI) with false; [rewrite andb_false_r; reflexivity|].
    symmetry; apply le_false_iff; lra.
  - rewrite Hfst, set_values_valid.
    cbn [arm_4dof PartC.joints py.zip combine forallb PartC.Joint__init__
         PartC.min_limit PartC.max_limit fst snd].
    replace (py.le 10 2) with false;
      [rewrite !andb_false_r; reflexivity|].
    symmetry; apply le_false_iff; lra.
Qed.

Lemma set_values_stored_zip (js : list PartC.Joint) (vs : list R) :
  snd (PartC.set_values js vs) = true ->
  map PartC.value (fst (PartC.set_values js vs))
  = firstn (length js) vs ++ skipn (length vs) (map PartC.value js).
Proof.
  revert vs; induction js as [|j js IH]; intros vs Hvalid.
  - cbn [PartC.set_values fst map length firstn]. destruct vs; reflexivity.
  - destruct vs as [|v vs]; [reflexivity|].
    cbn [PartC.set_values] in *.
    specialize (IH vs). unfold PartC.set_value in *.
    destruct (py.le (PartC.min_limit j) v && py.le v (PartC.max_limit j));
      destruct (PartC.set_values js vs) as [rest valid];
      cbn [fst snd andb map length firstn skipn app] in *;
      [|discriminate Hvalid].
    cbn [PartC.value]. f_equal. apply IH. exact Hvalid.
Qed.

(** C5, amended. [set_joint_configuration] of the 4-DOF arm returns true
    exactly when every supplied value that [zip] pairs with a joint lies
    within the limits of that joint.  Then the joint-value vector of the
    arm is the supplied vector, whatever its length, and every joint that
    is paired with a supplied value stores that value: the joints beyond
    the supplied values keep theirs, and supplied values beyond the joints
    are neither checked nor stored in a joint.  When it returns false the
    joint-value vector of the arm is the one before the call.  The answer
    is that boolean.  [set_joint_angles] of the 3-link arm stores the
    supplied angles without a check. *)
Theorem C5_setter_commits
  (arm : PartC.RoboticArm4DOF) (values : list R)
  (armB : PartB.RoboticArm) (angles : list R) :
  (fst (PartC.set_joint_configuration arm values) = true
   <-> Forall
         (fun jv =>
            PartC.min_limit (fst jv) <= snd jv <= PartC.max_limit (fst jv))
         (py.zip (PartC.joints arm) values))
  /\ (fst (PartC.set_joint_configuration arm values) = true ->
      PartC.joint_values (snd (PartC.set_joint_configuration arm values))
      = values
      /\ map PartC.value
           (PartC.joints (snd (PartC.set_joint_configuration arm values)))
         = firstn (length (PartC.joints arm)) values
           ++ skipn (length values) (map PartC.value (PartC.joints arm))
      /\ (length values = length (PartC.joints arm) ->
          map PartC.value
            (PartC.joints (snd (PartC.set_joint_configuration arm values)))
          = values))
  /\ (fst (PartC.set_joint_configuration arm values) = false ->
      PartC.joint_values (snd (PartC.set_joint_configuration arm values))
      = PartC.joint_values arm)
  /\ PartB.joint_angles (PartB.set_joint_angles armB angles) = angles.
Proof.
  assert (Hfst : fst (PartC.set_joint_configuration arm values)
                 = snd (PartC.set_values (PartC.joints arm) values)).
  { unfold PartC.set_joint_configuration.
    destruct (PartC.set_values (PartC.joints arm) values); reflexivity. }
  assert (Hjs : PartC.joints (snd (PartC.set_joint_configuration arm values))
                = fst (PartC.set_values (PartC.joints arm) values)).
  { unfold PartC.set_joint_configuration.
    destruct (PartC.set_values (PartC.joints arm) values); reflexivity. }
  split; [|split; [|split]].
  - rewrite Hfst, set_values_valid, forallb_forall, Forall_forall.
    split; intros H [j v] Hin; specialize (H (j, v) Hin); cbn [fst snd] in *.
    + apply andb_true_iff in H as [H1 H2].
      apply le_true_iff in H1. apply le_true_iff in H2. lra.
    + apply andb_true_iff. split; apply le_true_iff; lra.
  - intros Hvalid. split; [|split].
    + rewrite set_joint_configuration_values, Hvalid. reflexivity.
    + rewrite Hjs. apply set_values_stored_zip.
      rewrite <- Hfst. exact Hvalid.
    + intros Hlen. rewrite Hjs. apply set_values_stored; [exact Hlen|].
      rewrite <- Hfst. exact Hvalid.
  - intros Hinvalid.
    rewrite set_joint_configuration_values, Hinvalid. reflexivity.
  - reflexivity.
Qed.

(** ** A failed solve and the setter *)

Lemma set_joint_configuration_flag (self : PartC.RoboticArm4DOF)
  (v : list R) :
  fst (PartC.set_joint_configuration self v) = true
  <-> Forall
        (fun jv =>
           PartC.min_limit (fst jv) <= snd jv <= PartC.max_limit (fst jv))
        (py.zip (PartC.joints self) v).
Proof.
  assert (Hfst : fst (PartC.set_joint_configuration self v)
                 = snd (PartC.set_values (PartC.joints self) v)).
  { unfold PartC.set_joint_configuration.
    destruct (PartC.set_values (PartC.joints self) v); reflexivity. }
  rewrite Hfst, set_values_valid, forallb_forall, Forall_forall.
  split; intros H [j x] Hin; specialize (H (j, x) Hin); cbn [fst snd] in *.
  - apply andb_true_iff in H as [H1 H2].
    apply le_true_iff in H1. apply le_true_iff in H2. lra.
  - apply andb_true_iff. split; apply le_true_iff; lra.
Qed.

(** C10, as stated, fails in its last clause.  On the sample arm the
    solver, started from the guess (10, 1, 0, 0), fails and returns that
    guess; its first value is beyond the limit pi of the first joint, so
    the setter refuses the returned vector and the arm stays at
    (0, 0, 0, 0), which is not the guess. *)
Lemma C10_counterexample_refused_guess :
  PartC.inverse_kinematics abandon no_clock arm_4dof (0, 10)
    (Some [10; 1; 0; 0])
  = Ok ((false, [10; 1; 0; 0]), PartC.count_ik no_clock arm_4dof)
  /\ fst (PartC.set_joint_configuration (PartC.count_ik no_clock arm_4dof)
            [10; 1; 0; 0]) = false
  /\ PartC.joint_values
       (snd (PartC.set_joint_configuration (PartC.count_ik no_clock arm_4dof)
               [10; 1; 0; 0]))
     = [0; 0; 0; 0]
  /\ [0; 0; 0; 0] <> [10; 1; 0; 0].
Proof.
  pose proof PI_lt_5 as H5. pose proof PI_RGT_0 as H0.
  assert (Hflag : fst (PartC.set_joint_configuration
                         (PartC.count_ik no_clock arm_4dof) [10; 1; 0; 0])
                  = false).
  { destruct (fst (PartC.set_joint_configuration
                     (PartC.count_ik no_clock arm_4dof) [10; 1; 0; 0]))
      eqn:E; [|reflexivity].
    apply set_joint_configuration_flag in E.
    cbn [PartC.count_ik PartC.joints arm_4dof py.zip combine] in E.
    apply Forall_inv in E.
    cbn [fst snd PartC.Joint__init__ PartC.min_limit PartC.max_limit] in E.
    lra. }
  split; [reflexivity|]. split; [exact Hflag|].
  split.
  - rewrite set_joint_configuration_values, Hflag. reflexivity.
  - intros H. injection H as H. lra.
Qed.

(** C10, amended. When the 4-DOF solver fails, the joint vector it returns
    is the initial guess, which is the stored joint-value vector of the arm
    when no guess was given, and not the vector of the optimizer.  The
    setter accepts the returned vector exactly when every value of the
    guess that is paired with a joint lies within the limits of that joint;
    committing it then stores the guess, and otherwise the setter refuses
    and the stored vector is the one before the solve. *)
Theorem C10_failed_solve_returns_the_guess
  (minimize : scipy.Minimize) (elapsed : nat -> R)
  (arm : PartC.RoboticArm4DOF) (target : R * R) (guess : option (list R))
  (success : bool) (joints : list R) (arm' : PartC.RoboticArm4DOF)
  (Hsolve : PartC.inverse_kinematics minimize elapsed arm target guess
            = Ok ((success, joints), arm'))
  (Hfail : success = false) :
  joints = guess_of (PartC.joint_values arm) guess
  /\ (guess = None -> joints = PartC.joint_values arm)
  /\ PartC.joint_values arm' = PartC.joint_values arm
  /\ (fst (PartC.set_joint_configuration arm' joints) = true
      <-> Forall
            (fun jv =>
               PartC.min_limit (fst jv) <= snd jv <= PartC.max_limit (fst jv))
            (py.zip (PartC.joints arm)
               (guess_of (PartC.joint_values arm) guess)))
  /\ (fst (PartC.set_joint_configuration arm' joints) = true ->
      PartC.joint_values (snd (PartC.set_joint_configuration arm' joints))
      = guess_of (PartC.joint_values arm) guess)
  /\ (fst (PartC.set_joint_configuration arm' joints) = false ->
      PartC.joint_values (snd (PartC.set_joint_configuration arm' joints))
      = PartC.joint_values arm).
Proof.
  destruct (partc_inverse_kinematics_run minimize elapsed arm target guess)
    as (res & arm1 & _ & (_ & _ & Hjoints & Hvals & _) & _ & Hik).
  rewrite Hik in Hsolve. injection Hsolve as Hs Hj Harm.
  rewrite Hs, Hfail in Hj.
  assert (Hvals' : PartC.joint_values arm' = PartC.joint_values arm).
  { rewrite <- Harm. cbn [PartC.count_ik PartC.joint_values].
    symmetry. exact Hvals. }
  assert (Hjoints' : PartC.joints arm' = PartC.joints arm).
  { rewrite <- Harm. cbn [PartC.count_ik PartC.joints].
    symmetry. exact Hjoints. }
  split; [symmetry; exact Hj|].
  split; [intros ->; symmetry; exact Hj|].
  split; [exact Hvals'|].
  split; [rewrite set_joint_configuration_flag, Hjoints', <- Hj; reflexivity|].
  split.
  - intros Hacc. rewrite set_joint_configuration_values, Hacc.
    symmetry. exact Hj.
  - intros Href. rewrite set_joint_configuration_values, Href.
    exact Hvals'.
Qed.

Lemma C10_failed_solve_witness :
  (PartC.inverse_kinematics abandon no_clock arm_4dof (0, 10)
     (Some [1; 1; 1; 1])
   = Ok ((false, [1; 1; 1; 1]), PartC.count_ik no_clock arm_4dof)
   /\ false = false)
  /\
  ([1; 1; 1; 1] = guess_of (PartC.joint_values arm_4dof) (Some [1; 1; 1; 1])
   /\ (Some [1; 1; 1; 1] = None -> [1; 1; 1; 1] = PartC.joint_values arm_4dof)
   /\ PartC.joint_values (PartC.count_ik no_clock arm_4dof)
      = PartC.joint_values arm_4dof
   /\ (fst (PartC.set_joint_configuration
              (PartC.count_ik no_clock arm_4dof) [1; 1; 1; 1]) = true
       <-> Forall
             (fun jv =>
                PartC.min_limit (fst jv) <= snd jv
                <= PartC.max_limit (fst jv))
             (py.zip (PartC.joints arm_4dof)
                (guess_of (PartC.joint_values arm_4dof)
                   (Some [1; 1; 1; 1]))))
   /\ (fst (PartC.set_joint_configuration
              (PartC.count_ik no_clock arm_4dof) [1; 1; 1; 1]) = true ->
       PartC.joint_values
         (snd (PartC.set_joint_configuration
                 (PartC.count_ik no_clock arm_4dof) [1; 1; 1; 1]))
       = guess_of (PartC.joint_values arm_4dof) (Some [1; 1; 1; 1]))
   /\ (fst (PartC.set_joint_configuration
              (PartC.count_ik no_clock arm_4dof) [1; 1; 1; 1]) = false ->
       PartC.joint_values
         (snd (PartC.set_joint_configuration
                 (PartC.count_ik no_clock arm_4dof) [1; 1; 1; 1]))
       = PartC.joint_values arm_4dof)).
Proof.
  split.
  - split; reflexivity.
  - exact (C10_failed_solve_returns_the_guess abandon no_clock arm_4dof
             (0, 10) (Some [1; 1; 1; 1]) false [1; 1; 1; 1]
             (PartC.count_ik no_clock arm_4dof) eq_refl eq_refl).
Defined.

(** ** The sampling grid *)

Lemma length_linspace (a b : R) (n : nat) : length (np.linspace a b n) = n.
Proof.
  unfold np.linspace.
  destruct n as [|[|n]].
  - reflexivity.
  - reflexivity.
  - replace (1 <? S (S n))%nat with true by reflexivity.
    replace (0 <? S (S n) - 1)%nat with true by reflexivity.
    rewrite length_app. cbn [length].
    rewrite seq_S, map_app. cbn [map]. rewrite removelast_last.
    rewrite length_map, length_seq. lia.
Qed.

Lemma linspace_evenly_spaced (a b : R) (n : nat) :
  np.linspace a b n = evenly_spaced a b n.
Proof.
  unfold np.linspace, evenly_spaced.
  destruct n as [|[|n]].
  - reflexivity.
  - cbn. f_equal. lra.
  - replace (1 <? S (S n))%nat with true by reflexivity.
    replace (0 <? S (S n) - 1)%nat with true by reflexivity.
    replace (S (S n) - 1)%nat with (S n) by lia.
    rewrite (seq_S (S n) 0), map_app. cbn [map].
    rewrite removelast_last. do 2 f_equal.
    cbn [Nat.add].
    assert (H : INR (S n) <> 0) by (apply not_0_INR; lia).
    field. exact H.
Qed.

Lemma evenly_spaced_nth (a b : R) (n i : nat) :
  (i < n)%nat ->
  nth_error (evenly_spaced a b n) i
  = Some (a + INR i * ((b - a) / INR (n - 1))).
Proof.
  intros H. unfold evenly_spaced.
  rewrite nth_error_map, nth_error_seq.
  destruct (Nat.ltb_spec i n); [reflexivity | lia].
Qed.



Lemma length_grid (xs ys : list R) :
  length (PartB.grid xs ys) = (length xs * length ys)%nat.
Proof.
  unfold PartB.grid.
  induction xs as [|x xs IH]; [reflexivity|].
  cbn [flat_map length]. rewrite length_app, length_map, IH. lia.
Qed.

Lemma in_grid (xs ys : list R) (p : R * R) :
  In p (PartB.grid xs ys) <-> In (fst p) xs /\ In (snd p) ys.
Proof.
  unfold PartB.grid. rewrite in_flat_map. split.
  - intros (x & Hx & Hp). apply in_map_iff in Hp as (y & <- & Hy).
    split; assumption.
  - intros [Hx Hy]. exists (fst p). split; [exact Hx|].
    apply in_map_iff. exists (snd p). split; [|exact Hy].
    destruct p; reflexivity.
Qed.

Lemma map_snd_combine_seq {A : Type} (l : list A) (a : nat) :
  map snd (combine (seq a (length l)) l) = l.
Proof.
  revert a; induction l as [|h l IH]; intros a; [reflexivity|].
  cbn [length seq combine map snd]. rewrite IH. reflexivity.
Qed.

Lemma enumerated_points (ixs jys : list (nat * R)) :
  map point_of (flat_map (fun ix => map (fun jy => (ix, jy)) jys) ixs)
  = PartB.grid (map snd ixs) (map snd jys).
Proof.
  unfold PartB.grid.
  induction ixs as [|[i x] ixs IH]; [reflexivity|].
  cbn [flat_map map]. rewrite map_app, IH. f_equal.
  rewrite !map_map. reflexivity.
Qed.

Lemma enumerated_grid_points (xs ys : list R) :
  map point_of (PartC.enumerated_grid xs ys) = PartB.grid xs ys.
Proof.
  unfold PartC.enumerated_grid, py.enumerate.
  rewrite enumerated_points, !map_snd_combine_seq. reflexivity.
Qed.

(** ** The sampler of the 3-link arm *)

Lemma well_formed_init (links : list R) (self : PartB.RoboticArm) :
  links <> [] -> PartB.__init__ links None = Ok self -> well_formed self.
Proof.
  intros Hne H. injection H as <-. unfold well_formed.
  cbn [PartB.link_lengths PartB.num_joints PartB.joint_limits
       PartB.joint_angles].
  unfold np.zeros. rewrite !repeat_length. repeat split; auto.
Qed.

Lemma partb_is_reachable_ok (self : PartB.RoboticArm) (x y : R) :
  PartB.link_lengths self <> [] ->
  exists b : bool, PartB.is_reachable self x y = Ok b.
Proof.
  intros Hne. unfold PartB.is_reachable.
  destruct (PartB.link_lengths self) as [|l ls]; [contradiction|].
  eexists. reflexivity.
Qed.

Lemma partb_inverse_kinematics_ok (minimize : scipy.Minimize)
  (self : PartB.RoboticArm) (tx ty : R) :
  keeps_shape minimize ->
  well_formed self ->
  exists r : option (list R),
    PartB.inverse_kinematics minimize self tx ty None = Ok r.
Proof.
  intros Hshape (_ & Hn & Hlim & Hangles).
  destruct (partb_run_total tx ty self
              (minimize (PartB.joint_angles self) None) Hn Hlim)
    as [res Hrun].
  { rewrite <- Hangles. apply Hshape. }
  unfold PartB.inverse_kinematics, PartB.inverse_kinematics_run.
  rewrite Hrun. cbn [bind].
  destruct (scipy.success res); eexists; reflexivity.
Qed.

(** The loop of [get_workspace] over a list of points. *)
Lemma partb_workspace_loop (minimize : scipy.Minimize)
  (self : PartB.RoboticArm) :
  keeps_shape minimize ->
  well_formed self ->
  forall (pts reach all calls : list (R * R)),
    py.for_ pts (PartB.workspace_body minimize self) (reach, all, calls)
    = Ok (reach
            ++ filter
                 (fun p => oracle_accepts self p && solver_finds minimize self p)
                 pts,
          all ++ pts,
          calls ++ filter (oracle_accepts self) pts).
Proof.
  intros Hshape Hwf.
  induction pts as [|p pts IH]; intros reach all calls.
  - cbn [py.for_ filter]. rewrite !app_nil_r. reflexivity.
  - destruct (partb_is_reachable_ok self (fst p) (snd p)) as [b Hb];
      [apply Hwf|].
    destruct (partb_inverse_kinematics_ok minimize self (fst p) (snd p)
                Hshape Hwf) as [r Hr].
    assert (Hoa : oracle_accepts self p = b).
    { unfold oracle_accepts. rewrite Hb. destruct b; reflexivity. }
    assert (Hsf : solver_finds minimize self p
                  = match r with Some _ => true | None => false end).
    { unfold solver_finds. rewrite Hr. reflexivity. }
    cbn [py.for_ filter]. rewrite Hoa, Hsf.
    unfold PartB.workspace_body at 1. rewrite Hb. cbn [bind].
    destruct b; cbn [andb].
    + rewrite Hr. cbn [bind].
      destruct r as [angles|]; cbn [bind]; rewrite IH, <- !app_assoc;
        reflexivity.
    + cbn [bind]. rewrite IH, <- !app_assoc. reflexivity.
Qed.

(** ** The sampler of the 4-DOF arm *)

Lemma run_same_constraint {S : Type}
  (objective : list R -> S -> result (R * S))
  (c1 c2 : list R -> result (list R)) :
  (forall v, c1 v = c2 v) ->
  forall (o : scipy.Optimizer) (s : S),
    scipy.run objective c1 o s = scipy.run objective c2 o s.
Proof.
  intros Hc. induction o as [r | v k IH | v k IH]; intros s.
  - reflexivity.
  - cbn [scipy.run]. destruct (objective v s) as [[f s']|e];
      [apply IH | reflexivity].
  - cbn [scipy.run]. rewrite Hc.
    destruct (c2 v) as [c|e]; [apply IH | reflexivity].
Qed.

Lemma solver_succeeds_same_chain (minimize : scipy.Minimize)
  (elapsed : nat -> R) (a b : PartC.RoboticArm4DOF) (p : R * R) :
  same_chain a b ->
  exists b' : PartC.RoboticArm4DOF,
    PartC.inverse_kinematics minimize elapsed b p None
    = Ok ((solver_succeeds minimize elapsed a p,
           snd (fst (match PartC.inverse_kinematics minimize elapsed a p None
                     with
                     | Ok r => r
                     | Raise _ => ((false, []), a)
                     end))), b')
    /\ same_chain a b'
    /\ PartC.ik_calculations b' = (PartC.ik_calculations b + 1)%nat.
Proof.
  intros Hab. unfold solver_succeeds.
  destruct (partc_inverse_kinematics_run minimize elapsed a p None)
    as (res & a' & Hrun & _ & _ & Hik).
  rewrite Hik. cbn [fst snd guess_of] in *.
  destruct (partc_run_same_result elapsed p a _ a b res a' Hab Hrun)
    as [b0 Hrunb].
  destruct Hab as (H1 & H2 & H3 & H4 & H5).
  destruct (partc_run_total elapsed p b
              (minimize (PartC.joint_values b) options_4dof) b)
    as (res' & b1 & Hrun1 & Hsame1 & Hik1).
  assert (Hsame : scipy.run (PartC.objective_function elapsed p)
                    (PartC.constraint_function b)
                    (minimize (PartC.joint_values b) options_4dof) b
                  = scipy.run (PartC.objective_function elapsed p)
                      (PartC.constraint_function a)
                      (minimize (PartC.joint_values a) options_4dof) b).
  { rewrite H4. apply run_same_constraint.
    intros v. unfold PartC.constraint_function. rewrite H3. reflexivity. }
  rewrite Hsame, Hrunb in Hrun1. injection Hrun1 as <- <-.
  exists (PartC.count_ik elapsed b0).
  split; [|split].
  - unfold PartC.inverse_kinematics.
    change (Some {| scipy.maxiter := 100; scipy.ftol := 1 / 1000000 |})
      with options_4dof.
    rewrite Hsame, Hrunb. cbn [bind]. rewrite H4. reflexivity.
  - eapply same_chain_trans; [|apply (same_chain_count_ik elapsed)].
    eapply same_chain_trans; [|exact Hsame1].
    repeat split; assumption.
  - cbn [PartC.count_ik PartC.ik_calculations]. rewrite Hik1. reflexivity.
Qed.

(** The loop of [get_workspace_analysis] over a list of grid items, when
    the grid has at least ten points. *)
Lemma partc_workspace_loop (minimize : scipy.Minimize) (elapsed : nat -> R)
  (self0 : PartC.RoboticArm4DOF) (resolution total_points : nat) :
  (total_points / 10 =? 0)%nat = false ->
  forall (items : list ((nat * R) * (nat * R))) (acc : list (R * R))
         (self : PartC.RoboticArm4DOF),
    same_chain self0 self ->
    exists self' : PartC.RoboticArm4DOF,
      py.for_ items
        (PartC.workspace_body minimize elapsed resolution total_points)
        (acc, self)
      = Ok (acc
              ++ filter (solver_succeeds minimize elapsed self0)
                   (map point_of items),
            self')
      /\ same_chain self0 self'
      /\ PartC.ik_calculations self'
         = (PartC.ik_calculations self + length items)%nat.
Proof.
  intros Htotal.
  induction items as [|[[i x] [j y]] items IH]; intros acc self Hsame.
  - exists self. cbn [py.for_ map filter length]. rewrite app_nil_r.
    split; [reflexivity|]. split; [exact Hsame | lia].
  - cbn [py.for_ map filter length]. unfold PartC.workspace_body at 1.
    destruct (solver_succeeds_same_chain minimize elapsed self0 self (x, y)
                Hsame) as (self1 & Hik & Hsame1 & Hcount1).
    rewrite Hik. cbn [bind]. rewrite Htotal. cbn [bind].
    unfold point_of at 1. cbn [fst snd].
    destruct (solver_succeeds minimize elapsed self0 (x, y)).
    + destruct (IH (acc ++ [(x, y)]) self1 Hsame1)
        as (self' & Hloop & Hsame' & Hcount').
      exists self'. rewrite Hloop, <- app_assoc.
      split; [reflexivity|]. split; [exact Hsame' | lia].
    + destruct (IH acc self1 Hsame1) as (self' & Hloop & Hsame' & Hcount').
      exists self'. rewrite Hloop.
      split; [reflexivity|]. split; [exact Hsame' | lia].
Qed.

(** [get_workspace] on a well-formed arm: the tested points are the grid,
    the solver is entered on the points the reachability test accepts, and
    the reachable points are those of them where it finds a solution. *)
Lemma partb_get_workspace_traced (minimize : scipy.Minimize)
  (self : PartB.RoboticArm) (resolution : nat) :
  keeps_shape minimize ->
  well_formed self ->
  let m := np.sum (PartB.link_lengths self) in
  let g := PartB.grid (np.linspace (- m) m resolution)
             (np.linspace (- m) m resolution) in
  PartB.get_workspace_traced minimize self resolution
  = Ok (filter
          (fun p => oracle_accepts self p && solver_finds minimize self p) g,
        g, filter (oracle_accepts self) g).
Proof.
  intros Hshape Hwf m g. unfold PartB.get_workspace_traced.
  fold m. fold g.
  rewrite (partb_workspace_loop minimize self Hshape Hwf g [] [] []).
  reflexivity.
Qed.



Lemma ten_points (n : nat) : (10 <= n)%nat -> (n / 10 =? 0)%nat = false.
Proof.
  intros H. apply Nat.eqb_neq.
  pose proof (Nat.div_str_pos n 10). lia.
Qed.

(** [get_workspace_analysis] on an arm with a prismatic joint and a grid of
    at least ten points. *)
Lemma partc_get_workspace_analysis (minimize : scipy.Minimize)
  (elapsed : nat -> R) (self : PartC.RoboticArm4DOF) (resolution : nat)
  (m : R) :
  PartC.grid_max_reach self = Ok m ->
  (10 <= resolution * resolution)%nat ->
  let g := PartB.grid (np.linspace (- m) m resolution)
             (np.linspace (- m) m resolution) in
  let reachable := filter (solver_succeeds minimize elapsed self) g in
  exists self' : PartC.RoboticArm4DOF,
    PartC.get_workspace_analysis minimize elapsed self resolution
    = Ok ({| PartC.reachable_points := reachable;
             PartC.reachability_ratio :=
               INR (length reachable) / INR (resolution * resolution);
             PartC.total_points_tested := (resolution * resolution)%nat;
             PartC.workspace_area :=
               INR (length reachable) * (2 * m / INR resolution) ^ 2;
             PartC.max_reach := m |}, self')
    /\ same_chain self self'
    /\ PartC.ik_calculations self'
       = (PartC.ik_calculations self + resolution * resolution)%nat.
Proof.
  intros Hm Hten g reachable.
  destruct (partc_workspace_loop minimize elapsed self resolution
              (resolution * resolution) (ten_points _ Hten)
              (PartC.enumerated_grid (np.linspace (- m) m resolution)
                 (np.linspace (- m) m resolution))
              [] self (same_chain_refl self))
    as (self' & Hloop & Hsame & Hcount).
  exists self'. split; [|split; [exact Hsame|]].
  - unfold PartC.get_workspace_analysis. rewrite Hm. cbn [bind].
    rewrite Hloop. cbn [bind app].
    replace (resolution * resolution =? 0)%nat with false
      by (symmetry; apply Nat.eqb_neq; lia).
    rewrite enumerated_grid_points. reflexivity.
  - rewrite Hcount. f_equal.
    rewrite <- (length_map point_of), enumerated_grid_points, length_grid,
      !length_linspace.
    reflexivity.
Qed.

Lemma arm_4dof_grid_max_reach :
  PartC.grid_max_reach arm_4dof = Ok (np.sum [2; 3 / 2; 0; 1] + 2).
Proof. reflexivity. Qed.



(** ** Two concrete samples *)

Lemma well_formed_arm_3link : well_formed arm_3link.
Proof.
  unfold well_formed, arm_3link; cbn.
  repeat split; try lia. discriminate.
Qed.

Lemma sum_arm_3link : np.sum (PartB.link_lengths arm_3link) = 7.
Proof. cbn. lra. Qed.

Lemma linspace_3 (m : R) : np.linspace (- m) m 3 = [- m; 0; m].
Proof.
  unfold np.linspace. cbn [Nat.ltb Nat.leb Nat.sub seq map removelast app INR].
  f_equal; [lra|]. f_equal. lra.
Qed.

Lemma linspace_5 (m : R) :
  np.linspace (- m) m 5 = [- m; - m / 2; 0; m / 2; m].
Proof.
  unfold np.linspace. cbn [Nat.ltb Nat.leb Nat.sub seq map removelast app INR].
  f_equal; [lra|]. f_equal; [lra|]. f_equal; [lra|]. f_equal. lra.
Qed.

(** The reachability test of the sample 3-link arm at a point whose
    distance from the base is known. *)
Lemma oracle_arm_3link (p : R * R) (d : R) :
  0 <= d -> fst p ^ 2 + snd p ^ 2 = d * d ->
  oracle_accepts arm_3link p = py.le 4 d && py.le d 7.
Proof.
  intros Hd Hp. unfold oracle_accepts, PartB.is_reachable.
  cbn [arm_3link PartB.link_lengths np.last bind List.last removelast].
  rewrite Hp, sqrt_square by exact Hd.
  replace (np.sum [3; 5 / 2; 3 / 2]) with 7 by (cbn; lra).
  replace (Rabs (np.sum [3; 5 / 2] - 3 / 2)) with 4.
  - destruct (py.le 4 d && py.le d 7); reflexivity.
  - replace (np.sum [3; 5 / 2] - 3 / 2) with 4 by (cbn; lra).
    unfold Rabs. destruct (Rcase_abs 4); lra.
Qed.

Lemma oracle_arm_3link_far (p : R * R) :
  7 * 7 < fst p ^ 2 + snd p ^ 2 -> oracle_accepts arm_3link p = false.
Proof.
  intros Hp. unfold oracle_accepts, PartB.is_reachable.
  cbn [arm_3link PartB.link_lengths np.last bind List.last removelast].
  replace (np.sum [3; 5 / 2; 3 / 2]) with 7 by (cbn; lra).
  assert (H : 7 < sqrt (fst p ^ 2 + snd p ^ 2)).
  { rewrite <- (sqrt_square 7) at 1 by lra. apply sqrt_lt_1_alt. lra. }
  rewrite (proj2 (le_false_iff (sqrt (fst p ^ 2 + snd p ^ 2)) 7) H).
  rewrite andb_false_r. reflexivity.
Qed.

Lemma solver_finds_stay (p : R * R) : solver_finds stay arm_3link p = true.
Proof. reflexivity. Qed.

(** The sampler of the sample 3-link arm at the resolution 3: of the nine
    tested points the four on the axes at the distance 7 are reachable. *)
Lemma get_workspace_arm_3link_3 :
  PartB.get_workspace_traced stay arm_3link 3
  = Ok ([(- (7), 0); (0, - (7)); (0, 7); (7, 0)],
        [(- (7), - (7)); (- (7), 0); (- (7), 7); (0, - (7)); (0, 0); (0, 7);
         (7, - (7)); (7, 0); (7, 7)],
        [(- (7), 0); (0, - (7)); (0, 7); (7, 0)]).
Proof.
  rewrite (partb_get_workspace_traced stay arm_3link 3 keeps_shape_stay
             well_formed_arm_3link).
  cbv zeta. rewrite sum_arm_3link, linspace_3.
  cbn [PartB.grid flat_map map app filter].
  rewrite !solver_finds_stay, !andb_true_r.
  rewrite (oracle_arm_3link_far (- (7), - (7))) by (cbn [fst snd]; lra).
  rewrite (oracle_arm_3link_far (- (7), 7)) by (cbn [fst snd]; lra).
  rewrite (oracle_arm_3link_far (7, - (7))) by (cbn [fst snd]; lra).
  rewrite (oracle_arm_3link_far (7, 7)) by (cbn [fst snd]; lra).
  rewrite (oracle_arm_3link (- (7), 0) 7) by (cbn [fst snd]; lra).
  rewrite (oracle_arm_3link (0, - (7)) 7) by (cbn [fst snd]; lra).
  rewrite (oracle_arm_3link (0, 7) 7) by (cbn [fst snd]; lra).
  rewrite (oracle_arm_3link (7, 0) 7) by (cbn [fst snd]; lra).
  rewrite (oracle_arm_3link (0, 0) 0) by (cbn [fst snd]; lra).
  rewrite (proj2 (le_true_iff 4 7)) by lra.
  rewrite (proj2 (le_true_iff 7 7)) by lra.
  rewrite (proj2 (le_false_iff 4 0)) by lra.
  reflexivity.
Qed.

(** The residual of the sample 4-DOF arm at its fully extended vector. *)
Lemma residual_arm_4dof_full (p : R * R) :
  residual arm_4dof p [0; 0; 2; 0] = np.norm (13 / 2 - fst p, 0 - snd p).
Proof.
  unfold residual. rewrite arm_4dof_fk. cbn [fst snd].
  rewrite !Rplus_0_r, !Rplus_0_l, cos_0, sin_0.
  f_equal. f_equal; lra.
Qed.

Lemma solver_succeeds_reach_out (p : R * R) :
  solver_succeeds reach_out no_clock arm_4dof p
  = py.lt (np.norm (13 / 2 - fst p, 0 - snd p)) (1 / 100).
Proof.
  unfold solver_succeeds, PartC.inverse_kinematics, reach_out.
  cbn [scipy.run]. rewrite objective_function_value.
  cbn [bind scipy.success scipy.fun_ andb].
  rewrite residual_arm_4dof_full. reflexivity.
Qed.

Lemma solver_succeeds_reach_out_end :
  solver_succeeds reach_out no_clock arm_4dof (13 / 2, 0) = true.
Proof.
  rewrite solver_succeeds_reach_out. cbn [fst snd].
  apply lt_true_iff. unfold np.norm. cbn [fst snd].
  replace ((13 / 2 - 13 / 2) * (13 / 2 - 13 / 2) + (0 - 0) * (0 - 0))
    with 0 by lra.
  rewrite sqrt_0. lra.
Qed.

Lemma end_in_grid_5 :
  In (13 / 2, 0)
    (PartB.grid
       (np.linspace (- (np.sum [2; 3 / 2; 0; 1] + 2))
          (np.sum [2; 3 / 2; 0; 1] + 2) 5)
       (np.linspace (- (np.sum [2; 3 / 2; 0; 1] + 2))
          (np.sum [2; 3 / 2; 0; 1] + 2) 5)).
Proof.
  rewrite linspace_5. apply in_grid. cbn [fst snd].
  split.
  - do 4 right. left. cbn. lra.
  - do 2 right. left. reflexivity.
Qed.


(** On a grid of fewer than ten points the progress report of
    [get_workspace_analysis] divides by zero at the first point, and on the
    empty grid the reachability ratio does. *)
Lemma get_workspace_analysis_small_grid (minimize : scipy.Minimize)
  (elapsed : nat -> R) (self : PartC.RoboticArm4DOF) (resolution : nat)
  (m : R) :
  PartC.grid_max_reach self = Ok m ->
  (resolution * resolution < 10)%nat ->
  PartC.get_workspace_analysis minimize elapsed self resolution
  = Raise ZeroDivisionError.
Proof.
  intros Hm H10. unfold PartC.get_workspace_analysis.
  rewrite Hm. cbn [bind].
  pose proof (length_linspace (- m) m resolution) as Hlen.
  destruct (np.linspace (- m) m resolution) as [|x xs].
  - cbn [length] in Hlen. subst resolution. reflexivity.
  - unfold PartC.enumerated_grid, py.enumerate.
    cbn [length seq combine flat_map map app py.for_].
    unfold PartC.workspace_body at 1.
    destruct (partc_inverse_kinematics_run minimize elapsed self (x, x) None)
      as (res & self' & _ & _ & _ & Hik).
    rewrite Hik. cbn [bind].
    replace (resolution * resolution / 10 =? 0)%nat with true.
    + reflexivity.
    + symmetry. apply Nat.eqb_eq. apply Nat.div_small. exact H10.
Qed.


(** On an arm without links [get_workspace] raises at the first point,
    from [link_lengths[-1]] in [is_reachable]. *)
Lemma get_workspace_no_links (minimize : scipy.Minimize)
  (self : PartB.RoboticArm) (resolution : nat) :
  PartB.link_lengths self = [] ->
  (1 <= resolution)%nat ->
  PartB.get_workspace minimize self resolution = Raise IndexError.
Proof.
  intros Hlinks H1.
  unfold PartB.get_workspace, PartB.get_workspace_traced.
  pose proof (length_linspace (- np.sum (PartB.link_lengths self))
                (np.sum (PartB.link_lengths self)) resolution) as Hlen.
  destruct (np.linspace _ _ resolution) as [|x xs];
    [cbn [length] in Hlen; lia|].
  cbn [PartB.grid flat_map map app py.for_].
  unfold PartB.workspace_body at 1. unfold PartB.is_reachable.
  rewrite Hlinks. reflexivity.
Qed.



(** ** The size of the grid and the area estimate *)


Lemma sqrt_INR_square (n : nat) : sqrt (INR (n * n)) = INR n.
Proof. rewrite mult_INR. apply sqrt_square, pos_INR. Qed.

Lemma partb_workspace_area (self : PartB.RoboticArm)
  (reach all : list (R * R)) :
  PartB.link_lengths self <> [] ->
  all <> [] ->
  PartB.workspace_area self reach all
  = Ok (INR (length reach)
        * (2 * np.sum (PartB.link_lengths self) / sqrt (INR (length all)))
          ^ 2).
Proof.
  intros Hlinks Hall. unfold PartB.workspace_area.
  destruct (PartB.link_lengths self) as [|l ls]; [contradiction|].
  cbn [np.last bind].
  destruct all as [|p all]; [contradiction|].
  cbn [length Nat.eqb].
  destruct (length reach) as [|n]; [|reflexivity].
  cbn [Nat.ltb Nat.leb INR]. f_equal. lra.
Qed.





(** ** The reach of a chain *)
























(** ** Two observations on the 4-DOF arm *)

(** On a vector that one joint rejects, [set_joint_configuration] returns
    false and keeps the joint-value vector of the arm, but the joints that
    accepted their value have stored it. *)
Lemma set_joint_configuration_partial_store :
  fst (PartC.set_joint_configuration arm_4dof [1; 0; 10; 0]) = false
  /\ PartC.joint_values
       (snd (PartC.set_joint_configuration arm_4dof [1; 0; 10; 0]))
     = [0; 0; 0; 0]
  /\ map PartC.value
       (PartC.joints
          (snd (PartC.set_joint_configuration arm_4dof [1; 0; 10; 0])))
     = [1; 0; 0; 0].
Proof.
  pose proof PI2_1 as Hpi.
  unfold PartC.set_joint_configuration, arm_4dof.
  cbn [PartC.joints PartC.set_values].
  unfold PartC.set_value, PartC.Joint__init__.
  cbn [PartC.min_limit PartC.max_limit fst snd].
  rewrite (proj2 (le_true_iff (- PI) 1)) by lra.
  rewrite (proj2 (le_true_iff 1 PI)) by lra.
  rewrite (proj2 (le_true_iff (- PI / 2) 0)) by lra.
  rewrite (proj2 (le_true_iff 0 (PI / 2))) by lra.
  rewrite (proj2 (le_true_iff 0 10)) by lra.
  rewrite (proj2 (le_false_iff 10 2)) by lra.
  rewrite (proj2 (le_true_iff (- PI) 0)) by lra.
  rewrite (proj2 (le_true_iff 0 PI)) by lra.
  cbn. repeat split; reflexivity.
Qed.


(** ** Forward kinematics of the 3-link arm on other vectors *)

Lemma skipn_lt_cons {A : Type} (l : list A) (a : nat) :
  (a < length l)%nat -> exists h t, skipn a l = h :: t.
Proof.
  revert a; induction l as [|b l IH]; intros a H; [simpl in H; lia|].
  destruct a as [|a]; [exists b, l; reflexivity|].
  apply IH. simpl in H. lia.
Qed.

Lemma getitem_lt {A : Type} (l : list A) (i : nat) :
  (i < length l)%nat -> exists a, py.getitem l i = Ok a.
Proof.
  intros H. unfold py.getitem.
  destruct (nth_error l i) as [a|] eqn:Hn; [exists a; reflexivity|].
  apply nth_error_None in Hn. lia.
Qed.

Lemma getitem_ge {A : Type} (l : list A) (i : nat) :
  (length l <= i)%nat -> py.getitem l i = Raise IndexError.
Proof.
  intros H. unfold py.getitem.
  rewrite (proj2 (nth_error_None l i) H). reflexivity.
Qed.

Lemma setitem_length {A : Type} (l : list A) (i : nat) (v : A)
  (l' : list A) :
  py.setitem l i v = Ok l' -> length l' = length l.
Proof.
  revert i l'; induction l as [|a l IH]; intros i l' H.
  - discriminate H.
  - destruct i as [|i]; cbn in H.
    + injection H as <-. reflexivity.
    + destruct (py.setitem l i v) as [t|e] eqn:Ht; [|discriminate H].
      cbn in H. injection H as <-. simpl. rewrite (IH i t Ht). reflexivity.
Qed.

Lemma partb_loop_length (self : PartB.RoboticArm) (cum : list R)
  (idx : list nat) :
  forall jp jp' : list (R * R),
    py.for_ idx (PartB.fk_body self cum) jp = Ok jp' ->
    length jp' = length jp.
Proof.
  induction idx as [|i idx IH]; intros jp jp' H.
  - injection H as <-. reflexivity.
  - cbn [py.for_] in H.
    destruct (PartB.fk_body self cum jp i) as [jp1|e] eqn:Hb;
      [|discriminate H].
    cbn [bind] in H. rewrite (IH jp1 jp' H).
    unfold PartB.fk_body in Hb.
    destruct (py.getitem jp i); [|discriminate Hb].
    destruct (py.getitem (PartB.link_lengths self) i); [|discriminate Hb].
    destruct (py.getitem cum i); [|discriminate Hb].
    cbn [bind] in Hb. exact (setitem_length _ _ _ _ Hb).
Qed.

(** The loop of the 3-link arm over the indices [a .. a + m - 1], whatever
    follows the zeros they overwrite. *)
Lemma partb_loop_prefix (self : PartB.RoboticArm) (cum : list R) :
  forall (m a : nat) (pre : list (R * R)) (p : R * R) (rest : list (R * R)),
    length pre = a ->
    (a + m <= length (PartB.link_lengths self))%nat ->
    (a + m <= length cum)%nat ->
    py.for_ (seq a m) (PartB.fk_body self cum)
      (pre ++ p :: repeat (0, 0) m ++ rest)
    = Ok (pre
            ++ p
            :: chain_positions (firstn m (skipn a (PartB.link_lengths self)))
                 (firstn m (skipn a cum)) p
            ++ rest).
Proof.
  induction m as [|m IH]; intros a pre p rest Hpre Hl Hc.
  - reflexivity.
  - destruct (skipn_lt_cons (PartB.link_lengths self) a) as (l & ls & Hls);
      [lia|].
    destruct (skipn_lt_cons cum a) as (c & cs & Hcs); [lia|].
    destruct (skipn_cons_getitem _ _ _ _ Hls) as [Hgl Hls'].
    destruct (skipn_cons_getitem _ _ _ _ Hcs) as [Hgc Hcs'].
    rewrite Hls, Hcs. cbn [firstn chain_positions].
    rewrite <- Hls', <- Hcs'.
    cbn [seq py.for_ repeat app]. unfold PartB.fk_body at 1.
    rewrite <- Hpre at 1. rewrite getitem_app_here. cbn [bind].
    rewrite Hgl, Hgc. cbn [bind].
    rewrite <- Hpre at 1. rewrite setitem_app_next. cbn [bind].
    change (pre ++ p :: ?v :: ?r) with (pre ++ [p] ++ v :: r).
    rewrite app_assoc.
    rewrite (IH (S a) (pre ++ [p])); try lia.
    + rewrite <- app_assoc. reflexivity.
    + rewrite length_app; simpl; lia.
Qed.

Lemma cumsum_from_app (acc : R) (a e : list R) :
  np.cumsum_from acc (a ++ e)
  = np.cumsum_from acc a ++ np.cumsum_from (acc + np.sum a) e.
Proof.
  revert acc; induction a as [|h a IH]; intros acc.
  - cbn. rewrite Rplus_0_r. reflexivity.
  - cbn [app np.cumsum_from np.sum fold_right]. rewrite IH.
    unfold np.sum. rewrite Rplus_assoc. reflexivity.
Qed.

(** The positions [forward_kinematics] returns when it has at least one
    angle for each link: only the first cumulative angles count. *)
Lemma partb_forward_kinematics_firstn (self : PartB.RoboticArm)
  (angles : list R) :
  PartB.num_joints self = length (PartB.link_lengths self) ->
  (length (PartB.link_lengths self) <= length angles)%nat ->
  PartB.forward_kinematics self (Some angles)
  = (let positions :=
       (0, 0)
       :: chain_positions (PartB.link_lengths self)
            (firstn (length (PartB.link_lengths self)) (np.cumsum angles))
            (0, 0) in
     Ok (List.last positions (0, 0), positions)).
Proof.
  intros Hn Hlen. unfold PartB.forward_kinematics. rewrite Hn.
  unfold np.zeros2. rewrite Nat.add_1_r. cbn [repeat].
  pose proof (partb_loop_prefix self (np.cumsum angles)
                (length (PartB.link_lengths self)) 0 [] (0, 0) []
                eq_refl) as Hloop.
  cbn [app skipn] in Hloop. rewrite !app_nil_r in Hloop.
  rewrite firstn_all in Hloop. rewrite Hloop.
  - cbn [bind np.last]. rewrite last_cons_default. reflexivity.
  - lia.
  - unfold np.cumsum. rewrite length_cumsum_from. lia.
Qed.

(** X1. [forward_kinematics] of the 3-link arm reads one cumulative angle
    for each link: with fewer angles than links it raises [IndexError],
    and angles beyond the number of links are ignored. *)
Theorem X1_forward_kinematics_angle_count
  (links : list R) (limits : option (list (R * R))) (arm : PartB.RoboticArm)
  (angles extra : list R)
  (Hinit : PartB.__init__ links limits = Ok arm) :
  ((length angles < length links)%nat ->
   PartB.forward_kinematics arm (Some angles) = Raise IndexError)
  /\ (length angles = length links ->
      PartB.forward_kinematics arm (Some (angles ++ extra))
      = PartB.forward_kinematics arm (Some angles)).
Proof.
  injection Hinit as <-.
  set (self := {| PartB.link_lengths := links |}).
  assert (Hn : PartB.num_joints self = length (PartB.link_lengths self))
    by reflexivity.
  split.
  - intros Hshort.
    unfold PartB.forward_kinematics. rewrite Hn.
    change (PartB.link_lengths self) with links.
    set (k := length angles) in *.
    replace (length links) with (k + S (length links - k - 1))%nat by lia.
    rewrite seq_app, for_app. cbn [Nat.add].
    unfold np.zeros2.
    replace (k + S (length links - k - 1) + 1)%nat
      with (S (k + S (length links - k - 1)))%nat by lia.
    cbn [repeat]. rewrite repeat_app.
    assert (H1 : (0 + k <= length (PartB.link_lengths self))%nat)
      by (change (PartB.link_lengths self) with links; lia).
    assert (H2 : (0 + k <= length (np.cumsum angles))%nat)
      by (unfold np.cumsum; rewrite length_cumsum_from; fold k; lia).
    pose proof (partb_loop_prefix self (np.cumsum angles) k 0 [] (0, 0)
                  (repeat (0, 0) (S (length links - k - 1))) eq_refl H1 H2)
      as Hloop.
    cbn [app] in Hloop. rewrite Hloop.
    pose proof (partb_loop_length _ _ _ _ _ Hloop) as Hlen.
    cbn [bind seq py.for_].
    unfold PartB.fk_body at 1.
    match goal with
    | |- context [py.getitem ?jp k] =>
        destruct (getitem_lt jp k) as [p Hp];
          [rewrite Hlen; cbn [length];
           rewrite length_app, !repeat_length; lia|]
    end.
    destruct (getitem_lt (PartB.link_lengths self) k) as [l Hl].
    { change (PartB.link_lengths self) with links. lia. }
    rewrite Hp, Hl. cbn [bind].
    rewrite getitem_ge; [reflexivity|].
    unfold np.cumsum. rewrite length_cumsum_from. fold k. lia.
  - intros Hlen.
    rewrite !partb_forward_kinematics_firstn; try exact Hn.
    + cbn zeta. change (PartB.link_lengths self) with links.
      unfold np.cumsum. rewrite cumsum_from_app.
      rewrite firstn_app, length_cumsum_from, Hlen, Nat.sub_diag.
      cbn [firstn]. rewrite app_nil_r. reflexivity.
    + change (PartB.link_lengths self) with links. lia.
    + change (PartB.link_lengths self) with links.
      rewrite length_app. lia.
Qed.

Lemma X1_forward_kinematics_angle_count_witness :
  PartB.__init__ [3; 5 / 2; 3 / 2] None = Ok arm_3link
  /\ ((length [0; 0] < length [3; 5 / 2; 3 / 2])%nat ->
      PartB.forward_kinematics arm_3link (Some [0; 0]) = Raise IndexError)
  /\ (length [0; 0] = length [3; 5 / 2; 3 / 2] ->
      PartB.forward_kinematics arm_3link (Some ([0; 0] ++ [1]))
      = PartB.forward_kinematics arm_3link (Some [0; 0])).
Proof.
  split; [reflexivity|].
  exact (X1_forward_kinematics_angle_count [3; 5 / 2; 3 / 2] None arm_3link
           [0; 0] [1] arm_3link_init).
Defined.

(** ** The constraint functions of the two solvers *)

(** The constraint pair of one angle and its limits. *)
Definition constraint_pair (al : R * (R * R)) : list R :=
  [fst al - fst (snd al); snd (snd al) - fst al].

Lemma partb_constraint_loop_value (angles : list R) :
  forall (ls : list (R * R)) (a : nat) (acc : list R),
    (a + length ls <= length angles)%nat ->
    py.for_ (combine (seq a (length ls)) ls)
      (fun constraints '(i, (min_angle, max_angle)) =>
         x <- py.getitem angles i ;;
         Ok (constraints ++ [x - min_angle; max_angle - x]))
      acc
    = Ok (acc ++ flat_map constraint_pair (combine (skipn a angles) ls)).
Proof.
  induction ls as [|[mn mx] ls IH]; intros a acc H.
  - cbn. rewrite combine_nil, app_nil_r. reflexivity.
  - cbn [length seq combine py.for_].
    destruct (skipn_lt_cons angles a) as (x & rest & Hx);
      [simpl in H; lia|].
    destruct (skipn_cons_getitem angles a x rest Hx) as [Hg Hrest].
    rewrite Hg. cbn [bind]. rewrite IH by (simpl in H; lia).
    rewrite Hx, Hrest. cbn [combine flat_map constraint_pair fst snd].
    rewrite <- app_assoc. reflexivity.
Qed.

Lemma partb_constraint_loop_raises (angles : list R) :
  forall (ls : list (R * R)) (a : nat) (acc : list R),
    (a <= length angles)%nat ->
    (length angles < a + length ls)%nat ->
    py.for_ (combine (seq a (length ls)) ls)
      (fun constraints '(i, (min_angle, max_angle)) =>
         x <- py.getitem angles i ;;
         Ok (constraints ++ [x - min_angle; max_angle - x]))
      acc
    = Raise IndexError.
Proof.
  induction ls as [|[mn mx] ls IH]; intros a acc Ha H.
  - simpl in H. lia.
  - cbn [length seq combine py.for_].
    destruct (Nat.eq_dec a (length angles)) as [Heq|Hne].
    + rewrite getitem_ge by lia. reflexivity.
    + destruct (getitem_lt angles a) as [x Hx]; [lia|].
      rewrite Hx. cbn [bind]. apply IH; simpl in H; lia.
Qed.

Lemma Forall_flat_map_pairs (l : list (R * (R * R))) :
  Forall (fun c => 0 <= c) (flat_map constraint_pair l)
  <-> Forall (fun al => fst (snd al) <= fst al <= snd (snd al)) l.
Proof.
  induction l as [|al l IH].
  - split; intros _; constructor.
  - cbn [flat_map constraint_pair app]. split; intros H.
    + inversion H as [|c1 t1 H1 Ht1]; subst.
      inversion Ht1 as [|c2 t2 H2 Ht2]; subst.
      constructor; [lra | apply IH; exact Ht2].
    + inversion H as [|al' l' Hal Hl]; subst.
      constructor; [lra|]. constructor; [lra|]. apply IH; exact Hl.
Qed.

(** X2. The constraint function the 3-link solver hands to the optimizer
    returns two numbers for each joint limit, and all of them are
    non-negative exactly when every limited angle lies within its limits;
    when the arm has more limits than the vector has angles it raises
    [IndexError]. *)
Theorem X2_constraint_of_the_3link_solver
  (self : PartB.RoboticArm) (angles : list R) :
  ((length (PartB.joint_limits self) <= length angles)%nat ->
   exists c : list R,
     PartB.constraint self angles = Ok c
     /\ length c = (2 * length (PartB.joint_limits self))%nat
     /\ (Forall (fun v => 0 <= v) c
         <-> Forall (fun al => fst (snd al) <= fst al <= snd (snd al))
               (combine angles (PartB.joint_limits self))))
  /\ ((length angles < length (PartB.joint_limits self))%nat ->
      PartB.constraint self angles = Raise IndexError).
Proof.
  split.
  - intros H. unfold PartB.constraint, py.enumerate.
    rewrite partb_constraint_loop_value by (simpl; lia).
    cbn [app skipn]. eexists. split; [reflexivity|]. split.
    + generalize (PartB.joint_limits self) angles H.
      induction l as [|lim l IH]; intros an Hl; [destruct an; reflexivity|].
      destruct an as [|a an]; [simpl in Hl; lia|].
      cbn [combine flat_map constraint_pair app length].
      rewrite IH by (simpl in Hl; lia). lia.
    + apply Forall_flat_map_pairs.
  - intros H. unfold PartB.constraint, py.enumerate.
    apply partb_constraint_loop_raises; simpl; lia.
Qed.

Lemma partc_constraint_pairs (js : list PartC.Joint) (vs : list R) :
  Forall (fun c => 0 <= c)
    (flat_map
       (fun '(joint, val) =>
          [val - PartC.min_limit joint; PartC.max_limit joint - val])
       (py.zip js vs))
  <-> snd (PartC.set_values js vs) = true.
Proof.
  rewrite set_values_valid. unfold py.zip.
  generalize (combine js vs) as l.
  induction l as [|[j v] l IH].
  - split; intros _; [reflexivity | constructor].
  - cbn [flat_map app forallb]. rewrite andb_true_iff. split; intros H.
    + inversion H as [|c1 t1 H1 Ht1]; subst.
      inversion Ht1 as [|c2 t2 H2 Ht2]; subst.
      split; [|apply IH; exact Ht2].
      apply andb_true_iff. split; apply le_true_iff; lra.
    + destruct H as [Hjv Hl]. apply andb_true_iff in Hjv as [H1 H2].
      apply le_true_iff in H1. apply le_true_iff in H2.
      constructor; [lra|]. constructor; [lra|]. apply IH; exact Hl.
Qed.

(** X3. The constraint function of the 4-DOF solver and the setter agree
    on what a feasible joint vector is: the constraint function never
    raises, returns two numbers for each joint that has a value, and all of
    them are non-negative exactly when [set_joint_configuration] accepts
    the vector. *)
Theorem X3_constraints_agree_with_the_setter
  (self : PartC.RoboticArm4DOF) (values : list R) :
  exists c : list R,
    PartC.constraint_function self values = Ok c
    /\ length c
       = (2 * Nat.min (length (PartC.joints self)) (length values))%nat
    /\ (Forall (fun v => 0 <= v) c
        <-> fst (PartC.set_joint_configuration self values) = true).
Proof.
  unfold PartC.constraint_function. eexists. split; [reflexivity|]. split.
  - unfold py.zip. rewrite <- length_combine.
    generalize (combine (PartC.joints self) values) as l.
    induction l as [|[j v] l IH]; [reflexivity|].
    cbn [flat_map app length]. rewrite IH. lia.
  - rewrite partc_constraint_pairs.
    unfold PartC.set_joint_configuration.
    destruct (PartC.set_values (PartC.joints self) values); reflexivity.
Qed.

(** ** The reachability test against forward kinematics *)

Lemma sqrt_pow_norm (x y : R) : sqrt (x ^ 2 + y ^ 2) = np.norm (x, y).
Proof. unfold np.norm. cbn [fst snd]. f_equal. ring. Qed.


Lemma norm_abs_axis (x y : R) : y = 0 -> np.norm (x, y) = Rabs x.
Proof.
  intros ->. unfold np.norm. cbn [fst snd].
  replace (x * x + 0 * 0) with (Rsqr x) by (unfold Rsqr; ring).
  apply sqrt_Rsqr_abs.
Qed.

(** X5. On a 3-link arm whose first link is longer than its last and whose
    middle link has a positive length, the reachability test rejects a
    position the arm reaches: with the middle joint folded back (angles
    0, pi, 0) the end effector is at (a - b - c, 0), nearer to the base
    than the lower bound |a + b - c| of the test. *)
Theorem X5_three_link_oracle_rejects_a_pose
  (a b c : R) (limits : option (list (R * R))) (arm : PartB.RoboticArm)
  (Hinit : PartB.__init__ [a; b; c] limits = Ok arm)
  (Hb : 0 < b) (Hc : 0 <= c) (Hac : c < a) :
  exists (end_pos : R * R) (positions : list (R * R)),
    PartB.forward_kinematics arm (Some [0; PI; 0]) = Ok (end_pos, positions)
    /\ end_pos = (a - b - c, 0)
    /\ PartB.is_reachable arm (fst end_pos) (snd end_pos) = Ok false.
Proof.
  rewrite (partb_forward_kinematics_spec [a; b; c] limits arm [0; PI; 0]
             Hinit eq_refl).
  assert (He : fst (Spec.forward_kinematics (rotational_chain [a; b; c])
                      [0; PI; 0]) = (a - b - c, 0)).
  { cbn [Spec.forward_kinematics rotational_chain map Spec.positions_from
         Spec.advance Spec.kind Spec.link_length fst snd List.last].
    rewrite !Rplus_0_l, !Rplus_0_r, cos_0, sin_0, cos_PI, sin_PI.
    f_equal; lra. }
  exists (a - b - c, 0), (snd (Spec.forward_kinematics
                                 (rotational_chain [a; b; c]) [0; PI; 0])).
  split; [|split; [reflexivity|]].
  - rewrite <- He, <- surjective_pairing. reflexivity.
  - injection Hinit as <-.
    unfold PartB.is_reachable.
    cbn [PartB.link_lengths np.last List.last removelast bind fst snd].
    rewrite sqrt_pow_norm, (norm_abs_axis (a - b - c) 0 eq_refl).
    replace (py.le _ (Rabs (a - b - c))) with false; [reflexivity|].
    symmetry. apply le_false_iff.
    cbn [np.sum fold_right].
    unfold Rabs.
    destruct (Rcase_abs (a - b - c)); destruct (Rcase_abs (a + (b + 0) - c));
      lra.
Qed.

Lemma X5_three_link_oracle_witness :
  (PartB.__init__ [3; 5 / 2; 3 / 2] None = Ok arm_3link
   /\ 0 < 5 / 2 /\ 0 <= 3 / 2 /\ 3 / 2 < 3)
  /\ exists (end_pos : R * R) (positions : list (R * R)),
       PartB.forward_kinematics arm_3link (Some [0; PI; 0])
       = Ok (end_pos, positions)
       /\ end_pos = (3 - 5 / 2 - 3 / 2, 0)
       /\ PartB.is_reachable arm_3link (fst end_pos) (snd end_pos)
          = Ok false.
Proof.
  assert (H1 : 0 < 5 / 2) by lra.
  assert (H2 : 0 <= 3 / 2) by lra.
  assert (H3 : 3 / 2 < 3) by lra.
  split.
  - split; [reflexivity|]. split; [exact H1|]. split; [exact H2 | exact H3].
  - exact (X5_three_link_oracle_rejects_a_pose 3 (5 / 2) (3 / 2) None
             arm_3link arm_3link_init H1 H2 H3).
Defined.

(** ** Where the sampled points lie *)

Lemma evenly_spaced_between (a b : R) (n : nat) (x : R) :
  a <= b -> In x (evenly_spaced a b n) -> a <= x <= b.
Proof.
  intros Hab Hin. unfold evenly_spaced in Hin.
  apply in_map_iff in Hin as (i & <- & Hi).
  apply in_seq in Hi. destruct Hi as [_ Hi]. cbn [Nat.add] in Hi.
  destruct (Nat.eq_dec n 1) as [->|Hn].
  - assert (i = 0%nat) as -> by lia. cbn [INR]. lra.
  - assert (Hd : 0 < INR (n - 1)) by (apply lt_0_INR; lia).
    assert (Hi' : 0 <= INR i <= INR (n - 1)).
    { split; [apply pos_INR | apply le_INR; lia]. }
    assert (Hu : 0 <= (b - a) / INR (n - 1)).
    { apply Rmult_le_pos; [lra|]. left. apply Rinv_0_lt_compat. exact Hd. }
    assert (Hfull : INR (n - 1) * ((b - a) / INR (n - 1)) = b - a)
      by (field; lra).
    split.
    + pose proof (Rmult_le_pos _ _ (proj1 Hi') Hu). lra.
    + pose proof (Rmult_le_compat_r _ _ _ Hu (proj2 Hi')). lra.
Qed.

Lemma sum_nonneg (l : list R) :
  Forall (fun v => 0 <= v) l -> 0 <= np.sum l.
Proof.
  intros H. induction H as [|v l Hv _ IH]; cbn; [lra|].
  unfold np.sum in IH. lra.
Qed.

Lemma is_reachable_true (self : PartB.RoboticArm) (x y : R) :
  PartB.is_reachable self x y = Ok true ->
  Rabs (np.sum (removelast (PartB.link_lengths self))
        - List.last (PartB.link_lengths self) 0)
  <= np.norm (x, y) <= np.sum (PartB.link_lengths self).
Proof.
  intros H. unfold PartB.is_reachable in H.
  destruct (PartB.link_lengths self) as [|l ls]; [discriminate H|].
  cbn [np.last bind] in H. rewrite sqrt_pow_norm in H.
  rewrite (last_cons_default ls l 0).
  destruct (py.le _ (np.norm (x, y))) eqn:H1; [|discriminate H].
  destruct (py.le (np.norm (x, y)) _) eqn:H2; [|discriminate H].
  apply le_true_iff in H1. apply le_true_iff in H2. split; assumption.
Qed.

(** What the loop of [get_workspace] has done when it returns: the tested
    points are the points of the list, and the reachable points are some
    of them, each accepted by the reachability test. *)
Lemma partb_workspace_loop_returned (minimize : scipy.Minimize)
  (self : PartB.RoboticArm) :
  forall (pts reach all calls reach' all' calls' : list (R * R)),
    py.for_ pts (PartB.workspace_body minimize self) (reach, all, calls)
    = Ok (reach', all', calls') ->
    all' = all ++ pts
    /\ exists found : list (R * R),
         reach' = reach ++ found
         /\ incl found pts
         /\ (length found <= length pts)%nat
         /\ Forall
              (fun p => PartB.is_reachable self (fst p) (snd p) = Ok true)
              found.
Proof.
  induction pts as [|p pts IH]; intros reach all calls reach' all' calls' H.
  - cbn [py.for_] in H. injection H as <- <- <-.
    split; [rewrite app_nil_r; reflexivity|].
    exists []. rewrite app_nil_r.
    repeat split; auto. intros x [].
  - cbn [py.for_] in H. unfold PartB.workspace_body at 1 in H.
    destruct (PartB.is_reachable self (fst p) (snd p)) as [[|]|e] eqn:Hacc;
      cbn [bind] in H; try discriminate H.
    + destruct (PartB.inverse_kinematics minimize self (fst p) (snd p) None)
        as [[angles|]|e]; cbn [bind] in H; try discriminate H.
      * apply IH in H. destruct H as (Hall & found & Hreach & Hincl & Hlen & Hok).
        split; [rewrite Hall, <- app_assoc; reflexivity|].
        exists (p :: found). rewrite Hreach, <- app_assoc.
        split; [reflexivity|].
        split; [intros x [<-|Hx]; [left; reflexivity | right; apply Hincl, Hx]|].
        split; [cbn [length]; lia|].
        constructor; assumption.
      * apply IH in H. destruct H as (Hall & found & Hreach & Hincl & Hlen & Hok).
        split; [rewrite Hall, <- app_assoc; reflexivity|].
        exists found.
        split; [exact Hreach|].
        split; [intros x Hx; right; apply Hincl, Hx|].
        split; [cbn [length]; lia | exact Hok].
    + apply IH in H. destruct H as (Hall & found & Hreach & Hincl & Hlen & Hok).
      split; [rewrite Hall, <- app_assoc; reflexivity|].
      exists found.
      split; [exact Hreach|].
      split; [intros x Hx; right; apply Hincl, Hx|].
      split; [cbn [length]; lia | exact Hok].
Qed.

(** What [get_workspace] returns, when it returns. *)
Lemma partb_get_workspace_returned (minimize : scipy.Minimize)
  (self : PartB.RoboticArm) (resolution : nat) (reach all : list (R * R)) :
  PartB.get_workspace minimize self resolution = Ok (reach, all) ->
  let m := np.sum (PartB.link_lengths self) in
  all = PartB.grid (np.linspace (- m) m resolution)
          (np.linspace (- m) m resolution)
  /\ incl reach all
  /\ (length reach <= length all)%nat
  /\ length all = (resolution * resolution)%nat
  /\ Forall (fun p => PartB.is_reachable self (fst p) (snd p) = Ok true)
       reach.
Proof.
  intros H m. unfold PartB.get_workspace, PartB.get_workspace_traced in H.
  fold m in H.
  destruct (py.for_ _ _ _) as [[[reach' all'] calls']|e] eqn:Hloop;
    cbn [bind] in H; [|discriminate H].
  injection H as <- <-.
  apply partb_workspace_loop_returned in Hloop.
  destruct Hloop as (Hall & found & Hreach & Hincl & Hlen & Hok).
  cbn [app] in Hall, Hreach. subst reach' all'.
  repeat split; try assumption.
  rewrite length_grid, !length_linspace. reflexivity.
Qed.

(** X6. Whenever the sampler of the 3-link arm returns, on an arm with
    non-negative link lengths, every point it has tested lies in the
    square [-max_reach, max_reach]^2, and every point it reports reachable
    is a tested point in the ring between the lower bound of the
    reachability test and [max_reach]. *)
Theorem X6_sampled_points_lie_in_the_square
  (minimize : scipy.Minimize) (arm : PartB.RoboticArm) (resolution : nat)
  (reach all : list (R * R)) (p : R * R)
  (Hnonneg : Forall (fun l => 0 <= l) (PartB.link_lengths arm))
  (Hrun : PartB.get_workspace minimize arm resolution = Ok (reach, all)) :
  let max_reach := np.sum (PartB.link_lengths arm) in
  (In p all ->
   - max_reach <= fst p <= max_reach /\ - max_reach <= snd p <= max_reach)
  /\ (In p reach ->
      In p all
      /\ Rabs (np.sum (removelast (PartB.link_lengths arm))
               - List.last (PartB.link_lengths arm) 0)
         <= np.norm p <= max_reach).
Proof.
  intros max_reach.
  pose proof (sum_nonneg _ Hnonneg) as Hm. fold max_reach in Hm.
  destruct (partb_get_workspace_returned minimize arm resolution reach all
              Hrun) as (Hall & Hincl & _ & _ & Hok).
  fold max_reach in Hall. rewrite !linspace_evenly_spaced in Hall.
  split.
  - intros Hin. rewrite Hall in Hin. apply in_grid in Hin as [Hx Hy].
    split; eapply evenly_spaced_between; try eassumption; lra.
  - intros Hin. split; [apply Hincl; exact Hin|].
    rewrite Forall_forall in Hok. specialize (Hok p Hin).
    apply is_reachable_true in Hok.
    rewrite <- surjective_pairing in Hok. exact Hok.
Qed.

(** The value of [get_workspace] on a well-formed arm. *)
Lemma partb_get_workspace_value (minimize : scipy.Minimize)
  (self : PartB.RoboticArm) (resolution : nat) :
  keeps_shape minimize ->
  well_formed self ->
  PartB.get_workspace minimize self resolution
  = Ok (filter
          (fun p => oracle_accepts self p && solver_finds minimize self p)
          (PartB.grid
             (np.linspace (- np.sum (PartB.link_lengths self))
                (np.sum (PartB.link_lengths self)) resolution)
             (np.linspace (- np.sum (PartB.link_lengths self))
                (np.sum (PartB.link_lengths self)) resolution)),
        PartB.grid
          (np.linspace (- np.sum (PartB.link_lengths self))
             (np.sum (PartB.link_lengths self)) resolution)
          (np.linspace (- np.sum (PartB.link_lengths self))
             (np.sum (PartB.link_lengths self)) resolution)).
Proof.
  intros Hshape Hwf. unfold PartB.get_workspace.
  rewrite (partb_get_workspace_traced minimize self resolution Hshape Hwf).
  reflexivity.
Qed.

Lemma arm_3link_nonneg :
  Forall (fun l => 0 <= l) (PartB.link_lengths arm_3link).
Proof. cbn. repeat constructor; lra. Qed.

Lemma get_workspace_arm_3link_3_value :
  PartB.get_workspace stay arm_3link 3
  = Ok ([(- (7), 0); (0, - (7)); (0, 7); (7, 0)],
        [(- (7), - (7)); (- (7), 0); (- (7), 7); (0, - (7)); (0, 0); (0, 7);
         (7, - (7)); (7, 0); (7, 7)]).
Proof.
  unfold PartB.get_workspace. rewrite get_workspace_arm_3link_3. reflexivity.
Qed.

Lemma X6_sampled_points_witness :
  (Forall (fun l => 0 <= l) (PartB.link_lengths arm_3link)
   /\ PartB.get_workspace stay arm_3link 3
      = Ok ([(- (7), 0); (0, - (7)); (0, 7); (7, 0)],
            [(- (7), - (7)); (- (7), 0); (- (7), 7); (0, - (7)); (0, 0);
             (0, 7); (7, - (7)); (7, 0); (7, 7)]))
  /\ (- np.sum (PartB.link_lengths arm_3link) <= fst (0, 7)
      <= np.sum (PartB.link_lengths arm_3link)
      /\ - np.sum (PartB.link_lengths arm_3link) <= snd (0, 7)
         <= np.sum (PartB.link_lengths arm_3link))
  /\ Rabs (np.sum (removelast (PartB.link_lengths arm_3link))
           - List.last (PartB.link_lengths arm_3link) 0)
     <= np.norm (0, 7) <= np.sum (PartB.link_lengths arm_3link).
Proof.
  split; [split; [exact arm_3link_nonneg | exact get_workspace_arm_3link_3_value]|].
  destruct (X6_sampled_points_lie_in_the_square stay arm_3link 3 _ _ (0, 7)
              arm_3link_nonneg get_workspace_arm_3link_3_value)
    as [Hall Hreach].
  split.
  - apply Hall. cbn [In]. auto 10.
  - apply Hreach. cbn [In]. auto 10.
Defined.

(** ** Bounds on the area and on the ratio *)

Lemma area_estimate_bound (r n : nat) (m : R) :
  (r <= n * n)%nat ->
  0 <= INR r * (2 * m / INR n) ^ 2 <= (2 * m) ^ 2.
Proof.
  intros Hr. destruct n as [|n].
  - assert (r = 0%nat) as -> by lia. cbn [INR].
    pose proof (pow2_ge_0 (2 * m)). lra.
  - assert (Hn : 0 < INR (S n)) by (apply lt_0_INR; lia).
    assert (Hr' : 0 <= INR r <= INR (S n) * INR (S n)).
    { split; [apply pos_INR|]. rewrite <- mult_INR. apply le_INR. exact Hr. }
    replace (INR r * (2 * m / INR (S n)) ^ 2)
      with ((2 * m) ^ 2 * (INR r / (INR (S n) * INR (S n))))
      by (field; lra).
    assert (Hq : 0 <= INR r / (INR (S n) * INR (S n)) <= 1).
    { assert (Hnn : 0 < INR (S n) * INR (S n)) by nra.
      split.
      - apply Rmult_le_pos; [lra|]. left. apply Rinv_0_lt_compat. exact Hnn.
      - apply (Rmult_le_reg_r (INR (S n) * INR (S n))); [exact Hnn|].
        unfold Rdiv. rewrite Rmult_assoc, Rinv_l by lra. lra. }
    pose proof (pow2_ge_0 (2 * m)) as Hk.
    split; [apply Rmult_le_pos; lra|].
    rewrite <- (Rmult_1_r ((2 * m) ^ 2)) at 2.
    apply Rmult_le_compat_l; lra.
Qed.

Lemma filter_grid_length (f : R * R -> bool) (a b : R) (n : nat) :
  (length (filter f (PartB.grid (np.linspace a b n) (np.linspace a b n)))
   <= n * n)%nat.
Proof.
  pose proof (filter_length_le f
                (PartB.grid (np.linspace a b n) (np.linspace a b n))) as H.
  rewrite length_grid, !length_linspace in H. exact H.
Qed.

(** X7. The area estimates never exceed the area of the sampled square.
    Whenever [get_workspace] of the 3-link arm has returned for a
    resolution of at least 1, [analyze_workspace_metrics] reports from its
    two arrays an area between 0 and (2 * max_reach)^2; and whenever
    [get_workspace_analysis] of the 4-DOF arm returns, its
    [workspace_area] lies between 0 and (2 * max_reach)^2 and its
    [reachability_ratio] between 0 and 1. *)
Theorem X7_area_estimates_are_bounded
  (minimizeB minimizeC : scipy.Minimize) (elapsed : nat -> R)
  (armB : PartB.RoboticArm) (resolutionB : nat)
  (reach all : list (R * R))
  (armC : PartC.RoboticArm4DOF) (resolutionC : nat)
  (data : PartC.WorkspaceData) (armC' : PartC.RoboticArm4DOF)
  (HresB : (1 <= resolutionB)%nat)
  (HrunB : PartB.get_workspace minimizeB armB resolutionB = Ok (reach, all))
  (HrunC : PartC.get_workspace_analysis minimizeC elapsed armC resolutionC
           = Ok (data, armC')) :
  (exists area : R,
      PartB.workspace_area armB reach all = Ok area
      /\ 0 <= area <= (2 * np.sum (PartB.link_lengths armB)) ^ 2)
  /\ 0 <= PartC.workspace_area data <= (2 * PartC.max_reach data) ^ 2
  /\ 0 <= PartC.reachability_ratio data <= 1.
Proof.
  split.
  - assert (Hlinks : PartB.link_lengths armB <> []).
    { intros E.
      rewrite (get_workspace_no_links minimizeB armB resolutionB E HresB)
        in HrunB.
      discriminate HrunB. }
    destruct (partb_get_workspace_returned minimizeB armB resolutionB reach
                all HrunB) as (_ & _ & Hlen & Hall & _).
    assert (Hne : all <> []).
    { intros E. rewrite E in Hall. cbn [length] in Hall. nia. }
    eexists. split; [apply partb_workspace_area; assumption|].
    rewrite Hall, sqrt_INR_square.
    apply area_estimate_bound. lia.
  - assert (exists m, PartC.grid_max_reach armC = Ok m) as [m Hm].
    { destruct (PartC.grid_max_reach armC) as [m|e] eqn:Hm;
        [exists m; reflexivity|].
      unfold PartC.get_workspace_analysis in HrunC. rewrite Hm in HrunC.
      discriminate HrunC. }
    destruct (Nat.le_gt_cases 10 (resolutionC * resolutionC)) as [Hten|Hlt].
    + destruct (partc_get_workspace_analysis minimizeC elapsed armC
                  resolutionC m Hm Hten) as (armC1 & Hrun & _ & _).
      rewrite Hrun in HrunC.
      pose proof (f_equal
                    (fun r =>
                       match r with
                       | Ok (d, _) => PartC.workspace_area d
                       | Raise _ => 0
                       end) HrunC) as Harea.
      pose proof (f_equal
                    (fun r =>
                       match r with
                       | Ok (d, _) => PartC.max_reach d
                       | Raise _ => 0
                       end) HrunC) as Hmax.
      pose proof (f_equal
                    (fun r =>
                       match r with
                       | Ok (d, _) => PartC.reachability_ratio d
                       | Raise _ => 0
                       end) HrunC) as Hratio.
      cbv beta iota in Harea, Hmax, Hratio.
      cbn [PartC.workspace_area PartC.max_reach PartC.reachability_ratio]
        in Harea, Hmax, Hratio.
      rewrite <- Harea, <- Hmax, <- Hratio.
      assert (Hlen : (length
                        (filter (solver_succeeds minimizeC elapsed armC)
                           (PartB.grid (np.linspace (- m) m resolutionC)
                              (np.linspace (- m) m resolutionC)))
                      <= resolutionC * resolutionC)%nat).
      { apply filter_grid_length. }
      split; [apply area_estimate_bound; exact Hlen|].
      assert (Hpos : 0 < INR (resolutionC * resolutionC))
        by (apply lt_0_INR; lia).
      pose proof (le_INR _ _ Hlen) as Hle.
      pose proof (pos_INR
                    (length
                       (filter (solver_succeeds minimizeC elapsed armC)
                          (PartB.grid (np.linspace (- m) m resolutionC)
                             (np.linspace (- m) m resolutionC))))) as H0.
      split.
      * apply Rmult_le_pos; [exact H0|]. left.
        apply Rinv_0_lt_compat. exact Hpos.
      * apply (Rmult_le_reg_r (INR (resolutionC * resolutionC)));
          [exact Hpos|].
        unfold Rdiv. rewrite Rmult_assoc, Rinv_l by lra. lra.
    + exfalso.
      rewrite (get_workspace_analysis_small_grid minimizeC elapsed armC
                 resolutionC m Hm Hlt) in HrunC.
      discriminate HrunC.
Qed.

Lemma X7_area_estimates_witness :
  exists (data : PartC.WorkspaceData) (armC' : PartC.RoboticArm4DOF),
    ((1 <= 3)%nat
     /\ PartB.get_workspace stay arm_3link 3
        = Ok ([(- (7), 0); (0, - (7)); (0, 7); (7, 0)],
              [(- (7), - (7)); (- (7), 0); (- (7), 7); (0, - (7)); (0, 0);
               (0, 7); (7, - (7)); (7, 0); (7, 7)])
     /\ PartC.get_workspace_analysis reach_out no_clock arm_4dof 5
        = Ok (data, armC'))
    /\ ((exists area : R,
            PartB.workspace_area arm_3link
              [(- (7), 0); (0, - (7)); (0, 7); (7, 0)]
              [(- (7), - (7)); (- (7), 0); (- (7), 7); (0, - (7)); (0, 0);
               (0, 7); (7, - (7)); (7, 0); (7, 7)]
            = Ok area
            /\ 0 <= area <= (2 * np.sum (PartB.link_lengths arm_3link)) ^ 2)
        /\ 0 <= PartC.workspace_area data <= (2 * PartC.max_reach data) ^ 2
        /\ 0 <= PartC.reachability_ratio data <= 1)
    /\ In (13 / 2, 0) (PartC.reachable_points data).
Proof.
  assert (Hten : (10 <= 5 * 5)%nat) by (simpl; lia).
  assert (H1 : (1 <= 3)%nat) by lia.
  destruct (partc_get_workspace_analysis reach_out no_clock arm_4dof 5 _
              arm_4dof_grid_max_reach Hten) as (armC' & HrunC & _ & _).
  eexists. exists armC'. split; [|split].
  - split; [exact H1|].
    split; [exact get_workspace_arm_3link_3_value | exact HrunC].
  - exact (X7_area_estimates_are_bounded stay reach_out no_clock arm_3link 3
             _ _ arm_4dof 5 _ armC' H1 get_workspace_arm_3link_3_value HrunC).
  - cbn [PartC.reachable_points]. apply filter_In.
    split; [exact end_in_grid_5 | exact solver_succeeds_reach_out_end].
Defined.

(** ** Forward kinematics of the 4-DOF arm on other vectors *)

Lemma fk_body_appends (self : PartC.RoboticArm4DOF) (st : PartC.fk_state)
  (it : nat * (PartC.Joint * R)) :
  PartC.joint_positions (PartC.fk_body self st it)
  = PartC.joint_positions st
    ++ [PartC.current_pos (PartC.fk_body self st it)].
Proof.
  unfold PartC.fk_body. destruct it as [i [j v]].
  destruct (String.eqb (PartC.joint_type j) "revolute"); [reflexivity|].
  destruct (String.eqb (PartC.joint_type j) "prismatic"); reflexivity.
Qed.

Lemma partc_loop_positions (self : PartC.RoboticArm4DOF) (d : R * R) :
  forall (items : list (nat * (PartC.Joint * R))) (st : PartC.fk_state)
         (q : R * R) (jp : list (R * R)),
    PartC.joint_positions st = q :: jp ->
    List.last (PartC.joint_positions st) d = PartC.current_pos st ->
    let st' := fold_left (PartC.fk_body self) items st in
    length (PartC.joint_positions st')
    = (length (PartC.joint_positions st) + length items)%nat
    /\ hd_error (PartC.joint_positions st') = Some q
    /\ List.last (PartC.joint_positions st') d = PartC.current_pos st'.
Proof.
  induction items as [|it items IH]; intros st q jp Hjp Hlast; cbn zeta.
  - cbn [fold_left length]. split; [lia|].
    split; [rewrite Hjp; reflexivity | exact Hlast].
  - cbn [fold_left length].
    pose proof (fk_body_appends self st it) as Happ.
    destruct (IH (PartC.fk_body self st it) q
                (jp ++ [PartC.current_pos (PartC.fk_body self st it)]))
      as (H1 & H2 & H3).
    + rewrite Happ, Hjp. reflexivity.
    + rewrite Happ. apply last_last.
    + cbn zeta in H1, H2, H3. split; [|split; assumption].
      rewrite H1, Happ, length_app. simpl. lia.
Qed.

(** X8. [forward_kinematics] of the 4-DOF arm never fails and silently
    stops at the shorter of the joint list and the value vector: it
    returns one position more than the number of joints that got a value,
    the first one being the base, and the end effector is the last of
    them; the call adds one to [fk_calculations] and one duration to
    [calculation_times]. *)
Theorem X8_forward_kinematics_4dof_truncates
  (elapsed : nat -> R) (self : PartC.RoboticArm4DOF) (values : list R) :
  let '((end_pos, positions), self') :=
    PartC.forward_kinematics elapsed self (Some values) in
  length positions
  = (Nat.min (length (PartC.joints self)) (length values) + 1)%nat
  /\ hd_error positions = Some (PartC.base_position self)
  /\ List.last positions (PartC.base_position self) = end_pos
  /\ PartC.fk_calculations self' = (PartC.fk_calculations self + 1)%nat
  /\ length (PartC.calculation_times self')
     = (length (PartC.calculation_times self) + 1)%nat.
Proof.
  unfold PartC.forward_kinematics, PartC.fk_positions.
  set (items := combine (seq 0 (length (py.zip (PartC.joints self) values)))
                  (py.zip (PartC.joints self) values)).
  set (st0 := {| PartC.current_pos := PartC.base_position self;
                 PartC.current_angle := 0;
                 PartC.joint_positions := [PartC.base_position self] |}).
  destruct (partc_loop_positions self (PartC.base_position self) items st0
              (PartC.base_position self) [] eq_refl eq_refl)
    as (H1 & H2 & H3).
  cbn zeta in H1, H2, H3.
  assert (Hitems : length items
                   = Nat.min (length (PartC.joints self)) (length values)).
  { unfold items, py.zip.
    rewrite length_combine, length_seq, length_combine. lia. }
  split; [|split; [|split; [|split]]].
  - rewrite H1, Hitems. cbn. lia.
  - exact H2.
  - exact H3.
  - cbn. reflexivity.
  - cbn [PartC.count_fk PartC.calculation_times]. rewrite length_app.
    simpl. lia.
Qed.

(** ** The performance counters of the 4-DOF arm *)

(** One duration is recorded for each counted call. *)
Definition timed (self : PartC.RoboticArm4DOF) : Prop :=
  length (PartC.calculation_times self)
  = (PartC.fk_calculations self + PartC.ik_calculations self)%nat.

Lemma timed_count_fk (elapsed : nat -> R) (self : PartC.RoboticArm4DOF) :
  timed self -> timed (PartC.count_fk elapsed self).
Proof.
  unfold timed. cbn [PartC.count_fk PartC.calculation_times
    PartC.fk_calculations PartC.ik_calculations].
  rewrite length_app. simpl. lia.
Qed.

Lemma timed_count_ik (elapsed : nat -> R) (self : PartC.RoboticArm4DOF) :
  timed self -> timed (PartC.count_ik elapsed self).
Proof.
  unfold timed. cbn [PartC.count_ik PartC.calculation_times
    PartC.fk_calculations PartC.ik_calculations].
  rewrite length_app. simpl. lia.
Qed.

Lemma partc_run_timed (elapsed : nat -> R) (target : R * R)
  (self0 : PartC.RoboticArm4DOF) (o : scipy.Optimizer) :
  forall (self : PartC.RoboticArm4DOF) (res : scipy.OptimizeResult)
         (self' : PartC.RoboticArm4DOF),
    scipy.run (PartC.objective_function elapsed target)
      (PartC.constraint_function self0) o self = Ok (res, self') ->
    timed self -> timed self'.
Proof.
  induction o as [r | v k IH | v k IH]; intros self res self' Hrun Ht.
  - cbn [scipy.run] in Hrun. injection Hrun as _ <-. exact Ht.
  - cbn [scipy.run] in Hrun. rewrite objective_function_value in Hrun.
    eapply IH; [exact Hrun|]. apply timed_count_fk. exact Ht.
  - cbn [scipy.run] in Hrun. unfold PartC.constraint_function at 1 in Hrun.
    eapply IH; [exact Hrun | exact Ht].
Qed.

Lemma partc_inverse_kinematics_timed (minimize : scipy.Minimize)
  (elapsed : nat -> R) (self : PartC.RoboticArm4DOF) (target : R * R)
  (guess : option (list R)) (r : bool * list R)
  (self' : PartC.RoboticArm4DOF) :
  PartC.inverse_kinematics minimize elapsed self target guess
  = Ok (r, self') ->
  timed self -> timed self'.
Proof.
  intros Hik Ht.
  destruct (partc_inverse_kinematics_run minimize elapsed self target guess)
    as (res & self1 & Hrun & _ & _ & Hik').
  rewrite Hik' in Hik. injection Hik as _ <-.
  apply timed_count_ik. eapply partc_run_timed; eassumption.
Qed.

Lemma partc_workspace_loop_timed (minimize : scipy.Minimize)
  (elapsed : nat -> R) (resolution total_points : nat) :
  forall (items : list ((nat * R) * (nat * R))) (acc acc' : list (R * R))
         (self self' : PartC.RoboticArm4DOF),
    py.for_ items
      (PartC.workspace_body minimize elapsed resolution total_points)
      (acc, self) = Ok (acc', self') ->
    timed self -> timed self'.
Proof.
  induction items as [|[[i x] [j y]] items IH];
    intros acc acc' self self' Hloop Ht.
  - cbn [py.for_] in Hloop. injection Hloop as _ <-. exact Ht.
  - cbn [py.for_] in Hloop. unfold PartC.workspace_body at 1 in Hloop.
    destruct (PartC.inverse_kinematics minimize elapsed self (x, y) None)
      as [[[success js] self1]|e] eqn:Hik; [|discriminate Hloop].
    cbn [bind] in Hloop.
    destruct (total_points / 10 =? 0)%nat; [discriminate Hloop|].
    cbn [bind] in Hloop.
    eapply IH; [exact Hloop|].
    eapply partc_inverse_kinematics_timed; eassumption.
Qed.

(** X9. The 4-DOF arm keeps one recorded duration for each counted call:
    [len(calculation_times) = fk_calculations + ik_calculations] holds for
    every arm the constructor builds and is kept by [forward_kinematics],
    [inverse_kinematics], [set_joint_configuration] and
    [get_workspace_analysis]. *)
Theorem X9_one_duration_for_each_counted_call
  (minimize : scipy.Minimize) (elapsed : nat -> R)
  (arm : PartC.RoboticArm4DOF) (values : list R) (target : R * R)
  (guess : option (list R)) (resolution : nat)
  (Htimed : timed arm) :
  timed (snd (PartC.forward_kinematics elapsed arm (Some values)))
  /\ (forall (r : bool * list R) (arm' : PartC.RoboticArm4DOF),
         PartC.inverse_kinematics minimize elapsed arm target guess
         = Ok (r, arm') ->
         timed arm')
  /\ timed (snd (PartC.set_joint_configuration arm values))
  /\ (forall (data : PartC.WorkspaceData) (arm' : PartC.RoboticArm4DOF),
         PartC.get_workspace_analysis minimize elapsed arm resolution
         = Ok (data, arm') ->
         timed arm')
  /\ (forall (bl : list R) (jt : list string) (jl : list (R * R))
             (built : PartC.RoboticArm4DOF),
         PartC.__init__ bl jt jl = Ok built -> timed built).
Proof.
  split; [|split; [|split; [|split]]].
  - unfold PartC.forward_kinematics. cbn [snd].
    apply timed_count_fk. exact Htimed.
  - intros r arm' Hik.
    eapply partc_inverse_kinematics_timed; eassumption.
  - unfold PartC.set_joint_configuration.
    destruct (PartC.set_values (PartC.joints arm) values) as [js valid].
    exact Htimed.
  - intros data arm' Hrun. unfold PartC.get_workspace_analysis in Hrun.
    destruct (PartC.grid_max_reach arm) as [m|e]; [|discriminate Hrun].
    cbn [bind] in Hrun.
    destruct (py.for_ _ _ _) as [[reach arm1]|e] eqn:Hloop;
      [|discriminate Hrun].
    cbn [bind] in Hrun.
    destruct (resolution * resolution =? 0)%nat; [discriminate Hrun|].
    injection Hrun as _ <-.
    eapply partc_workspace_loop_timed; eassumption.
  - intros bl jt jl built Hinit.
    destruct (partc_init_ok bl jt jl built Hinit)
      as (t0 & t1 & t2 & t3 & jt' & l0 & l1 & l2 & l3 & jl' & _ & _ & ->).
    reflexivity.
Qed.

Lemma X9_one_duration_witness :
  timed arm_4dof
  /\ (timed (snd (PartC.forward_kinematics no_clock arm_4dof
                    (Some [0; 0; 0; 0])))
      /\ (forall (r : bool * list R) (arm' : PartC.RoboticArm4DOF),
             PartC.inverse_kinematics stay no_clock arm_4dof (3, 2) None
             = Ok (r, arm') ->
             timed arm')
      /\ timed (snd (PartC.set_joint_configuration arm_4dof [0; 0; 0; 0]))
      /\ (forall (data : PartC.WorkspaceData) (arm' : PartC.RoboticArm4DOF),
             PartC.get_workspace_analysis stay no_clock arm_4dof 4
             = Ok (data, arm') ->
             timed arm')
      /\ (forall (bl : list R) (jt : list string) (jl : list (R * R))
                 (built : PartC.RoboticArm4DOF),
             PartC.__init__ bl jt jl = Ok built -> timed built)).
Proof.
  split; [reflexivity|].
  exact (X9_one_duration_for_each_counted_call stay no_clock arm_4dof
           [0; 0; 0; 0] (3, 2) None 4 eq_refl).
Defined.

(** ** The setters followed by forward kinematics *)

Lemma set_values_types (js : list PartC.Joint) (vs : list R) :
  map PartC.joint_type (fst (PartC.set_values js vs))
  = map PartC.joint_type js.
Proof.
  revert vs; induction js as [|j js IH]; intros vs; [reflexivity|].
  destruct vs as [|v vs]; [reflexivity|].
  cbn [PartC.set_values]. specialize (IH vs). unfold PartC.set_value.
  destruct (py.le (PartC.min_limit j) v && py.le v (PartC.max_limit j));
    destruct (PartC.set_values js vs) as [rest valid];
    cbn [fst map PartC.joint_type] in *; rewrite IH; reflexivity.
Qed.

Lemma partc_loop_same_types (a b : PartC.RoboticArm4DOF) :
  PartC.base_links a = PartC.base_links b ->
  forall (ja jb : list PartC.Joint) (vs : list R) (i : nat)
         (st : PartC.fk_state),
    map PartC.joint_type ja = map PartC.joint_type jb ->
    fold_left (PartC.fk_body a)
      (combine (seq i (length (py.zip ja vs))) (py.zip ja vs)) st
    = fold_left (PartC.fk_body b)
        (combine (seq i (length (py.zip jb vs))) (py.zip jb vs)) st.
Proof.
  intros Hbl. induction ja as [|j ja IH]; intros jb vs i st Hty.
  - destruct jb; [reflexivity | discriminate Hty].
  - destruct jb as [|j' jb]; [discriminate Hty|].
    cbn [map] in Hty. injection Hty as Hj Hrest.
    destruct vs as [|v vs]; [reflexivity|].
    cbn [py.zip combine length seq fold_left].
    specialize (IH jb vs (S i)). unfold py.zip in IH.
    replace (PartC.fk_body b st (i, (j', v)))
      with (PartC.fk_body a st (i, (j, v))).
    + apply IH. exact Hrest.
    + unfold PartC.fk_body. rewrite Hbl, Hj. reflexivity.
Qed.

(** X10. A setter followed by [forward_kinematics()] without argument
    gives the positions of the vector that was set: on the 4-DOF arm those
    of the supplied values when [set_joint_configuration] accepted them
    and those of the previous joint values when it refused, and on the
    3-link arm those of the angles given to [set_joint_angles], which is
    also what [get_joint_positions] returns. *)
Theorem X10_setter_then_forward_kinematics
  (elapsed : nat -> R) (arm : PartC.RoboticArm4DOF) (values : list R)
  (armB : PartB.RoboticArm) (angles : list R) :
  fst (PartC.forward_kinematics elapsed
         (snd (PartC.set_joint_configuration arm values)) None)
  = PartC.fk_positions arm
      (if fst (PartC.set_joint_configuration arm values)
       then values
       else PartC.joint_values arm)
  /\ PartB.forward_kinematics (PartB.set_joint_angles armB angles) None
     = PartB.forward_kinematics armB (Some angles)
  /\ PartB.get_joint_positions (PartB.set_joint_angles armB angles)
     = match PartB.forward_kinematics armB (Some angles) with
       | Ok (_, positions) => Ok positions
       | Raise e => Raise e
       end.
Proof.
  split; [|split].
  - unfold PartC.forward_kinematics. cbn [fst].
    rewrite set_joint_configuration_values.
    generalize (if fst (PartC.set_joint_configuration arm values)
                then values else PartC.joint_values arm) as v.
    intros v. unfold PartC.fk_positions, PartC.set_joint_configuration.
    pose proof (set_values_types (PartC.joints arm) values) as Hty.
    destruct (PartC.set_values (PartC.joints arm) values) as [js valid].
    cbn [snd fst PartC.joints PartC.base_position] in *.
    set (arm' := {| PartC.base_links := PartC.base_links arm;
                    PartC.joints := js |}).
    rewrite (partc_loop_same_types arm' arm eq_refl js (PartC.joints arm) v
               0 _ Hty).
    reflexivity.
  - reflexivity.
  - unfold PartB.get_joint_positions.
    change (PartB.forward_kinematics (PartB.set_joint_angles armB angles)
              None)
      with (PartB.forward_kinematics armB (Some angles)).
    destruct (PartB.forward_kinematics armB (Some angles)) as [[e ps]|err];
      reflexivity.
Qed.

(** ** The pick-and-place planner: interpolation *)

(** The frame [interpolate_path] computes at the parameter [t], for two
    arrays of one shape. *)
Definition blend (t : R) (s e : list R) : list R :=
  ndarray.map2 (fun a b => a + t * (b - a)) s e.

Lemma map2_length (f : R -> R -> R) :
  forall a b : list R,
    length (ndarray.map2 f a b) = Nat.min (length a) (length b).
Proof.
  induction a as [|x a IH]; intros [|y b]; cbn [ndarray.map2 length Nat.min];
    try reflexivity.
  rewrite IH. reflexivity.
Qed.

Lemma elementwise_same (f : R -> R -> R) (a b : list R) :
  length a = length b ->
  ndarray.elementwise f a b = Ok (ndarray.map2 f a b).
Proof.
  intros H. unfold ndarray.elementwise. rewrite H, Nat.eqb_refl. reflexivity.
Qed.

Lemma elementwise_mismatch (f : R -> R -> R) (a b : list R) :
  length a <> length b -> length a <> 1%nat -> length b <> 1%nat ->
  ndarray.elementwise f a b = Raise ValueError.
Proof.
  intros Hab Ha Hb. unfold ndarray.elementwise.
  destruct (Nat.eqb_spec (length a) (length b)) as [E|_]; [contradiction|].
  destruct a as [|x [|x' a]]; destruct b as [|y [|y' b]];
    cbn [length] in *; try reflexivity; exfalso; auto.
Qed.

Lemma blend_step (t : R) :
  forall s e : list R,
    ndarray.map2 Rplus s (ndarray.scale t (ndarray.map2 Rminus e s))
    = blend t s e.
Proof.
  unfold blend, ndarray.scale.
  induction s as [|a s IH]; intros [|b e]; cbn [ndarray.map2 map];
    try reflexivity.
  rewrite IH. reflexivity.
Qed.

Lemma blend_length (t : R) (s e : list R) :
  length s = length e -> length (blend t s e) = length s.
Proof.
  intros H. unfold blend. rewrite map2_length, <- H. apply Nat.min_id.
Qed.

Lemma blend_nth (t : R) :
  forall (s e : list R) (j : nat),
    length s = length e -> (j < length s)%nat ->
    nth j (blend t s e) 0 = nth j s 0 + t * (nth j e 0 - nth j s 0).
Proof.
  unfold blend.
  induction s as [|a s IH]; intros [|b e] j Hlen Hj; cbn [length] in *;
    try lia.
  destruct j as [|j]; cbn [ndarray.map2 nth]; [reflexivity|].
  apply IH; lia.
Qed.

Lemma blend_0 :
  forall s e : list R, length s = length e -> blend 0 s e = s.
Proof.
  unfold blend.
  induction s as [|a s IH]; intros [|b e] Hlen; cbn [length] in *;
    try discriminate Hlen; [reflexivity|].
  cbn [ndarray.map2]. rewrite IH by lia. f_equal. ring.
Qed.

Lemma blend_1 :
  forall s e : list R, length s = length e -> blend 1 s e = e.
Proof.
  unfold blend.
  induction s as [|a s IH]; intros [|b e] Hlen; cbn [length] in *;
    try discriminate Hlen; [reflexivity|].
  cbn [ndarray.map2]. rewrite IH by lia. f_equal. ring.
Qed.

(** The loop of [interpolate_path] on two arrays of one shape. *)
Lemma interpolate_loop (s e : list R) (steps : nat) :
  (2 <= steps)%nat -> length s = length e ->
  forall (l : list nat) (path : list (list R)),
    py.for_ l
      (fun path i =>
         t <- (if (steps - 1 =? 0)%nat then Raise ZeroDivisionError
               else Ok (INR i / INR (steps - 1))) ;;
         difference <- ndarray.sub e s ;;
         interpolated <- ndarray.add s (ndarray.scale t difference) ;;
         Ok (path ++ [interpolated]))
      path
    = Ok (path ++ map (fun i => blend (INR i / INR (steps - 1)) s e) l).
Proof.
  intros Hsteps Hlen.
  match goal with
  | |- forall l path, py.for_ l ?b path = _ => set (body := b)
  end.
  assert (Hbody : forall path i,
             body path i
             = Ok (path ++ [blend (INR i / INR (steps - 1)) s e])).
  { intros path i. unfold body.
    destruct (Nat.eqb_spec (steps - 1) 0) as [E|_]; [lia|].
    cbn [bind]. unfold ndarray.sub, ndarray.add.
    rewrite (elementwise_same Rminus e s) by (symmetry; exact Hlen).
    cbn [bind].
    rewrite elementwise_same.
    2:{ unfold ndarray.scale. rewrite length_map, map2_length, <- Hlen.
        rewrite Nat.min_id. reflexivity. }
    cbn [bind]. rewrite blend_step. reflexivity. }
  induction l as [|i l IH]; intros path.
  - cbn [py.for_ map]. rewrite app_nil_r. reflexivity.
  - cbn [py.for_ map]. rewrite Hbody. cbn [bind].
    rewrite IH, <- app_assoc. reflexivity.
Qed.

Lemma interpolate_path_value (s e : list R) (steps : nat) :
  (2 <= steps)%nat -> length s = length e ->
  PickAndPlace.interpolate_path s e steps
  = Ok (map (fun i => blend (INR i / INR (steps - 1)) s e) (seq 0 steps)).
Proof.
  intros Hsteps Hlen. unfold PickAndPlace.interpolate_path.
  rewrite (interpolate_loop s e steps Hsteps Hlen). reflexivity.
Qed.


(** What [interpolate_path] returns on two arrays of one shape. *)
Lemma interpolate_path_frames (s e : list R) (steps : nat) :
  (2 <= steps)%nat -> length s = length e ->
  exists path : list (list R),
    PickAndPlace.interpolate_path s e steps = Ok path
    /\ length path = steps
    /\ Forall (fun frame => length frame = length s) path
    /\ nth 0 path [] = s
    /\ last path [] = e.
Proof.
  intros Hsteps Hlen.
  exists (map (fun i => blend (INR i / INR (steps - 1)) s e) (seq 0 steps)).
  split; [apply interpolate_path_value; assumption|].
  split; [rewrite length_map, length_seq; reflexivity|].
  split.
  { apply Forall_forall. intros frame Hin. apply in_map_iff in Hin.
    destruct Hin as (i & <- & _). apply blend_length. exact Hlen. }
  destruct steps as [|m]; [lia|].
  replace (S m - 1)%nat with m by lia.
  split.
  - cbn [seq map nth]. unfold Rdiv. rewrite Rmult_0_l.
    apply blend_0. exact Hlen.
  - rewrite seq_S, map_app. cbn [map Nat.add]. rewrite last_last.
    unfold Rdiv. rewrite Rinv_r.
    + apply blend_1. exact Hlen.
    + apply not_0_INR. lia.
Qed.

Lemma blend_same (t : R) (s : list R) : blend t s s = s.
Proof.
  unfold blend. induction s as [|a s IH]; [reflexivity|].
  cbn [ndarray.map2]. rewrite IH. f_equal. ring.
Qed.

(** X11. On two arrays of one shape and for at least two steps,
    [interpolate_path] returns [steps] frames of that shape; the first
    frame is the start array; the component [j] of the frame [i] is
    [start[j] + i / (steps - 1) * (end[j] - start[j])]; and when the two
    arrays are equal every frame is that array. *)
Theorem X11_interpolate_path_computes_each_frame
  (s e : list R) (steps : nat) :
  (2 <= steps)%nat -> length s = length e ->
  exists path : list (list R),
    PickAndPlace.interpolate_path s e steps = Ok path
    /\ length path = steps
    /\ nth 0 path [] = s
    /\ (forall i : nat, (i < steps)%nat ->
          length (nth i path []) = length s
          /\ forall j : nat, (j < length s)%nat ->
               nth j (nth i path []) 0
               = nth j s 0
                 + INR i / INR (steps - 1) * (nth j e 0 - nth j s 0))
    /\ (s = e -> forall i : nat, (i < steps)%nat -> nth i path [] = s).
Proof.
  intros Hsteps Hlen.
  destruct (interpolate_path_frames s e steps Hsteps Hlen)
    as (path & Hpath & Hn & _ & Hfirst & _).
  exists path. split; [exact Hpath|]. split; [exact Hn|].
  split; [exact Hfirst|].
  rewrite (interpolate_path_value s e steps Hsteps Hlen) in Hpath.
  injection Hpath as <-.
  assert (Hnth : forall i, (i < steps)%nat ->
            nth i (map (fun i => blend (INR i / INR (steps - 1)) s e)
                     (seq 0 steps)) []
            = blend (INR i / INR (steps - 1)) s e).
  { intros i Hi.
    rewrite (nth_indep _ [] (blend (INR 0 / INR (steps - 1)) s e))
      by (rewrite length_map, length_seq; exact Hi).
    rewrite (map_nth (fun i => blend (INR i / INR (steps - 1)) s e)).
    rewrite seq_nth by exact Hi. reflexivity. }
  split.
  - intros i Hi. rewrite (Hnth i Hi).
    split; [apply blend_length; exact Hlen|].
    intros j Hj. apply blend_nth; assumption.
  - intros <- i Hi. rewrite (Hnth i Hi). apply blend_same.
Qed.

Lemma X11_interpolate_path_witness :
  ((2 <= 50)%nat /\ length [0; 0] = length [1; 2])
  /\ exists path : list (list R),
       PickAndPlace.interpolate_path [0; 0] [1; 2] 50 = Ok path
       /\ length path = 50%nat
       /\ nth 0 path [] = [0; 0]
       /\ (forall i : nat, (i < 50)%nat ->
             length (nth i path []) = length [0; 0]
             /\ forall j : nat, (j < length [0; 0])%nat ->
                  nth j (nth i path []) 0
                  = nth j [0; 0] 0
                    + INR i / INR (50 - 1)
                      * (nth j [1; 2] 0 - nth j [0; 0] 0))
       /\ ([0; 0] = [1; 2] ->
           forall i : nat, (i < 50)%nat -> nth i path [] = [0; 0]).
Proof.
  assert (H1 : (2 <= 50)%nat) by lia.
  assert (H2 : length [0; 0] = length [1; 2]) by reflexivity.
  split; [split; assumption|].
  exact (X11_interpolate_path_computes_each_frame [0; 0] [1; 2] 50 H1 H2).
Defined.

(** X12. The edge and error behaviour of [interpolate_path]: with
    [steps = 0] it returns the empty path whatever the two arrays are; with
    [steps = 1] it raises [ZeroDivisionError], from [i / (steps - 1)]; and
    with at least two steps it raises [ValueError] on two arrays of
    different lengths neither of which is 1 (numpy cannot broadcast
    them). *)
Theorem X12_interpolate_path_edge_cases (s e : list R) (steps : nat) :
  PickAndPlace.interpolate_path s e 0 = Ok []
  /\ PickAndPlace.interpolate_path s e 1 = Raise ZeroDivisionError
  /\ ((2 <= steps)%nat ->
      length s <> length e -> length s <> 1%nat -> length e <> 1%nat ->
      PickAndPlace.interpolate_path s e steps = Raise ValueError).
Proof.
  split; [reflexivity|]. split; [reflexivity|].
  intros Hsteps Hne Hs He. unfold PickAndPlace.interpolate_path.
  destruct steps as [|m]; [lia|]. cbn [seq py.for_].
  destruct (Nat.eqb_spec (S m - 1) 0) as [E|_]; [lia|].
  cbn [bind]. unfold ndarray.sub.
  rewrite elementwise_mismatch by auto. reflexivity.
Qed.

Lemma X12_interpolate_path_edge_witness :
  ((2 <= 50)%nat /\ length [0; 0] <> length [1; 2; 3]
   /\ length [0; 0] <> 1%nat /\ length [1; 2; 3] <> 1%nat)
  /\ PickAndPlace.interpolate_path [0; 0] [1; 2; 3] 50 = Raise ValueError.
Proof.
  assert (H1 : (2 <= 50)%nat) by lia.
  assert (H2 : length [0; 0] <> length [1; 2; 3]) by (simpl; lia).
  assert (H3 : length [0; 0] <> 1%nat) by (simpl; lia).
  assert (H4 : length [1; 2; 3] <> 1%nat) by (simpl; lia).
  split; [repeat split; assumption|].
  exact (proj2 (proj2 (X12_interpolate_path_edge_cases [0; 0] [1; 2; 3] 50))
           H1 H2 H3 H4).
Defined.

(** ** The pick-and-place planner: the plan *)

(** An optimizer whose result has [n] components. *)
Inductive answers (n : nat) : scipy.Optimizer -> Prop :=
| answers_return (r : scipy.OptimizeResult) :
    length (scipy.x r) = n -> answers n (scipy.Return r)
| answers_objective (v : list R) (k : R -> scipy.Optimizer) :
    (forall f, answers n (k f)) -> answers n (scipy.CallObjective v k)
| answers_constraint (v : list R) (k : list R -> scipy.Optimizer) :
    (forall c, answers n (k c)) -> answers n (scipy.CallConstraint v k).

(** The result of [minimize] has the shape of [x0]. *)
Definition answers_in_shape (minimize : scipy.Minimize) : Prop :=
  forall (x0 : list R) (options : option scipy.Options),
    answers (length x0) (minimize x0 options).

(** The objects of the plan, with their index in [self.objects]: the ones
    the arm goes to, the ones it also carries to their target, and where
    an object is after the plan. *)
Definition picked (minimize : scipy.Minimize)
  (self : PickAndPlace.PickAndPlaceSimulation) (item : nat * (R * R)) : bool :=
  (fst item <? length (PickAndPlace.target_locations self))%nat
  && solver_finds minimize (PickAndPlace.robot self) (snd item).

Definition placed (minimize : scipy.Minimize)
  (self : PickAndPlace.PickAndPlaceSimulation) (item : nat * (R * R)) : bool :=
  picked minimize self item
  && solver_finds minimize (PickAndPlace.robot self)
       (nth (fst item) (PickAndPlace.target_locations self) (0, 0)).

Definition after_plan (minimize : scipy.Minimize)
  (self : PickAndPlace.PickAndPlaceSimulation) (item : nat * (R * R))
  : R * R :=
  if placed minimize self item
  then nth (fst item) (PickAndPlace.target_locations self) (0, 0)
  else snd item.

(** A simulation of the sample 3-link arm with two objects and one
    target. *)
Definition sample_simulation : PickAndPlace.PickAndPlaceSimulation :=
  {| PickAndPlace.robot := arm_3link;
     PickAndPlace.objects := [(2, 1); (1, 2)];
     PickAndPlace.target_locations := [(3, 0)];
     PickAndPlace.animation_data := [] |}.

Lemma run_answers {S : Type}
  (objective : list R -> S -> result (R * S))
  (constraint : list R -> result (list R)) (n : nat) (o : scipy.Optimizer) :
  answers n o ->
  forall (s : S) (res : scipy.OptimizeResult) (s' : S),
    scipy.run objective constraint o s = Ok (res, s') ->
    length (scipy.x res) = n.
Proof.
  induction 1 as [r Hr | v k Hk IH | v k Hk IH]; intros s res s' Hrun.
  - cbn [scipy.run] in Hrun. injection Hrun as <- _. exact Hr.
  - cbn [scipy.run] in Hrun.
    destruct (objective v s) as [[f s1]|err]; [|discriminate Hrun].
    exact (IH f s1 res s' Hrun).
  - cbn [scipy.run] in Hrun.
    destruct (constraint v) as [c|err]; [|discriminate Hrun].
    exact (IH c s res s' Hrun).
Qed.

Lemma answers_in_shape_stay : answers_in_shape stay.
Proof.
  intros x0 options. unfold stay.
  apply answers_objective. intros f. apply answers_return. reflexivity.
Qed.

Lemma partb_inverse_kinematics_length (minimize : scipy.Minimize)
  (self : PartB.RoboticArm) (tx ty : R) (angles : list R) :
  answers_in_shape minimize ->
  PartB.inverse_kinematics minimize self tx ty None = Ok (Some angles) ->
  length angles = length (PartB.joint_angles self).
Proof.
  intros Hans H.
  unfold PartB.inverse_kinematics, PartB.inverse_kinematics_run in H.
  destruct (scipy.run _ _ _ self) as [[res self']|err] eqn:Hrun;
    cbn [bind] in H; [|discriminate H].
  apply (run_answers _ _ _ _ (Hans (PartB.joint_angles self) None)) in Hrun.
  destruct (scipy.success res); cbn [bind] in H; [|discriminate H].
  injection H as <-. exact Hrun.
Qed.

Lemma last_app_nonempty {A : Type} (d : A) :
  forall l1 l2 : list A, l2 <> [] -> last (l1 ++ l2) d = last l2 d.
Proof.
  induction l1 as [|a l1 IH]; intros l2 Hne; [reflexivity|].
  cbn [app]. specialize (IH l2 Hne).
  destruct (l1 ++ l2) as [|b l] eqn:E.
  - destruct l1; [cbn [app] in E; contradiction | discriminate E].
  - cbn [last]. cbn [last] in IH. exact IH.
Qed.

(** One turn of the loop of [plan_pick_and_place]. *)
Lemma plan_body_step (minimize : scipy.Minimize)
  (self : PickAndPlace.PickAndPlaceSimulation) :
  keeps_shape minimize -> answers_in_shape minimize ->
  well_formed (PickAndPlace.robot self) ->
  forall (item : nat * (R * R)) (sequence : list (list R))
         (current : list R) (visited : list (R * R)),
    length current = PartB.num_joints (PickAndPlace.robot self) ->
    exists (frames : list (list R)) (current' : list R),
      PickAndPlace.plan_body minimize self (sequence, current, visited) item
      = Ok (sequence ++ frames, current',
            visited ++ [after_plan minimize self item])
      /\ length current' = PartB.num_joints (PickAndPlace.robot self)
      /\ Forall
           (fun frame =>
              length frame = PartB.num_joints (PickAndPlace.robot self))
           frames
      /\ length frames
         = ((if picked minimize self item then 60 else 0)
            + (if placed minimize self item then 60 else 0))%nat.
Proof.
  intros Hshape Hans Hwf [i obj] sequence current visited Hcur.
  pose proof Hwf as (_ & Hn & _ & Hangles).
  unfold PickAndPlace.plan_body, after_plan, placed, picked. cbn [fst snd].
  destruct (Nat.ltb_spec i (length (PickAndPlace.target_locations self)))
    as [Hi|Hi].
  2:{ exists [], current. rewrite app_nil_r. cbn [andb].
      repeat split; auto. }
  unfold py.getitem.
  destruct (nth_error (PickAndPlace.target_locations self) i)
    as [target|] eqn:Ht; [|apply nth_error_None in Ht; lia].
  rewrite (nth_error_nth _ _ (0, 0) Ht). cbn [bind andb].
  destruct (partb_inverse_kinematics_ok minimize (PickAndPlace.robot self)
              (fst obj) (snd obj) Hshape Hwf) as [r Hr].
  assert (Hsf : solver_finds minimize (PickAndPlace.robot self) obj
                = match r with Some _ => true | None => false end).
  { unfold solver_finds. rewrite Hr. reflexivity. }
  rewrite Hsf, Hr. cbn [bind].
  destruct r as [pick|].
  2:{ exists [], current. rewrite app_nil_r. cbn [andb].
      repeat split; auto. }
  assert (Hpick : length pick = PartB.num_joints (PickAndPlace.robot self)).
  { rewrite (partb_inverse_kinematics_length _ _ _ _ _ Hans Hr). lia. }
  destruct (interpolate_path_frames current pick 50)
    as (path & Hpath & Hlen & Hall & _); [lia | congruence |].
  rewrite Hpath. cbn [bind andb].
  destruct (partb_inverse_kinematics_ok minimize (PickAndPlace.robot self)
              (fst target) (snd target) Hshape Hwf) as [r2 Hr2].
  assert (Hsf2 : solver_finds minimize (PickAndPlace.robot self) target
                 = match r2 with Some _ => true | None => false end).
  { unfold solver_finds. rewrite Hr2. reflexivity. }
  rewrite Hsf2, Hr2. cbn [bind].
  destruct r2 as [place|].
  - assert (Hplace :
              length place = PartB.num_joints (PickAndPlace.robot self)).
    { rewrite (partb_inverse_kinematics_length _ _ _ _ _ Hans Hr2). lia. }
    destruct (interpolate_path_frames pick place 50)
      as (path2 & Hpath2 & Hlen2 & Hall2 & _); [lia | congruence |].
    rewrite Hpath2. cbn [bind].
    exists (path ++ repeat pick 10 ++ path2 ++ repeat place 10), place.
    split; [rewrite <- !app_assoc; reflexivity|].
    split; [exact Hplace|].
    split.
    + rewrite !Forall_app. repeat split.
      * rewrite <- Hcur. exact Hall.
      * apply Forall_forall. intros f Hf. apply repeat_spec in Hf.
        subst f. exact Hpick.
      * rewrite <- Hpick. exact Hall2.
      * apply Forall_forall. intros f Hf. apply repeat_spec in Hf.
        subst f. exact Hplace.
    + rewrite !length_app, !repeat_length, Hlen, Hlen2. reflexivity.
  - exists (path ++ repeat pick 10), pick.
    split; [rewrite <- !app_assoc; reflexivity|].
    split; [exact Hpick|].
    split.
    + rewrite !Forall_app. split.
      * rewrite <- Hcur. exact Hall.
      * apply Forall_forall. intros f Hf. apply repeat_spec in Hf.
        subst f. exact Hpick.
    + rewrite !length_app, !repeat_length, Hlen. reflexivity.
Qed.

(** The loop of [plan_pick_and_place] over the enumerated objects. *)
Lemma plan_loop (minimize : scipy.Minimize)
  (self : PickAndPlace.PickAndPlaceSimulation) :
  keeps_shape minimize -> answers_in_shape minimize ->
  well_formed (PickAndPlace.robot self) ->
  forall (items : list (nat * (R * R))) (sequence : list (list R))
         (current : list R) (visited : list (R * R)),
    length current = PartB.num_joints (PickAndPlace.robot self) ->
    exists (frames : list (list R)) (current' : list R),
      py.for_ items (PickAndPlace.plan_body minimize self)
        (sequence, current, visited)
      = Ok (sequence ++ frames, current',
            visited ++ map (after_plan minimize self) items)
      /\ length current' = PartB.num_joints (PickAndPlace.robot self)
      /\ Forall
           (fun frame =>
              length frame = PartB.num_joints (PickAndPlace.robot self))
           frames
      /\ length frames
         = (60 * length (filter (picked minimize self) items)
            + 60 * length (filter (placed minimize self) items))%nat.
Proof.
  intros Hshape Hans Hwf.
  induction items as [|item items IH]; intros sequence current visited Hcur.
  - exists [], current. cbn [py.for_ map filter length].
    rewrite !app_nil_r. repeat split; auto.
  - destruct (plan_body_step minimize self Hshape Hans Hwf item sequence
                current visited Hcur)
      as (f1 & c1 & Hstep & Hc1 & Hall1 & Hlen1).
    destruct (IH (sequence ++ f1) c1
                (visited ++ [after_plan minimize self item]) Hc1)
      as (f2 & c2 & Hrest & Hc2 & Hall2 & Hlen2).
    exists (f1 ++ f2), c2.
    split.
    { cbn [py.for_ map]. rewrite Hstep. cbn [bind]. rewrite Hrest.
      rewrite <- !app_assoc. reflexivity. }
    split; [exact Hc2|].
    split; [apply Forall_app; split; assumption|].
    rewrite length_app, Hlen1, Hlen2. cbn [filter].
    destruct (picked minimize self item), (placed minimize self item);
      cbn [length]; lia.
Qed.

(** X13. With an optimizer that works on and answers with vectors of the
    shape of its initial guess, [plan_pick_and_place] on a well-formed arm
    returns a sequence of joint vectors that starts at the joint angles of
    the arm and ends at the home position; every frame has one angle for
    each joint; the sequence has 50 frames to home, 60 for every object
    with a target that the solver finds, 60 more for every such object
    whose target the solver finds too, and 50 back to home.  Afterwards
    exactly the objects of the second kind are at their targets and the
    other objects are where they were; the arm and the targets are
    unchanged. *)
Theorem X13_plan_pick_and_place_sequence (minimize : scipy.Minimize)
  (self : PickAndPlace.PickAndPlaceSimulation) :
  keeps_shape minimize -> answers_in_shape minimize ->
  well_formed (PickAndPlace.robot self) ->
  exists (sequence : list (list R))
         (self' : PickAndPlace.PickAndPlaceSimulation),
    PickAndPlace.plan_pick_and_place minimize self = Ok (sequence, self')
    /\ PickAndPlace.robot self' = PickAndPlace.robot self
    /\ PickAndPlace.target_locations self'
       = PickAndPlace.target_locations self
    /\ PickAndPlace.objects self'
       = map (after_plan minimize self)
           (py.enumerate (PickAndPlace.objects self))
    /\ length sequence
       = (100
          + 60 * length (filter (picked minimize self)
                           (py.enumerate (PickAndPlace.objects self)))
          + 60 * length (filter (placed minimize self)
                           (py.enumerate (PickAndPlace.objects self))))%nat
    /\ Forall
         (fun frame =>
            length frame = PartB.num_joints (PickAndPlace.robot self))
         sequence
    /\ nth 0 sequence [] = PartB.joint_angles (PickAndPlace.robot self)
    /\ last sequence []
       = np.zeros (PartB.num_joints (PickAndPlace.robot self)).
Proof.
  intros Hshape Hans Hwf.
  pose proof Hwf as (_ & Hn & _ & Hangles).
  set (n := PartB.num_joints (PickAndPlace.robot self)) in *.
  assert (Hhome : length (np.zeros n) = n)
    by (unfold np.zeros; apply repeat_length).
  destruct (interpolate_path_frames
              (PartB.joint_angles (PickAndPlace.robot self)) (np.zeros n) 50)
    as (path0 & Hpath0 & Hlen0 & Hall0 & Hfirst & _); [lia | lia |].
  destruct (plan_loop minimize self Hshape Hans Hwf
              (py.enumerate (PickAndPlace.objects self)) path0 (np.zeros n)
              [] Hhome)
    as (frames & current & Hloop & Hcur & Hall & Hlen).
  destruct (interpolate_path_frames current (np.zeros n) 50)
    as (path1 & Hpath1 & Hlen1 & Hall1 & _ & Hlast); [lia | lia |].
  exists ((path0 ++ frames) ++ path1).
  eexists. split.
  { unfold PickAndPlace.plan_pick_and_place. fold n.
    rewrite Hpath0. cbn [bind app]. rewrite Hloop. cbn [bind].
    rewrite Hpath1. cbn [bind]. reflexivity. }
  cbn [PickAndPlace.robot PickAndPlace.target_locations PickAndPlace.objects].
  split; [reflexivity|]. split; [reflexivity|]. split; [reflexivity|].
  split; [rewrite !length_app, Hlen0, Hlen1, Hlen; lia|].
  split.
  { rewrite !Forall_app. repeat split.
    - eapply Forall_impl; [|exact Hall0]. cbn beta. intros f Hf. lia.
    - exact Hall.
    - eapply Forall_impl; [|exact Hall1]. cbn beta. intros f Hf. lia. }
  split.
  - rewrite <- app_assoc, app_nth1 by lia. exact Hfirst.
  - rewrite last_app_nonempty; [exact Hlast|].
    intros E. rewrite E in Hlen1. discriminate Hlen1.
Qed.

Lemma X13_plan_pick_and_place_witness :
  (keeps_shape stay /\ answers_in_shape stay
   /\ well_formed (PickAndPlace.robot sample_simulation))
  /\ exists (sequence : list (list R))
            (self' : PickAndPlace.PickAndPlaceSimulation),
       PickAndPlace.plan_pick_and_place stay sample_simulation
       = Ok (sequence, self')
       /\ PickAndPlace.robot self' = PickAndPlace.robot sample_simulation
       /\ PickAndPlace.target_locations self'
          = PickAndPlace.target_locations sample_simulation
       /\ PickAndPlace.objects self'
          = map (after_plan stay sample_simulation)
              (py.enumerate (PickAndPlace.objects sample_simulation))
       /\ length sequence
          = (100
             + 60 * length
                      (filter (picked stay sample_simulation)
                         (py.enumerate
                            (PickAndPlace.objects sample_simulation)))
             + 60 * length
                      (filter (placed stay sample_simulation)
                         (py.enumerate
                            (PickAndPlace.objects sample_simulation))))%nat
       /\ Forall
            (fun frame =>
               length frame
               = PartB.num_joints (PickAndPlace.robot sample_simulation))
            sequence
       /\ nth 0 sequence []
          = PartB.joint_angles (PickAndPlace.robot sample_simulation)
       /\ last sequence []
          = np.zeros (PartB.num_joints (PickAndPlace.robot sample_simulation)).
Proof.
  assert (Hwf : well_formed (PickAndPlace.robot sample_simulation))
    by exact well_formed_arm_3link.
  split.
  { split; [exact keeps_shape_stay|].
    split; [exact answers_in_shape_stay | exact Hwf]. }
  exact (X13_plan_pick_and_place_sequence stay sample_simulation
           keeps_shape_stay answers_in_shape_stay Hwf).
Defined.

(** ** The conveyor belt: spawning and classification *)

(** The dictionary [size_definitions] that [ConveyorBelt.__init__]
    writes. *)
Definition sizes_of_init : list (string * (R * R)) :=
  Conveyor.ConveyorBelt.size_definitions
    (Conveyor.ConveyorBelt.__init__ 0 0 0).

(** The memory after one more draw. *)
Definition after_draw (m : Conveyor.Memory) : Conveyor.Memory :=
  {| Conveyor.heap := Conveyor.heap m;
     Conveyor.allocated := Conveyor.allocated m;
     Conveyor.drawn := S (Conveyor.drawn m) |}.

(** A source whose every float is [u] and whose every index is [k]. *)
Definition constant_source (u : R) (k : nat) : Conveyor.Random :=
  {| Conveyor.unit_draw := fun _ => u; Conveyor.index_draw := fun _ => k |}.

(** A memory without objects. *)
Definition empty_memory : Conveyor.Memory :=
  {| Conveyor.heap :=
       fun _ =>
         {| Conveyor.ConveyorObject.x := 0;
            Conveyor.ConveyorObject.y := 0;
            Conveyor.ConveyorObject.size := "";
            Conveyor.ConveyorObject.color := "";
            Conveyor.ConveyorObject.width := 0;
            Conveyor.ConveyorObject.height := 0;
            Conveyor.ConveyorObject.speed := 0;
            Conveyor.ConveyorObject.picked := false;
            Conveyor.ConveyorObject.sorted := false |};
     Conveyor.allocated := 0;
     Conveyor.drawn := 0 |}.

Lemma random_choice_ok {A : Type} (rng : Conveyor.Random) (l : list A)
  (m : Conveyor.Memory) :
  l <> [] ->
  exists v : A,
    In v l /\ Conveyor.random_choice rng l m = Conveyor.Done (v, after_draw m).
Proof.
  intros Hne. unfold Conveyor.random_choice.
  destruct (nth_error l (Conveyor.index_draw rng (Conveyor.drawn m)
                         mod length l)) as [v|] eqn:E.
  - exists v. split; [exact (nth_error_In _ _ E) | reflexivity].
  - apply nth_error_None in E.
    assert (length l <> 0%nat) by (destruct l; [contradiction | discriminate]).
    pose proof (Nat.mod_upper_bound
                  (Conveyor.index_draw rng (Conveyor.drawn m)) (length l) H).
    lia.
Qed.

Lemma classify_size_of_init (size : string) (dimensions : R * R) :
  In (size, dimensions) sizes_of_init ->
  Conveyor.ObjectDetector.classify_size (fst dimensions) (snd dimensions)
  = size.
Proof.
  unfold sizes_of_init, Conveyor.ConveyorBelt.__init__.
  cbn [Conveyor.ConveyorBelt.size_definitions In].
  unfold Conveyor.ObjectDetector.classify_size.
  intros [H|[H|[H|[]]]]; injection H as <- <-; cbn [fst snd].
  - rewrite (proj2 (le_true_iff _ _)) by lra. reflexivity.
  - rewrite (proj2 (le_false_iff _ _)) by lra.
    rewrite (proj2 (le_true_iff _ _)) by lra. reflexivity.
  - rewrite (proj2 (le_false_iff _ _)) by lra.
    rewrite (proj2 (le_false_iff _ _)) by lra. reflexivity.
Qed.

Lemma lookup_sizes_of_init (size : string) :
  In size ["small"; "medium"; "large"]%string ->
  exists dimensions : R * R,
    Conveyor.lookup String.eqb sizes_of_init size = Some dimensions
    /\ In (size, dimensions) sizes_of_init.
Proof.
  unfold sizes_of_init, Conveyor.ConveyorBelt.__init__.
  cbn [Conveyor.ConveyorBelt.size_definitions].
  intros [H|[H|[H|[]]]]; subst size; eexists; (split; [reflexivity|]);
    cbn [In]; auto.
Qed.

Lemma sorting_zone_defined (system : Conveyor.SortingSystem.t)
  (size color : string) :
  Conveyor.SortingSystem.__init__ = Ok system ->
  In size ["small"; "medium"; "large"]%string ->
  In color ["red"; "green"; "blue"]%string ->
  Conveyor.lookup Conveyor.SortingSystem.key_eqb
    (Conveyor.SortingSystem.sorting_zones system) (size, color) <> None.
Proof.
  unfold Conveyor.SortingSystem.__init__. rewrite arm_4dof_created.
  cbn [bind]. intros H. injection H as <-.
  cbn [Conveyor.SortingSystem.sorting_zones].
  intros [Hs|[Hs|[Hs|[]]]] [Hc|[Hc|[Hc|[]]]]; subst size color;
    discriminate.
Qed.

(** What [spawn_object] does on a belt with the size table of the
    constructor. *)
Lemma spawn_object_value (rng : Conveyor.Random)
  (self : Conveyor.ConveyorBelt.t) (m : Conveyor.Memory) :
  Conveyor.ConveyorBelt.size_definitions self = sizes_of_init ->
  exists (size color : string) (dimensions : R * R) (m' : Conveyor.Memory),
    In size ["small"; "medium"; "large"]%string
    /\ In color ["red"; "green"; "blue"]%string
    /\ In (size, dimensions) sizes_of_init
    /\ Conveyor.ConveyorBelt.spawn_object rng self m
       = Conveyor.Done
           (Conveyor.ConveyorBelt.set_objects self
              (Conveyor.ConveyorBelt.objects self ++ [Conveyor.allocated m]),
            m')
    /\ Conveyor.heap m' (Conveyor.allocated m)
       = {| Conveyor.ConveyorObject.x :=
              Conveyor.ConveyorBelt.belt_x self
              - Conveyor.ConveyorBelt.length self / 2 - 5 / 10;
            Conveyor.ConveyorObject.y :=
              Conveyor.ConveyorBelt.belt_y self
              + (- Conveyor.ConveyorBelt.width self / 4
                 + (Conveyor.ConveyorBelt.width self / 4
                    - - Conveyor.ConveyorBelt.width self / 4)
                   * Conveyor.unit_draw rng (S (S (Conveyor.drawn m))));
            Conveyor.ConveyorObject.size := size;
            Conveyor.ConveyorObject.color := color;
            Conveyor.ConveyorObject.width := fst dimensions;
            Conveyor.ConveyorObject.height := snd dimensions;
            Conveyor.ConveyorObject.speed := Conveyor.ConveyorBelt.speed self;
            Conveyor.ConveyorObject.picked := false;
            Conveyor.ConveyorObject.sorted := false |}
    /\ (forall r : nat,
          r <> Conveyor.allocated m -> Conveyor.heap m' r = Conveyor.heap m r)
    /\ Conveyor.allocated m' = S (Conveyor.allocated m)
    /\ Conveyor.drawn m' = (Conveyor.drawn m + 3)%nat.
Proof.
  intros Hsizes.
  destruct (random_choice_ok rng ["small"; "medium"; "large"]%string m)
    as (size & Hsize & Hdraw1); [discriminate|].
  destruct (random_choice_ok rng ["red"; "green"; "blue"]%string
              (after_draw m)) as (color & Hcolor & Hdraw2); [discriminate|].
  destruct (lookup_sizes_of_init size Hsize) as (dimensions & Hlook & Hin).
  exists size, color, dimensions.
  unfold Conveyor.ConveyorBelt.spawn_object.
  unfold Conveyor.and_then at 1. rewrite Hdraw1.
  unfold Conveyor.and_then at 1. rewrite Hdraw2.
  unfold Conveyor.and_then at 1. unfold Conveyor.getitem.
  rewrite Hsizes, Hlook.
  unfold Conveyor.ret at 1.
  unfold Conveyor.and_then, Conveyor.random_uniform, Conveyor.random_random,
    Conveyor.new, Conveyor.ret, after_draw.
  cbn [Conveyor.heap Conveyor.allocated Conveyor.drawn].
  eexists. split; [exact Hsize|]. split; [exact Hcolor|].
  split; [exact Hin|]. split; [reflexivity|].
  cbn [Conveyor.heap Conveyor.allocated Conveyor.drawn].
  rewrite Nat.eqb_refl.
  split; [reflexivity|].
  split.
  { intros r Hr. destruct (Nat.eqb_spec r (Conveyor.allocated m));
      [contradiction | reflexivity]. }
  split; [reflexivity | lia].
Qed.

(** X14. On a belt with the size table of the constructor,
    [spawn_object] does not raise: it takes three draws, creates one new
    object and appends its reference to the belt, leaving every other
    object as it was.  The new object lies half a unit before the start of
    the belt, moves with the belt's speed and is neither picked nor sorted;
    [classify_size] applied to its width and height gives back its size,
    and the sorting system has a zone for its size and colour. *)
Theorem X14_spawned_object_is_classified
  (rng : Conveyor.Random) (self : Conveyor.ConveyorBelt.t)
  (m : Conveyor.Memory) (system : Conveyor.SortingSystem.t) :
  Conveyor.ConveyorBelt.size_definitions self = sizes_of_init ->
  Conveyor.SortingSystem.__init__ = Ok system ->
  exists (o : Conveyor.ConveyorObject.t) (m' : Conveyor.Memory),
    Conveyor.ConveyorBelt.spawn_object rng self m
    = Conveyor.Done
        (Conveyor.ConveyorBelt.set_objects self
           (Conveyor.ConveyorBelt.objects self ++ [Conveyor.allocated m]),
         m')
    /\ Conveyor.heap m' (Conveyor.allocated m) = o
    /\ (forall r : nat,
          r <> Conveyor.allocated m -> Conveyor.heap m' r = Conveyor.heap m r)
    /\ Conveyor.allocated m' = S (Conveyor.allocated m)
    /\ Conveyor.drawn m' = (Conveyor.drawn m + 3)%nat
    /\ Conveyor.ConveyorObject.x o
       = Conveyor.ConveyorBelt.belt_x self
         - Conveyor.ConveyorBelt.length self / 2 - 5 / 10
    /\ Conveyor.ConveyorObject.speed o = Conveyor.ConveyorBelt.speed self
    /\ Conveyor.ConveyorObject.picked o = false
    /\ Conveyor.ConveyorObject.sorted o = false
    /\ In (Conveyor.ConveyorObject.size o) ["small"; "medium"; "large"]%string
    /\ In (Conveyor.ConveyorObject.color o) ["red"; "green"; "blue"]%string
    /\ Conveyor.ObjectDetector.classify_size
         (Conveyor.ConveyorObject.width o) (Conveyor.ConveyorObject.height o)
       = Conveyor.ConveyorObject.size o
    /\ Conveyor.lookup Conveyor.SortingSystem.key_eqb
         (Conveyor.SortingSystem.sorting_zones system)
         (Conveyor.ConveyorObject.size o, Conveyor.ConveyorObject.color o)
       <> None.
Proof.
  intros Hsizes Hsystem.
  destruct (spawn_object_value rng self m Hsizes)
    as (size & color & dimensions & m' & Hsize & Hcolor & Hin & Hspawn
        & Hnew & Hold & Halloc & Hdrawn).
  exists (Conveyor.heap m' (Conveyor.allocated m)), m'.
  split; [exact Hspawn|]. split; [reflexivity|]. split; [exact Hold|].
  split; [exact Halloc|]. split; [exact Hdrawn|].
  rewrite Hnew.
  cbn [Conveyor.ConveyorObject.x Conveyor.ConveyorObject.y
       Conveyor.ConveyorObject.size Conveyor.ConveyorObject.color
       Conveyor.ConveyorObject.width Conveyor.ConveyorObject.height
       Conveyor.ConveyorObject.speed Conveyor.ConveyorObject.picked
       Conveyor.ConveyorObject.sorted].
  split; [reflexivity|].
  split; [reflexivity|]. split; [reflexivity|]. split; [reflexivity|].
  split; [exact Hsize|]. split; [exact Hcolor|].
  split; [exact (classify_size_of_init size dimensions Hin)|].
  exact (sorting_zone_defined system size color Hsystem Hsize Hcolor).
Qed.

Lemma sorting_system_created :
  exists system : Conveyor.SortingSystem.t,
    Conveyor.SortingSystem.__init__ = Ok system.
Proof.
  unfold Conveyor.SortingSystem.__init__. rewrite arm_4dof_created.
  cbn [bind]. eexists. reflexivity.
Qed.

Lemma X14_spawned_object_witness :
  exists system : Conveyor.SortingSystem.t,
    (Conveyor.ConveyorBelt.size_definitions
       (Conveyor.ConveyorBelt.__init__ 8 (15 / 10) (5 / 10))
     = sizes_of_init
     /\ Conveyor.SortingSystem.__init__ = Ok system)
    /\ exists (o : Conveyor.ConveyorObject.t) (m' : Conveyor.Memory),
         Conveyor.ConveyorBelt.spawn_object (constant_source 0 0)
           (Conveyor.ConveyorBelt.__init__ 8 (15 / 10) (5 / 10)) empty_memory
         = Conveyor.Done
             (Conveyor.ConveyorBelt.set_objects
                (Conveyor.ConveyorBelt.__init__ 8 (15 / 10) (5 / 10))
                (Conveyor.ConveyorBelt.objects
                   (Conveyor.ConveyorBelt.__init__ 8 (15 / 10) (5 / 10))
                 ++ [Conveyor.allocated empty_memory]),
              m')
         /\ Conveyor.ObjectDetector.classify_size
              (Conveyor.ConveyorObject.width o)
              (Conveyor.ConveyorObject.height o)
            = Conveyor.ConveyorObject.size o.
Proof.
  destruct sorting_system_created as [system Hsystem].
  assert (H3 : Conveyor.ConveyorBelt.size_definitions
                 (Conveyor.ConveyorBelt.__init__ 8 (15 / 10) (5 / 10))
               = sizes_of_init) by reflexivity.
  exists system. split; [split; assumption|].
  destruct (X14_spawned_object_is_classified (constant_source 0 0)
              (Conveyor.ConveyorBelt.__init__ 8 (15 / 10) (5 / 10))
              empty_memory system H3 Hsystem)
    as (o & m' & Hspawn & _ & _ & _ & _ & _ & _ & _ & _ & _ & _ & Hsize & _).
  exists o, m'. split; assumption.
Defined.

(** X15. [classify_color] returns the actual colour when the draw is
    below 0.95.  Otherwise it takes a second draw and, for one of the three
    colours of the belt, returns one of the two other colours, never the
    actual one; for any other string it raises [ValueError], from
    [colors.remove]. *)
Theorem X15_classify_color_misses_differ
  (rng : Conveyor.Random) (actual_color : string) (m : Conveyor.Memory) :
  (Conveyor.unit_draw rng (Conveyor.drawn m) < 95 / 100 ->
   Conveyor.ObjectDetector.classify_color rng actual_color m
   = Conveyor.Done (actual_color, after_draw m))
  /\ (95 / 100 <= Conveyor.unit_draw rng (Conveyor.drawn m) ->
      In actual_color ["red"; "green"; "blue"]%string ->
      exists c : string,
        Conveyor.ObjectDetector.classify_color rng actual_color m
        = Conveyor.Done (c, after_draw (after_draw m))
        /\ c <> actual_color
        /\ In c ["red"; "green"; "blue"]%string)
  /\ (95 / 100 <= Conveyor.unit_draw rng (Conveyor.drawn m) ->
      ~ In actual_color ["red"; "green"; "blue"]%string ->
      Conveyor.ObjectDetector.classify_color rng actual_color m
      = Conveyor.Fail (Conveyor.Builtin ValueError)).
Proof.
  unfold Conveyor.ObjectDetector.classify_color, Conveyor.and_then,
    Conveyor.random_random.
  fold (after_draw m).
  split; [|split].
  - intros H. rewrite (proj2 (lt_true_iff _ _) H). reflexivity.
  - intros H Hin. rewrite (proj2 (lt_false_iff _ _) H).
    destruct Hin as [E|[E|[E|[]]]]; subst actual_color;
      cbn [Conveyor.remove String.eqb Ascii.eqb Bool.eqb bind Conveyor.lift].
    + destruct (random_choice_ok rng ["green"; "blue"]%string (after_draw m))
        as (c & Hc & Hdraw); [discriminate|].
      exists c. split; [exact Hdraw|].
      destruct Hc as [<-|[<-|[]]]; (split; [discriminate | cbn [In]; auto]).
    + destruct (random_choice_ok rng ["red"; "blue"]%string (after_draw m))
        as (c & Hc & Hdraw); [discriminate|].
      exists c. split; [exact Hdraw|].
      destruct Hc as [<-|[<-|[]]]; (split; [discriminate | cbn [In]; auto]).
    + destruct (random_choice_ok rng ["red"; "green"]%string (after_draw m))
        as (c & Hc & Hdraw); [discriminate|].
      exists c. split; [exact Hdraw|].
      destruct Hc as [<-|[<-|[]]]; (split; [discriminate | cbn [In]; auto]).
  - intros H Hnot. rewrite (proj2 (lt_false_iff _ _) H).
    cbn [Conveyor.remove].
    destruct (String.eqb_spec "red" actual_color) as [E|_];
      [exfalso; apply Hnot; cbn [In]; auto|].
    destruct (String.eqb_spec "green" actual_color) as [E|_];
      [exfalso; apply Hnot; cbn [In]; auto|].
    destruct (String.eqb_spec "blue" actual_color) as [E|_];
      [exfalso; apply Hnot; cbn [In]; auto|].
    reflexivity.
Qed.

Lemma X15_classify_color_witness :
  (95 / 100
   <= Conveyor.unit_draw (constant_source (99 / 100) 0)
        (Conveyor.drawn empty_memory)
   /\ In "red"%string ["red"; "green"; "blue"]%string)
  /\ exists c : string,
       Conveyor.ObjectDetector.classify_color (constant_source (99 / 100) 0)
         "red" empty_memory
       = Conveyor.Done (c, after_draw (after_draw empty_memory))
       /\ c <> "red"%string
       /\ In c ["red"; "green"; "blue"]%string.
Proof.
  assert (H1 : 95 / 100
               <= Conveyor.unit_draw (constant_source (99 / 100) 0)
                    (Conveyor.drawn empty_memory))
    by (cbn [Conveyor.unit_draw constant_source]; lra).
  assert (H2 : In "red"%string ["red"; "green"; "blue"]%string)
    by (cbn [In]; auto).
  split; [split; assumption|].
  exact (proj1 (proj2 (X15_classify_color_misses_differ
                         (constant_source (99 / 100) 0) "red" empty_memory))
           H1 H2).
Defined.

(** ** The conveyor belt: [update] *)

(** The abscissa beyond which [update] takes an object off the belt. *)
Definition belt_end (self : Conveyor.ConveyorBelt.t) : R :=
  Conveyor.ConveyorBelt.belt_x self + Conveyor.ConveyorBelt.length self / 2
  + 1.

(** An object after one turn of the loop of [update], and whether the
    loop leaves it on the belt. *)
Definition moved (self : Conveyor.ConveyorBelt.t) (dt : R)
  (o : Conveyor.ConveyorObject.t) : Conveyor.ConveyorObject.t :=
  if Conveyor.ConveyorObject.picked o then o
  else Conveyor.ConveyorObject.set_x o
         (Conveyor.ConveyorObject.x o + Conveyor.ConveyorBelt.speed self * dt).

Definition stays (self : Conveyor.ConveyorBelt.t)
  (o : Conveyor.ConveyorObject.t) : bool :=
  Conveyor.ConveyorObject.picked o
  || negb (py.lt (belt_end self) (Conveyor.ConveyorObject.x o)).

(** The memory after the object of reference [r] has been replaced. *)
Definition store (m : Conveyor.Memory) (r : nat)
  (o : Conveyor.ConveyorObject.t) : Conveyor.Memory :=
  {| Conveyor.heap := fun k => if (k =? r)%nat then o else Conveyor.heap m k;
     Conveyor.allocated := Conveyor.allocated m;
     Conveyor.drawn := Conveyor.drawn m |}.

Lemma remove_first {A : Type} (p : A -> bool) (a : A) (rest : list A) :
  forall kept : list A,
    (forall r, In r kept -> p r = false) -> p a = true ->
    Conveyor.remove p (kept ++ a :: rest) = Ok (kept ++ rest).
Proof.
  induction kept as [|k kept IH]; intros Hkept Ha.
  - cbn [app Conveyor.remove]. rewrite Ha. reflexivity.
  - cbn [app Conveyor.remove].
    rewrite (Hkept k) by (left; reflexivity).
    rewrite IH; [reflexivity | | exact Ha].
    intros r Hr. apply Hkept. right. exact Hr.
Qed.

Lemma float_eq_true (a b : R) : Conveyor.float_eq a b = true -> a = b.
Proof.
  unfold Conveyor.float_eq. destruct (Req_dec_T a b); [auto | discriminate].
Qed.

Lemma eqb_stays (self : Conveyor.ConveyorBelt.t)
  (a b : Conveyor.ConveyorObject.t) :
  Conveyor.ConveyorObject.eqb a b = true -> stays self a = stays self b.
Proof.
  unfold Conveyor.ConveyorObject.eqb. intros H.
  repeat (apply andb_true_iff in H; destruct H as [H ?]).
  apply float_eq_true in H.
  match goal with
  | Hp : Bool.eqb (Conveyor.ConveyorObject.picked a) _ = true |- _ =>
      apply Bool.eqb_prop in Hp; unfold stays; rewrite H, Hp; reflexivity
  end.
Qed.

(** One turn of the loop of [update]. *)
Lemma update_body_value (dt : R) (self : Conveyor.ConveyorBelt.t)
  (l : list nat) (obj : nat) (m : Conveyor.Memory) :
  Conveyor.ConveyorBelt.update_body dt
    (Conveyor.ConveyorBelt.set_objects self l) obj m
  = if Conveyor.ConveyorObject.picked (Conveyor.heap m obj)
    then Conveyor.Done (Conveyor.ConveyorBelt.set_objects self l, m)
    else
      let m1 := store m obj (moved self dt (Conveyor.heap m obj)) in
      if stays self (Conveyor.heap m1 obj)
      then Conveyor.Done (Conveyor.ConveyorBelt.set_objects self l, m1)
      else
        match
          Conveyor.remove
            (fun r =>
               (r =? obj)%nat
               || Conveyor.ConveyorObject.eqb (Conveyor.heap m1 r)
                    (Conveyor.heap m1 obj))
            l
        with
        | Ok l' => Conveyor.Done (Conveyor.ConveyorBelt.set_objects self l', m1)
        | Raise e => Conveyor.Fail (Conveyor.Builtin e)
        end.
Proof.
  unfold Conveyor.ConveyorBelt.update_body, Conveyor.and_then, Conveyor.read,
    Conveyor.write, moved, stays, belt_end, store, Conveyor.ret.
  destruct (Conveyor.ConveyorObject.picked (Conveyor.heap m obj)) eqn:Hp;
    cbn [negb]; [reflexivity|].
  cbv zeta.
  cbn [Conveyor.heap Conveyor.ConveyorBelt.speed Conveyor.ConveyorBelt.belt_x
       Conveyor.ConveyorBelt.length Conveyor.ConveyorBelt.objects
       Conveyor.ConveyorBelt.set_objects].
  rewrite Nat.eqb_refl.
  cbn [Conveyor.ConveyorObject.x Conveyor.ConveyorObject.picked
       Conveyor.ConveyorObject.set_x].
  rewrite Hp. cbn [orb].
  destruct (py.lt _ _); cbn [negb]; [|reflexivity].
  cbv beta. cbn [Conveyor.heap]. rewrite Nat.eqb_refl.
  unfold Conveyor.lift.
  destruct (Conveyor.remove _ l) as [l'|e]; reflexivity.
Qed.

Lemma store_same (m : Conveyor.Memory) (r : nat)
  (o : Conveyor.ConveyorObject.t) : Conveyor.heap (store m r o) r = o.
Proof. unfold store. cbn [Conveyor.heap]. rewrite Nat.eqb_refl. reflexivity. Qed.

Lemma store_other (m : Conveyor.Memory) (r k : nat)
  (o : Conveyor.ConveyorObject.t) :
  k <> r -> Conveyor.heap (store m r o) k = Conveyor.heap m k.
Proof.
  intros H. unfold store. cbn [Conveyor.heap].
  destruct (Nat.eqb_spec k r); [contradiction | reflexivity].
Qed.

Lemma stays_moved_picked (self : Conveyor.ConveyorBelt.t) (dt : R)
  (o : Conveyor.ConveyorObject.t) :
  Conveyor.ConveyorObject.picked o = true -> stays self (moved self dt o) = true.
Proof.
  intros H. unfold moved, stays. rewrite H, H. reflexivity.
Qed.

(** The loop of [update] on a list of distinct references: [kept] are the
    references already visited and left on the belt. *)
Lemma belt_update_loop (dt : R) (self : Conveyor.ConveyorBelt.t) :
  forall (rest kept : list nat) (m : Conveyor.Memory),
    NoDup (kept ++ rest) ->
    (forall r, In r kept -> stays self (Conveyor.heap m r) = true) ->
    exists m' : Conveyor.Memory,
      Conveyor.for_each rest (Conveyor.ConveyorBelt.update_body dt)
        (Conveyor.ConveyorBelt.set_objects self (kept ++ rest)) m
      = Conveyor.Done
          (Conveyor.ConveyorBelt.set_objects self
             (kept
              ++ filter
                   (fun r => stays self (moved self dt (Conveyor.heap m r)))
                   rest),
           m')
      /\ Conveyor.allocated m' = Conveyor.allocated m
      /\ Conveyor.drawn m' = Conveyor.drawn m
      /\ (forall r, In r rest ->
            Conveyor.heap m' r = moved self dt (Conveyor.heap m r))
      /\ (forall r, ~ In r rest -> Conveyor.heap m' r = Conveyor.heap m r).
Proof.
  induction rest as [|obj rest IH]; intros kept m Hnd Hkept.
  - exists m. cbn [Conveyor.for_each filter]. unfold Conveyor.ret.
    repeat split; auto. intros r [].
  - assert (Hobj_kept : ~ In obj kept).
    { intros Hin. apply NoDup_remove_2 in Hnd. apply Hnd.
      apply in_or_app. left. exact Hin. }
    assert (Hobj_rest : ~ In obj rest).
    { intros Hin. apply NoDup_remove_2 in Hnd. apply Hnd.
      apply in_or_app. right. exact Hin. }
    assert (Hnd' : NoDup ((kept ++ [obj]) ++ rest)).
    { rewrite <- app_assoc. exact Hnd. }
    cbn [Conveyor.for_each]. unfold Conveyor.and_then at 1.
    rewrite update_body_value.
    destruct (Conveyor.ConveyorObject.picked (Conveyor.heap m obj)) eqn:Hp.
    + (* a picked object is left alone *)
      destruct (IH (kept ++ [obj]) m Hnd') as (m' & Hrun & Ha & Hd & Hin & Hout).
      { intros r Hr. apply in_app_or in Hr. destruct Hr as [Hr|[<-|[]]].
        - apply Hkept. exact Hr.
        - unfold stays. rewrite Hp. reflexivity. }
      exists m'. rewrite <- app_assoc in Hrun. cbn [app] in Hrun.
      split.
      { rewrite Hrun. cbn [filter].
        rewrite (stays_moved_picked self dt _ Hp).
        rewrite <- app_assoc. reflexivity. }
      split; [exact Ha|]. split; [exact Hd|].
      split.
      * intros r [<-|Hr]; [|apply Hin; exact Hr].
        rewrite Hout by exact Hobj_rest. unfold moved. rewrite Hp.
        reflexivity.
      * intros r Hr. apply Hout. intros Hr'. apply Hr. right. exact Hr'.
    + cbv zeta.
      set (m1 := store m obj (moved self dt (Conveyor.heap m obj))).
      assert (Hm1 : Conveyor.heap m1 obj = moved self dt (Conveyor.heap m obj))
        by apply store_same.
      assert (Hm1' : forall r, r <> obj ->
                Conveyor.heap m1 r = Conveyor.heap m r)
        by (intros r Hr; apply store_other; exact Hr).
      assert (Hfilter :
                filter (fun r => stays self (moved self dt (Conveyor.heap m1 r)))
                  rest
                = filter (fun r => stays self (moved self dt (Conveyor.heap m r)))
                    rest).
      { apply filter_ext_in. intros r Hr. rewrite Hm1'; [reflexivity|].
        intros ->. contradiction. }
      rewrite Hm1.
      destruct (stays self (moved self dt (Conveyor.heap m obj))) eqn:Hs.
      * (* the object stays on the belt *)
        destruct (IH (kept ++ [obj]) m1 Hnd')
          as (m' & Hrun & Ha & Hd & Hin & Hout).
        { intros r Hr. apply in_app_or in Hr. destruct Hr as [Hr|[<-|[]]].
          - rewrite Hm1' by (intros ->; contradiction). apply Hkept. exact Hr.
          - rewrite Hm1. exact Hs. }
        exists m'. rewrite <- app_assoc in Hrun. cbn [app] in Hrun.
        split.
        { rewrite Hrun. cbn [filter]. rewrite Hs, Hfilter, <- app_assoc.
          reflexivity. }
        split; [exact Ha|]. split; [exact Hd|].
        split.
        -- intros r [<-|Hr].
           ++ rewrite Hout by exact Hobj_rest. exact Hm1.
           ++ rewrite Hin by exact Hr. rewrite Hm1'; [reflexivity|].
              intros ->. contradiction.
        -- intros r Hr. rewrite Hout by (intros Hr'; apply Hr; right; exact Hr').
           apply Hm1'. intros ->. apply Hr. left. reflexivity.
      * (* the object has passed the end of the belt *)
        rewrite remove_first.
        2:{ intros r Hr.
            assert (Hne : r <> obj) by (intros ->; contradiction).
            destruct (Nat.eqb_spec r obj) as [E|_]; [contradiction|].
            cbn [orb].
            destruct (Conveyor.ConveyorObject.eqb (Conveyor.heap m1 r) _)
              eqn:E; [|reflexivity].
            apply (eqb_stays self) in E. rewrite Hs in E.
            rewrite Hm1' in E by exact Hne.
            rewrite (Hkept r Hr) in E. discriminate E. }
        2:{ rewrite Nat.eqb_refl. reflexivity. }
        destruct (IH kept m1) as (m' & Hrun & Ha & Hd & Hin & Hout).
        { apply NoDup_remove_1 in Hnd. exact Hnd. }
        { intros r Hr. rewrite Hm1' by (intros ->; contradiction).
          apply Hkept. exact Hr. }
        exists m'.
        split.
        { rewrite Hrun. cbn [filter]. rewrite Hs, Hfilter. reflexivity. }
        split; [exact Ha|]. split; [exact Hd|].
        split.
        -- intros r [<-|Hr].
           ++ rewrite Hout by exact Hobj_rest. exact Hm1.
           ++ rewrite Hin by exact Hr. rewrite Hm1'; [reflexivity|].
              intros ->. contradiction.
        -- intros r Hr. rewrite Hout by (intros Hr'; apply Hr; right; exact Hr').
           apply Hm1'. intros ->. apply Hr. left. reflexivity.
Qed.
